(** * VIGA_FINAL: the reinforcement design core of the beam design window

    A shallow embedding of the numeric core of
    [src/vigapp/ui/design_window.py] (class [DesignWindow]) and of the bar
    reordering of [vigapp/ui/view3d_window.py] (class [View3DWindow]).

    Conventions of the embedding.
    - Python floats are idealised as the real numbers [R]; rounding,
      overflow and infinities are outside the model.  The one place where
      the code can leave the reals silently is [np.sqrt] on a negative
      argument, which numpy answers with nan; that value is kept
      ([np64]).  One statement, the sign of the raw area at a zero
      moment, does not survive rounding: for it [_calc_as_req] has a
      second model in binary64 ([B64]).
    - Python exceptions are explicit ([exn], [result]).  Methods that read
      or write attributes of [self] live in a state-and-exception monad
      [M]: the window state survives a raised exception, as the attributes
      of a Python object do.
    - The text of a [QLineEdit] is kept as what [float] makes of it
      ([ltext]), the text of a [QComboBox] as what [int] makes of it
      ([ctext]).
    - [BAR_DATA] and [DIAM_CM] come from [vigapp/models/constants.py];
      every definition is parameterised over them ([Constants]). *)

From Stdlib Require Import Reals Lra ZArith.
From Stdlib Require PrimFloat.
From stdpp Require Import gmap strings list sorting.

Open Scope R_scope.

(** ** Decidable comparisons on [R], for [if] on Python comparisons *)

#[global] Instance Rle_decision : RelDecision Rle := Rle_dec.
#[global] Instance Rlt_decision : RelDecision Rlt := Rlt_dec.
#[global] Instance Rgt_decision : RelDecision Rgt := Rgt_dec.
#[global] Instance Rge_decision : RelDecision Rge := Rge_dec.
#[global] Instance Req_decision : EqDecision R := Req_dec_T.
#[global] Instance nat_ge_decision : RelDecision ge :=
  fun x y => decide (y <= x)%nat.

(** ** Exceptions and results *)

Inductive exn : Type :=
| ValueError
| ZeroDivisionError
| KeyError
| IndexError
| OverflowError.

Inductive result (A : Type) : Type :=
| Ok (a : A)
| Raise (e : exn).

Arguments Ok {A} a.
Arguments Raise {A} e.

#[global] Instance result_ret : MRet result := fun A a => Ok a.
#[global] Instance result_bind : MBind result := fun A B f m =>
  match m with
  | Ok a => f a
  | Raise e => Raise e
  end.

(** A [for] loop (or a list comprehension) whose body may raise. *)
Fixpoint foldM {A B : Type} (f : A -> B -> result A) (a : A) (l : list B)
  : result A :=
  match l with
  | [] => Ok a
  | x :: l' => a' ← f a x; foldM f a' l'
  end.

Fixpoint mapM_result {A B : Type} (f : A -> result B) (l : list A)
  : result (list B) :=
  match l with
  | [] => Ok []
  | x :: l' => y ← f x; ys ← mapM_result f l'; Ok (y :: ys)
  end.

(** Python's [x / y] on floats. *)
Definition pydiv (x y : R) : result R :=
  if decide (y = 0) then Raise ZeroDivisionError else Ok (x / y).

(** [d[k]] on a dict. *)
Definition py_getitem {V : Type} (d : gmap Z V) (k : Z) : result V :=
  match d !! k with
  | Some v => Ok v
  | None => Raise KeyError
  end.

(** [d.get(k, 0)] on a dict of floats keyed by strings. *)
Definition dict_get (d : gmap string R) (k : string) : R :=
  default 0 (d !! k).

(** Python's [max] on a non-empty list of floats. *)
Definition py_max (l : list R) : result R :=
  match l with
  | [] => Raise ValueError
  | x :: l' => Ok (foldl Rmax x l')
  end.

(** Python's [sum] on a list of floats. *)
Definition py_sum (l : list R) : R := foldl Rplus 0 l.

(** ** numpy values *)

(** A numpy float that may be nan. *)
Inductive np64 : Type :=
| Real (x : R)
| Nan.

(** [np.sqrt] on a scalar: nan (and a warning) below zero. *)
Definition np_sqrt (x : R) : np64 :=
  if decide (x < 0) then Nan else Real (sqrt x).

(** [np.clip(x, lo, hi)] is [minimum(maximum(x, lo), hi)]; a nan bound
    makes the result nan. *)
Definition np_clip (x : R) (lo : np64) (hi : R) : np64 :=
  match lo with
  | Real l => Real (Rmin (Rmax x l) hi)
  | Nan => Nan
  end.

(** [np.zeros(n)]. *)
Definition np_zeros (n : nat) : list np64 := replicate n (Real 0).

(** [t >= req] where [req] comes out of [np.clip]: false on nan. *)
Definition ge_np (t : R) (req : np64) : bool :=
  match req with
  | Real x => bool_decide (t >= x)
  | Nan => false
  end.

(** ** Widget texts *)

(** The text of a line edit, seen through [float(...)]. *)
Inductive ltext : Type :=
| FloatText (x : R)
| NotFloat.

Definition py_float (t : ltext) : result R :=
  match t with
  | FloatText x => Ok x
  | NotFloat => Raise ValueError
  end.

(** The current text of a combo box, seen through [int(...)]. *)
Inductive ctext : Type :=
| Blank
| IntText (z : Z)
| NotInt.

(** [int(t) if t else dflt], outside any [try]. *)
Definition int_or (dflt : Z) (t : ctext) : result Z :=
  match t with
  | Blank => Ok dflt
  | IntText z => Ok z
  | NotInt => Raise ValueError
  end.

(** The quantity of a row:
    [try: n = int(t) if t else 0 / except ValueError: n = 0]. *)
Definition qty_of (t : ctext) : Z :=
  match int_or 0 t with
  | Ok n => n
  | Raise _ => 0%Z
  end.

(** ** The bar catalogue *)

Class Constants : Type := {
  BAR_DATA : gmap string R;   (* designation -> area, cm2 *)
  DIAM_CM : gmap string R     (* designation -> diameter, cm *)
}.

(** ** Required steel area for one moment *)

(** [DesignWindow._calc_as_req].  The moment is taken as a Python float,
    so that each of the three quotients raises on a zero divisor (with a
    numpy scalar for [Mu] the last quotient would give inf or nan instead;
    no statement below depends on that case). *)
Definition _calc_as_req (Mu fc b d fy phi : R) : result R :=
  let Mu_kgcm := Rabs Mu * 100000 in
  term ← pydiv (1.7 * fc * b * d) (2 * fy);
  q1 ← pydiv (2.89 * (fc * b * d) ^ 2) (fy ^ 2);
  q2 ← pydiv (6.8 * fc * b * Mu_kgcm) (phi * fy ^ 2);
  let root := q1 - q2 in
  let root := Rmax root 0 in
  Ok (term - 0.5 * sqrt root).

(** [DesignWindow._calc_as_limits].  The [as_min] line is numpy arithmetic
    ([np.sqrt(fc) / fy] never raises); the [pmax] line is Python float
    arithmetic and raises on a zero divisor. *)
Definition beta1_of (fc : R) : R :=
  if decide (fc <= 280) then 0.85 else 0.85 - ((fc - 280) / 70) * 0.05.

Definition _calc_as_limits (fc fy b d : R) : result (np64 * R) :=
  let beta1 := beta1_of fc in
  let as_min :=
    match np_sqrt fc with
    | Real s => Real (0.7 * (s / fy) * b * d)
    | Nan => Nan
    end in
  q1 ← pydiv (0.85 * fc * beta1) fy;
  q2 ← pydiv 6000 (6000 + fy);
  let pmax := 0.75 * (q1 * q2) in
  let as_max := pmax * b * d in
  Ok (as_min, as_max).

(** The two parts of the formula of [_calc_as_req], for statements. *)
Definition as_term (fc b d fy : R) : R := 1.7 * fc * b * d / (2 * fy).

Definition radicand (Mu fc b d fy phi : R) : R :=
  2.89 * (fc * b * d) ^ 2 / fy ^ 2
  - 6.8 * fc * b * (Rabs Mu * 100000) / (phi * fy ^ 2).

(** The limits of [_calc_as_limits] as formulas. *)
Definition as_min_formula (fc fy b d : R) : R :=
  0.7 * (sqrt fc / fy) * b * d.

Definition as_max_formula (fc fy b d : R) : R :=
  0.75 * ((0.85 * fc * beta1_of fc / fy) * (6000 / (6000 + fy))) * b * d.

(** ** State-and-exception monad for methods *)

Definition M (S A : Type) : Type := S -> S * result A.

#[global] Instance M_ret {S : Type} : MRet (M S) := fun A a s => (s, Ok a).
#[global] Instance M_bind {S : Type} : MBind (M S) := fun A B f m s =>
  match m s with
  | (s', Ok a) => f a s'
  | (s', Raise e) => (s', Raise e)
  end.

Definition get {S : Type} : M S S := fun s => (s, Ok s).
Definition modify {S : Type} (f : S -> S) : M S unit := fun s => (f s, Ok tt).
Definition lift {S A : Type} (r : result A) : M S A := fun s => (s, r).

(** The state a method leaves behind, and what it returns or raises. *)
Definition exec {S A : Type} (m : M S A) (s : S) : S := fst (m s).
Definition eval {S A : Type} (m : M S A) (s : S) : result A := snd (m s).

(** ** The design window *)

(** The keys of the inch sizes: the fraction followed by the inch mark
    (character 34). *)
Definition inch (frac : string) : string :=
  frac +:+ String (Ascii.ascii_of_nat 34) EmptyString.

(** One row of combo boxes: the dict with keys qty, dia, capa and widget.
    Widgets are objects compared by identity: a number each. *)
Record Row : Type := {
  qty : ctext;
  dia : string;
  capa : ctext;
  widget : nat
}.

(** [self.edits], without the read-only display of d. *)
Record Edits : Type := {
  edit_b : ltext;
  edit_h : ltext;
  edit_r : ltext;
  edit_fc : ltext;
  edit_fy : ltext;
  edit_phi : ltext
}.

(** Attributes and labels that the methods write. *)
Record Derived : Type := {
  layer_combo : Z;
  as_min : np64;
  as_max : R;
  as_n_raw : list R;
  as_p_raw : list R;
  as_total : R;
  base_req_label : option R;       (* [None] is the initial dash *)
  base_msg_label : string;
  ax_des : list R * list string    (* what draw_design_distribution got *)
}.

Record DesignWindow : Type := {
  mn_corr : list R;
  mp_corr : list R;
  edits : Edits;
  cb_estribo : string;
  cb_varilla : string;
  rebar_rows : list (list Row);
  next_widget : nat;
  derived : Derived
}.

Definition set_derived (f : Derived -> Derived) (w : DesignWindow)
  : DesignWindow :=
  {| mn_corr := mn_corr w; mp_corr := mp_corr w; edits := edits w;
     cb_estribo := cb_estribo w; cb_varilla := cb_varilla w;
     rebar_rows := rebar_rows w; next_widget := next_widget w;
     derived := f (derived w) |}.

Definition set_rebar_rows (rows : list (list Row)) (w : DesignWindow)
  : DesignWindow :=
  {| mn_corr := mn_corr w; mp_corr := mp_corr w; edits := edits w;
     cb_estribo := cb_estribo w; cb_varilla := cb_varilla w;
     rebar_rows := rows; next_widget := next_widget w;
     derived := derived w |}.

Definition set_next_widget (k : nat) (w : DesignWindow) : DesignWindow :=
  {| mn_corr := mn_corr w; mp_corr := mp_corr w; edits := edits w;
     cb_estribo := cb_estribo w; cb_varilla := cb_varilla w;
     rebar_rows := rebar_rows w; next_widget := k;
     derived := derived w |}.

Definition set_layer_combo (k : Z) : DesignWindow -> DesignWindow :=
  set_derived (fun o =>
    {| layer_combo := k; as_min := as_min o; as_max := as_max o;
       as_n_raw := as_n_raw o; as_p_raw := as_p_raw o;
       as_total := as_total o; base_req_label := base_req_label o;
       base_msg_label := base_msg_label o; ax_des := ax_des o |}).

Definition set_limits (lo : np64) (hi : R) : DesignWindow -> DesignWindow :=
  set_derived (fun o =>
    {| layer_combo := layer_combo o; as_min := lo; as_max := hi;
       as_n_raw := as_n_raw o; as_p_raw := as_p_raw o;
       as_total := as_total o; base_req_label := base_req_label o;
       base_msg_label := base_msg_label o; ax_des := ax_des o |}).

Definition set_raw (rn rp : list R) : DesignWindow -> DesignWindow :=
  set_derived (fun o =>
    {| layer_combo := layer_combo o; as_min := as_min o; as_max := as_max o;
       as_n_raw := rn; as_p_raw := rp;
       as_total := as_total o; base_req_label := base_req_label o;
       base_msg_label := base_msg_label o; ax_des := ax_des o |}).

Definition set_as_total (t : R) : DesignWindow -> DesignWindow :=
  set_derived (fun o =>
    {| layer_combo := layer_combo o; as_min := as_min o; as_max := as_max o;
       as_n_raw := as_n_raw o; as_p_raw := as_p_raw o;
       as_total := t; base_req_label := base_req_label o;
       base_msg_label := base_msg_label o; ax_des := ax_des o |}).

Definition set_base_req (x : R) : DesignWindow -> DesignWindow :=
  set_derived (fun o =>
    {| layer_combo := layer_combo o; as_min := as_min o; as_max := as_max o;
       as_n_raw := as_n_raw o; as_p_raw := as_p_raw o;
       as_total := as_total o; base_req_label := Some x;
       base_msg_label := base_msg_label o; ax_des := ax_des o |}).

Definition set_base_msg (s : string) : DesignWindow -> DesignWindow :=
  set_derived (fun o =>
    {| layer_combo := layer_combo o; as_min := as_min o; as_max := as_max o;
       as_n_raw := as_n_raw o; as_p_raw := as_p_raw o;
       as_total := as_total o; base_req_label := base_req_label o;
       base_msg_label := s; ax_des := ax_des o |}).

Definition set_ax_des (p : list R * list string)
  : DesignWindow -> DesignWindow :=
  set_derived (fun o =>
    {| layer_combo := layer_combo o; as_min := as_min o; as_max := as_max o;
       as_n_raw := as_n_raw o; as_p_raw := as_p_raw o;
       as_total := as_total o; base_req_label := base_req_label o;
       base_msg_label := base_msg_label o; ax_des := p |}).

(** [self.rebar_rows[idx]] *)
Definition rows_at (w : DesignWindow) (idx : nat) : result (list Row) :=
  match rebar_rows w !! idx with
  | Some rows => Ok rows
  | None => Raise IndexError
  end.

Section Design.
Context `{Constants}.

(** *** Effective depth *)

(** The body of the double loop of [calc_effective_depth]: the entry with
    the largest area seen so far in its layer wins the layer. *)
Definition scan_row (st : gmap Z R * gmap Z R) (row : Row)
  : result (gmap Z R * gmap Z R) :=
  let '(layer_areas, layer_diams) := st in
  let n := qty_of (qty row) in
  let dia_key := dia row in
  let area := IZR n * dict_get BAR_DATA dia_key in
  layer ← int_or 1 (capa row);
  cur ← py_getitem layer_areas layer;
  if decide (area > cur)
  then Ok (<[layer := area]> layer_areas,
           <[layer := dict_get DIAM_CM dia_key]> layer_diams)
  else Ok (layer_areas, layer_diams).

Definition scan_rows (st : gmap Z R * gmap Z R) (sections : list (list Row))
  : result (gmap Z R * gmap Z R) :=
  foldM (fun st rows => foldM scan_row st rows) st sections.

(** [for layer_num in range(1, 5): ...] *)
Definition detect_max_layer (layer_areas : gmap Z R) : result Z :=
  foldM (fun max_layer layer_num =>
           a ← py_getitem layer_areas layer_num;
           Ok (if decide (a > 0) then Z.max max_layer layer_num
               else max_layer))
        1%Z [1; 2; 3; 4]%Z.

(** The cascade on [max_layer]. *)
Definition depth_of_layers (h r de : R) (layer_areas layer_diams : gmap Z R)
  (max_layer : Z) : result R :=
  db1 ← py_getitem layer_diams 1;
  let d1 := h - r - de - 0.5 * db1 in
  if decide (max_layer = 1%Z) then Ok d1 else
  db2 ← py_getitem layer_diams 2;
  let d2 := h - r - de - db1 - 2.5 - 0.5 * db2 in
  if decide (max_layer = 2%Z) then
    As1 ← py_getitem layer_areas 1;
    As2 ← py_getitem layer_areas 2;
    Ok (if decide (As1 + As2 <> 0)
        then (d1 * As1 + d2 * As2) / (As1 + As2) else d1)
  else
  db3 ← py_getitem layer_diams 3;
  let d3 := h - r - de - db1 - 2.5 - db2 - 2.5 - 0.5 * db3 in
  if decide (max_layer = 3%Z) then
    As1 ← py_getitem layer_areas 1;
    As2 ← py_getitem layer_areas 2;
    As3 ← py_getitem layer_areas 3;
    let s := As1 + As2 + As3 in
    Ok (if decide (s <> 0)
        then (d1 * As1 + d2 * As2 + d3 * As3) / s else d1)
  else
    let d4 := d3 - 3 in
    As1 ← py_getitem layer_areas 1;
    As2 ← py_getitem layer_areas 2;
    As3 ← py_getitem layer_areas 3;
    As4 ← py_getitem layer_areas 4;
    let s := As1 + As2 + As3 + As4 in
    Ok (if decide (s <> 0)
        then (d1 * As1 + d2 * As2 + d3 * As3 + d4 * As4) / s else d1).

(** [DesignWindow.calc_effective_depth].  [float] raises nothing but
    [ValueError], so the handler takes every exception of the [try]. *)
Definition calc_effective_depth : M DesignWindow R :=
  w ← get;
  match (h ← py_float (edit_h (edits w));
         r ← py_float (edit_r (edits w));
         Ok (h, r)) with
  | Raise _ => mret 0
  | Ok (h, r) =>
    let de := dict_get DIAM_CM (cb_estribo w) in
    let db := dict_get DIAM_CM (cb_varilla w) in
    let layer_areas : gmap Z R :=
      {[ 1%Z := 0; 2%Z := 0; 3%Z := 0; 4%Z := 0 ]} in
    let layer_diams : gmap Z R :=
      {[ 1%Z := db; 2%Z := db; 3%Z := db; 4%Z := db ]} in
    '(layer_areas, layer_diams) ←
      lift (scan_rows (layer_areas, layer_diams) (rebar_rows w));
    max_layer ← lift (detect_max_layer layer_areas);
    modify (set_layer_combo max_layer);;
    lift (depth_of_layers h r de layer_areas layer_diams max_layer)
  end.

(** *** Required areas *)

(** [DesignWindow._required_areas] *)
Definition _required_areas : M DesignWindow (list np64 * list np64) :=
  w ← get;
  match (b ← py_float (edit_b (edits w));
         fc ← py_float (edit_fc (edits w));
         fy ← py_float (edit_fy (edits w));
         phi ← py_float (edit_phi (edits w));
         Ok (b, fc, fy, phi)) with
  | Raise _ => mret (np_zeros 3, np_zeros 3)
  | Ok (b, fc, fy, phi) =>
    d ← calc_effective_depth;
    '(lo, hi) ← lift (_calc_as_limits fc fy b d);
    modify (set_limits lo hi);;
    as_n_raw ← lift (mapM_result (fun m => _calc_as_req m fc b d fy phi)
                                 (mn_corr w));
    as_p_raw ← lift (mapM_result (fun m => _calc_as_req m fc b d fy phi)
                                 (mp_corr w));
    modify (set_raw as_n_raw as_p_raw);;
    let as_n := map (fun x => np_clip x lo hi) as_n_raw in
    let as_p := map (fun x => np_clip x lo hi) as_p_raw in
    mret (as_n, as_p)
  end.

(** *** Provided areas *)

(** [DesignWindow._design_areas] *)
Definition _design_areas (w : DesignWindow) : list R :=
  map (fun rows =>
         foldl (fun total row =>
                  let n := qty_of (qty row) in
                  let dia_key := dia row in
                  let area := dict_get BAR_DATA dia_key in
                  total + IZR n * area)
               0 rows)
      (rebar_rows w).

End Design.

(** *** Base width check and provided areas: [update_design_as] *)

(** The inner dict of [layers]: keys n and sum_d. *)
Record LayerData : Type := {
  ld_n : Z;
  ld_sum_d : R
}.

Section Update.
Context `{Constants}.

(** The body of [for row in rows] in [update_design_as]. *)
Definition row_step (acc : R * gmap Z LayerData) (row : Row)
  : result (R * gmap Z LayerData) :=
  let '(total, layers) := acc in
  let n := qty_of (qty row) in
  let dia_key := dia row in
  let dia := dict_get DIAM_CM dia_key in
  let area := dict_get BAR_DATA dia_key in
  layer ← int_or 1 (capa row);
  let total := total + IZR n * area in
  match layers !! layer with
  | Some ld =>
      Ok (total,
          <[layer := {| ld_n := ld_n ld + n;
                        ld_sum_d := ld_sum_d ld + IZR n * dia |}]> layers)
  | None => Ok (total, layers)
  end.

(** [b_l] for one entry of [layers]. *)
Definition layer_width (r de : R) (ldata : LayerData) : R :=
  let n_l := ld_n ldata in
  let spacing := IZR (Z.max (n_l - 1) 0) * 2.5 in
  2 * r + 2 * de + spacing + ld_sum_d ldata.

Definition layers0 : gmap Z LayerData :=
  {[ 1%Z := {| ld_n := 0; ld_sum_d := 0 |};
     2%Z := {| ld_n := 0; ld_sum_d := 0 |} ]}.

(** [d.values()] of a dict whose keys were inserted in the order [keys]
    and never change. *)
Definition dict_values {V : Type} (keys : list Z) (d : gmap Z V) : list V :=
  omap (fun k => d !! k) keys.

(** The body of [for idx, rows in enumerate(self.rebar_rows)]. *)
Definition section_step (w : DesignWindow) (acc : list R * list R)
  (rows : list Row) : result (list R * list R) :=
  let '(totals, base_reqs) := acc in
  '(total, layers) ← foldM row_step (0, layers0) rows;
  let totals := totals ++ [total] in
  match py_float (edit_r (edits w)) with
  | Raise _ => Ok (totals, base_reqs)
  | Ok r =>
    let de := dict_get DIAM_CM (cb_estribo w) in
    let b_layers := map (layer_width r de) (dict_values [1; 2]%Z layers) in
    m ← py_max b_layers;
    Ok (totals, base_reqs ++ [m])
  end.

Definition status_of (t : R) (req : np64) : string :=
  if ge_np t req then "OK" else "NO OK".

Definition base_msg_of (max_base b_val : R) : string :=
  if decide (max_base <= b_val) then "OK" else "Aumentar base o capa".

(** [DesignWindow.update_design_as] *)
Definition update_design_as : M DesignWindow unit :=
  '(as_req_n, as_req_p) ← _required_areas;
  let as_reqs := as_req_n ++ as_req_p in
  w ← get;
  '(totals, base_reqs) ← lift (foldM (section_step w) ([], []) (rebar_rows w));
  modify (set_as_total (py_sum totals));;
  match base_reqs with
  | [] => mret tt
  | _ :: _ =>
    max_base ← lift (py_max base_reqs);
    modify (set_base_req max_base);;
    match py_float (edit_b (edits w)) with
    | Raise _ => modify (set_base_msg EmptyString)
    | Ok b_val => modify (set_base_msg (base_msg_of max_base b_val))
    end
  end;;
  let statuses := zip_with status_of totals as_reqs in
  modify (set_ax_des (totals, statuses)).

(** *** Adding and removing rows *)

(** [DesignWindow._add_rebar_row]: a new row shows 2 bars of 1/2 inch in
    layer 1 and owns a fresh widget. *)
Definition _add_rebar_row (idx : nat) : M DesignWindow unit :=
  w ← get;
  rows ← lift (rows_at w idx);
  if decide (length rows >= 4)%nat then mret tt else
  let row := {| qty := IntText 2; dia := inch "1/2"; capa := IntText 1;
                widget := next_widget w |} in
  modify (fun w => set_next_widget (S (next_widget w))
                     (set_rebar_rows (<[idx := rows ++ [row]]> (rebar_rows w))
                                     w)).

(** [DesignWindow._remove_rebar_row] *)
Definition _remove_rebar_row (idx : nat) (wid : nat) : M DesignWindow unit :=
  w ← get;
  rows ← lift (rows_at w idx);
  if decide (length rows <= 1)%nat then mret tt else
  modify (fun w =>
            set_rebar_rows
              (<[idx := filter (fun r => widget r <> wid) rows]> (rebar_rows w))
              w);;
  update_design_as.

(** [draw_section], [draw_required_distribution] and [_redraw], as far as
    they reach the attributes of the window; plotting is left out. *)
Definition draw_section : M DesignWindow unit :=
  w ← get;
  match (b ← py_float (edit_b (edits w));
         h ← py_float (edit_h (edits w));
         r ← py_float (edit_r (edits w));
         Ok (b, h, r)) with
  | Raise _ => mret tt
  | Ok _ => calc_effective_depth;; mret tt
  end.

Definition draw_required_distribution : M DesignWindow unit :=
  '(areas_n, areas_p) ← _required_areas;
  (* [np.max] of an empty array raises ValueError *)
  match areas_n, areas_p with
  | _ :: _, _ :: _ => mret tt
  | _, _ => lift (Raise ValueError)
  end.

Definition _redraw : M DesignWindow unit :=
  draw_section;; draw_required_distribution;; update_design_as.

(** [for i in range(6): self._add_rebar_row(i)] *)
Fixpoint add_first_rows (idxs : list nat) : M DesignWindow unit :=
  match idxs with
  | [] => mret tt
  | i :: idxs' => _add_rebar_row i;; add_first_rows idxs'
  end.

(** The window before [_build_ui] fills it: default texts, six empty
    sections. *)
Definition fresh_window (mn_corr mp_corr : list R) : DesignWindow :=
  {| mn_corr := mn_corr; mp_corr := mp_corr;
     edits := {| edit_b := FloatText 30; edit_h := FloatText 50;
                 edit_r := FloatText 4; edit_fc := FloatText 210;
                 edit_fy := FloatText 4200; edit_phi := FloatText 0.9 |};
     cb_estribo := inch "3/8"; cb_varilla := inch "5/8";
     rebar_rows := replicate 6 [];
     next_widget := 0;
     derived := {| layer_combo := 1; as_min := Real 0; as_max := 0;
                   as_n_raw := []; as_p_raw := []; as_total := 0;
                   base_req_label := None; base_msg_label := EmptyString;
                   ax_des := ([], []) |} |}.

(** [DesignWindow._build_ui], as far as it reaches the state. *)
Definition _build_ui : M DesignWindow unit :=
  add_first_rows (seq 0 6);;
  draw_section;; draw_required_distribution;; update_design_as.

(** [DesignWindow.__init__] *)
Definition init_window (mn_corr mp_corr : list R) : DesignWindow :=
  exec _build_ui (fresh_window mn_corr mp_corr).

(** What the user can do to the rows of a section. *)
Inductive click : Type :=
| ClickAdd (idx : nat)
| ClickRemove (idx : nat) (wid : nat).

(** A slot runs to its end or to an exception; the window keeps the
    state either way. *)
Definition on_click (c : click) (w : DesignWindow) : DesignWindow :=
  match c with
  | ClickAdd idx => exec (_add_rebar_row idx) w
  | ClickRemove idx wid => exec (_remove_rebar_row idx wid) w
  end.

Definition run_clicks (cs : list click) (w : DesignWindow) : DesignWindow :=
  foldl (fun w c => on_click c w) w cs.

End Update.

(** ** The section view: bar orders and their reordering *)

Record View3DWindow : Type := {
  design : DesignWindow;
  neg_orders : list (list string);
  pos_orders : list (list string)
}.

Definition set_neg_orders (o : list (list string)) (v : View3DWindow)
  : View3DWindow :=
  {| design := design v; neg_orders := o; pos_orders := pos_orders v |}.

Definition set_pos_orders (o : list (list string)) (v : View3DWindow)
  : View3DWindow :=
  {| design := design v; neg_orders := neg_orders v; pos_orders := o |}.

(** [list.insert(k, x)] for [0 <= k]. *)
Definition list_insert_at {A : Type} (k : nat) (x : A) (l : list A) : list A :=
  take k l ++ x :: drop k l.

Section View.
Context `{Constants}.

(** [View3DWindow._collect_bars] *)
Definition _collect_bars (d : DesignWindow) (idx : nat)
  : result (gmap Z (list (R * string))) :=
  rows ← rows_at d idx;
  foldM (fun layers row =>
           let qty := qty_of (qty row) in
           let dia_key := dia row in
           let dia := dict_get DIAM_CM dia_key in
           if decide ((qty <= 0)%Z \/ dia = 0) then Ok layers else
           layer ← int_or 1 (capa row);
           Ok (<[layer := default [] (layers !! layer)
                          ++ replicate (Z.to_nat qty) (dia, dia_key)]> layers))
        ∅ rows.

(** [View3DWindow._collect_order] *)
Definition _collect_order (d : DesignWindow) (idx : nat)
  : result (list string) :=
  rows ← rows_at d idx;
  Ok (foldl (fun order row =>
               let qty := qty_of (qty row) in
               let dia_key := dia row in
               if decide ((qty <= 0)%Z \/ DIAM_CM !! dia_key = None)
               then order
               else order ++ replicate (Z.to_nat qty) dia_key)
            [] rows).

Definition orders_of (is_pos : bool) (v : View3DWindow) : list (list string) :=
  if is_pos then pos_orders v else neg_orders v.

Definition set_orders (is_pos : bool) (o : list (list string))
  : View3DWindow -> View3DWindow :=
  if is_pos then set_pos_orders o else set_neg_orders o.

(** [[self._collect_order(k + off) for k in range(3)]] *)
Definition collect_orders (d : DesignWindow) (off : nat)
  : result (list (list string)) :=
  mapM_result (fun k => _collect_order d (k + off)) [0; 1; 2]%nat.

(** [View3DWindow.draw_views], as far as it reaches the state: the stored
    orders are regenerated when asked or when empty.  Plotting is left
    out. *)
Definition draw_views (reset_orders : bool) : M View3DWindow unit :=
  v ← get;
  match (b ← py_float (edit_b (edits (design v)));
         h ← py_float (edit_h (edits (design v)));
         r ← py_float (edit_r (edits (design v)));
         Ok (b, h, r)) with
  | Raise _ => mret tt
  | Ok _ =>
    neg_layers ← lift (mapM_result (fun i => _collect_bars (design v) i)
                                   [0; 1; 2]%nat);
    pos_layers ← lift (mapM_result (fun i => _collect_bars (design v) (i + 3))
                                   [0; 1; 2]%nat);
    (if reset_orders || bool_decide (neg_orders v = [])
     then o ← lift (collect_orders (design v) 0); modify (set_neg_orders o)
     else mret tt);;
    v ← get;
    (if reset_orders || bool_decide (pos_orders v = [])
     then o ← lift (collect_orders (design v) 3); modify (set_pos_orders o)
     else mret tt)
  end.

(** [orders = ...; if not orders: orders[:] = [...]; lst = orders[section]] *)
Definition fetch_order (is_pos : bool) (section : Z)
  : M View3DWindow (list (list string) * list string) :=
  v ← get;
  orders ←
    (match orders_of is_pos v with
     | [] =>
         o ← lift (collect_orders (design v) (if is_pos then 3 else 0)%nat);
         modify (set_orders is_pos o);;
         mret o
     | o => mret o
     end);
  match orders !! Z.to_nat section with
  | Some lst => mret (orders, lst)
  | None => lift (Raise IndexError)
  end.

Definition known_sign (sign : string) : bool :=
  bool_decide (sign = "pos") || bool_decide (sign = "neg").

Definition in_range (i : Z) (n : nat) : bool :=
  bool_decide (0 <= i)%Z && bool_decide (i < Z.of_nat n)%Z.

(** [View3DWindow.swap_bars] *)
Definition swap_bars (sign : string) (section i j : Z) : M View3DWindow unit :=
  if negb (known_sign sign) then mret tt else
  if negb (in_range section 3) then mret tt else
  let is_pos := bool_decide (sign = "pos") in
  '(orders, lst) ← fetch_order is_pos section;
  if negb (in_range i (length lst) && in_range j (length lst)) then mret tt
  else
    match lst !! Z.to_nat i, lst !! Z.to_nat j with
    | Some xi, Some xj =>
        let lst' := <[Z.to_nat j := xi]> (<[Z.to_nat i := xj]> lst) in
        modify (set_orders is_pos (<[Z.to_nat section := lst']> orders));;
        draw_views false
    | _, _ => lift (Raise IndexError)
    end.

(** [View3DWindow.move_bar] *)
Definition move_bar (sign : string) (section idx new_idx : Z)
  : M View3DWindow unit :=
  if negb (known_sign sign) then mret tt else
  if negb (in_range section 3) then mret tt else
  let is_pos := bool_decide (sign = "pos") in
  '(orders, lst) ← fetch_order is_pos section;
  if negb (in_range idx (length lst)) then mret tt else
  let new_idx := Z.max 0 (Z.min new_idx (Z.of_nat (length lst) - 1)) in
  if decide (idx = new_idx) then mret tt else
  match lst !! Z.to_nat idx with
  | Some val =>
      let lst' := list_insert_at (Z.to_nat new_idx) val
                                 (delete (Z.to_nat idx) lst) in
      modify (set_orders is_pos (<[Z.to_nat section := lst']> orders));;
      draw_views false
  | None => lift (Raise IndexError)
  end.

End View.

(** ** Closed forms *)

#[global] Instance exn_eq_dec : EqDecision exn.
Proof. solve_decision. Defined.

#[global] Instance result_eq_dec {A : Type} `{EqDecision A}
  : EqDecision (result A).
Proof. solve_decision. Defined.

Section ClosedForms.
Context `{Constants}.

(** Quantity times catalogue area of one entry, and its diameter. *)
Definition entry_area (row : Row) : R :=
  IZR (qty_of (qty row)) * dict_get BAR_DATA (dia row).

Definition entry_diam (row : Row) : R := dict_get DIAM_CM (dia row).

(** The entries assigned to layer [k]. *)
Definition in_layer (k : Z) (row : Row) : Prop := int_or 1 (capa row) = Ok k.

#[global] Instance in_layer_dec k row : Decision (in_layer k row).
Proof. unfold in_layer. apply _. Defined.

Definition layer_entries (k : Z) (all : list Row) : list Row :=
  filter (in_layer k) all.

Definition sumR (l : list R) : R := foldr Rplus 0 l.

(** The largest area of a single entry of layer [k] (0 when there is no
    entry of positive area). *)
Definition largest_entry_area (all : list Row) (k : Z) : R :=
  foldr Rmax 0 (map entry_area (layer_entries k all)).

(** The first entry of layer [k] that reaches that area. *)
Definition leading_entry (all : list Row) (k : Z) : option Row :=
  head (filter (fun row => entry_area row = largest_entry_area all k)
               (layer_entries k all)).

(** The diameter that stands for layer [k]: that of the leading entry,
    and [db] when no entry of the layer has a positive area. *)
Definition representative_diam (db : R) (all : list Row) (k : Z) : R :=
  if decide (largest_entry_area all k > 0) then
    match leading_entry all k with
    | Some row => entry_diam row
    | None => db
    end
  else db.

(** The total steel area of layer [k]. *)
Definition layer_total_area (all : list Row) (k : Z) : R :=
  sumR (map entry_area (layer_entries k all)).

(** Centroid depths d1..d4 for diameters [D 1 .. D 4]. *)
Definition layer_depth (h r de : R) (D : Z -> R) (k : Z) : R :=
  if decide (k = 1%Z) then h - r - de - 0.5 * D 1%Z
  else if decide (k = 2%Z) then h - r - de - D 1%Z - 2.5 - 0.5 * D 2%Z
  else if decide (k = 3%Z)
       then h - r - de - D 1%Z - 2.5 - D 2%Z - 2.5 - 0.5 * D 3%Z
  else (h - r - de - D 1%Z - 2.5 - D 2%Z - 2.5 - 0.5 * D 3%Z) - 3.

(** The highest of the layers 1..4 with a positive weight, 1 if none. *)
Definition highest_layer (A : Z -> R) : Z :=
  if decide (A 4%Z > 0) then 4
  else if decide (A 3%Z > 0) then 3
  else if decide (A 2%Z > 0) then 2
  else 1.

(** The average of the depths of layers 1..k weighted by [A], and d1
    when the weights add up to zero. *)
Definition weighted_depth (h r de : R) (A D : Z -> R) : R :=
  let k := highest_layer A in
  let ls := filter (fun i => (i <= k)%Z) [1; 2; 3; 4]%Z in
  let s := sumR (map A ls) in
  if decide (s = 0) then layer_depth h r de D 1
  else sumR (map (fun i => layer_depth h r de D i * A i) ls) / s.

(** Bars and diameters of layer [k] of one section. *)
Definition layer_bar_count (rows : list Row) (k : Z) : Z :=
  foldr Z.add 0%Z (map (fun row => qty_of (qty row)) (layer_entries k rows)).

Definition layer_diam_sum (rows : list Row) (k : Z) : R :=
  sumR (map (fun row => IZR (qty_of (qty row)) * entry_diam row)
            (layer_entries k rows)).

(** 2 r + 2 de + max(n - 1, 0) 2.5 + sum of the diameters. *)
Definition base_required_layer (r de : R) (rows : list Row) (k : Z) : R :=
  2 * r + 2 * de + IZR (Z.max (layer_bar_count rows k - 1) 0) * 2.5
  + layer_diam_sum rows k.

(** What [update_design_as] takes for a section: layers 1 and 2. *)
Definition section_base_12 (r de : R) (rows : list Row) : R :=
  Rmax (base_required_layer r de rows 1) (base_required_layer r de rows 2).

(** Rows whose layer text [int] accepts and, for the effective depth,
    names one of the four layers. *)
Definition layer_text_ok (row : Row) : Prop := capa row <> NotInt.

Definition layer_1_to_4 (row : Row) : Prop :=
  exists k, int_or 1 (capa row) = Ok k /\ (1 <= k <= 4)%Z.

(** The provided area of a section: the sum of quantity times catalogue
    area over its entries. *)
Definition provided_area (rows : list Row) : R := sumR (map entry_area rows).

(** Two windows with the same inputs: they differ at most in what the
    methods derive. *)
Definition same_inputs (w w' : DesignWindow) : Prop :=
  mn_corr w' = mn_corr w /\ mp_corr w' = mp_corr w /\ edits w' = edits w /\
  cb_estribo w' = cb_estribo w /\ cb_varilla w' = cb_varilla w /\
  rebar_rows w' = rebar_rows w /\ next_widget w' = next_widget w.

(** A method that leaves the inputs of the window alone, whether it
    returns or raises. *)
Definition keeps_inputs {A : Type} (m : M DesignWindow A) : Prop :=
  forall w, same_inputs w (exec m w).

(** The rows of a window: six sections of one to four rows, the widgets
    of a section distinct and older than the next widget. *)
Definition section_ok (next : nat) (rows : list Row) : Prop :=
  (1 <= length rows <= 4)%nat /\
  NoDup (map widget rows) /\
  Forall (fun row => (widget row < next)%nat) rows.

Definition rows_inv (w : DesignWindow) : Prop :=
  length (rebar_rows w) = 6%nat /\
  Forall (section_ok (next_widget w)) (rebar_rows w).

(** The dicts of [calc_effective_depth] after the entries [seen]. *)
Definition tracks (db : R) (seen : list Row) (st : gmap Z R * gmap Z R)
  : Prop :=
  forall k, (1 <= k <= 4)%Z ->
    st.1 !! k = Some (largest_entry_area seen k) /\
    st.2 !! k = Some (representative_diam db seen k).

(** *** The specification's reading, for comparison *)

(** Effective depth as the specification words it: the weight of a layer
    is its total steel area, its diameter that of the entry with the
    largest area, or [db] for a layer without entries. *)
Definition spec_representative_diam (db : R) (all : list Row) (k : Z) : R :=
  match leading_entry all k with
  | Some row => entry_diam row
  | None => db
  end.

Definition spec_effective_depth (h r de db : R) (all : list Row) : R :=
  weighted_depth h r de (layer_total_area all)
                 (spec_representative_diam db all).

(** The claim about the effective depth as the specification words it. *)
Definition spec_depth_claim (w : DesignWindow) (h r : R) : Prop :=
  eval calc_effective_depth w
  = Ok (spec_effective_depth h r (dict_get DIAM_CM (cb_estribo w))
          (dict_get DIAM_CM (cb_varilla w)) (concat (rebar_rows w))).

(** Required base as the specification words it: the maximum over the
    layers of the section, then over the sections. *)
Definition spec_section_base (r de : R) (rows : list Row) : result R :=
  py_max (map (base_required_layer r de rows)
              (filter (fun k => layer_entries k rows <> []) [1; 2; 3; 4]%Z)).

Definition spec_reported_base (r de : R) (sections : list (list Row))
  : result R :=
  bs ← mapM_result (spec_section_base r de) sections;
  py_max bs.

(** The base check as the specification words it, on the window [w']
    that [update_design_as] leaves. *)
Definition spec_base_check (r de b : R) (sections : list (list Row))
  (w' : DesignWindow) : Prop :=
  exists req,
    spec_reported_base r de sections = Ok req /\
    base_req_label (derived w') = Some req /\
    (base_msg_label (derived w') = "OK" <-> req <= b).

(** An entry adds no width to the base check: the required base of a
    section is the same with and without it. *)
Definition adds_no_width (w : DesignWindow) (rows : list Row) (row : Row)
  : Prop :=
  section_step w ([], []) (rows ++ [row]) = section_step w ([], []) rows.

(** The clamp as the specification words it: the clipped value lies
    between the two limits. *)
Definition spec_clamp_claim (fc fy b d raw : R) : Prop :=
  exists lo hi y,
    _calc_as_limits fc fy b d = Ok (Real lo, hi) /\
    np_clip raw (Real lo) hi = Real y /\
    lo <= y <= hi.

(** One of the six inputs is not a number. *)
Definition some_input_invalid (w : DesignWindow) : Prop :=
  edit_b (edits w) = NotFloat \/ edit_fc (edits w) = NotFloat \/
  edit_fy (edits w) = NotFloat \/ edit_phi (edits w) = NotFloat \/
  edit_h (edits w) = NotFloat \/ edit_r (edits w) = NotFloat.

(** The error policy as the specification words it: with such an input
    the required areas come back all zero and nothing is raised. *)
Definition spec_degraded_claim (w : DesignWindow) : Prop :=
  some_input_invalid w ->
  eval _required_areas w
  = Ok (map (fun _ => Real 0) (mn_corr w), map (fun _ => Real 0) (mp_corr w)).

(** The four inputs of [_required_areas] are numbers. *)
Definition material_inputs (w : DesignWindow) (b fc fy phi : R) : Prop :=
  edit_b (edits w) = FloatText b /\ edit_fc (edits w) = FloatText fc /\
  edit_fy (edits w) = FloatText fy /\ edit_phi (edits w) = FloatText phi.

(** The raw area for one moment, as a formula. *)
Definition as_raw (fc b d fy phi Mu : R) : R :=
  as_term fc b d fy - 0.5 * sqrt (Rmax (radicand Mu fc b d fy phi) 0).

End ClosedForms.

(** ** A catalogue and windows to evaluate on *)

(** Modelled from the spec: the tables [BAR_DATA] and [DIAM_CM] of
    [vigapp/models/constants.py], which is not among the sources.  The
    diameters are those of the specification's worked examples (0.95,
    1.27, 1.59 and 1.91 cm); the areas are the nominal areas of the same
    bars. *)
Definition sample_BAR_DATA : gmap string R :=
  {[ inch "1/2" := 1.29; inch "5/8" := 1.99; inch "3/4" := 2.84;
     inch "1" := 5.10 ]}.

Definition sample_DIAM_CM : gmap string R :=
  {[ "8mm" := 0.8; inch "3/8" := 0.95; inch "1/2" := 1.27;
     inch "5/8" := 1.59; inch "3/4" := 1.91; inch "1" := 2.54 ]}.

Definition sample_constants : Constants :=
  {| BAR_DATA := sample_BAR_DATA; DIAM_CM := sample_DIAM_CM |}.

Definition mk_row (q : ctext) (key : string) (layer : ctext) (wid : nat)
  : Row :=
  {| qty := q; dia := key; capa := layer; widget := wid |}.

(** The window with the texts of [fresh_window] and the given rows. *)
Definition window_with (sections : list (list Row)) : DesignWindow :=
  set_next_widget 100
    (set_rebar_rows sections (fresh_window [-10; -5; -8] [6; 7; 5])).

Definition with_edits (e : Edits) (w : DesignWindow) : DesignWindow :=
  {| mn_corr := mn_corr w; mp_corr := mp_corr w; edits := e;
     cb_estribo := cb_estribo w; cb_varilla := cb_varilla w;
     rebar_rows := rebar_rows w; next_widget := next_widget w;
     derived := derived w |}.

(** A quantity left blank: the entry has no area. *)
Definition idle_row (wid : nat) : Row := mk_row Blank (inch "1/2") (IntText 1) wid.

Definition default_row (wid : nat) : Row :=
  mk_row (IntText 2) (inch "1/2") (IntText 1) wid.

(** Two entries in layer 1 and one in layer 2, all 2 bars of 1/2 inch. *)
Definition two_in_layer_1 : DesignWindow :=
  window_with [ [ default_row 0; default_row 1;
                  mk_row (IntText 2) (inch "1/2") (IntText 2) 2 ];
                [idle_row 3]; [idle_row 4]; [idle_row 5]; [idle_row 6];
                [idle_row 7] ].

(** Ten bars of 1 inch in layer 3 of the first section. *)
Definition bars_in_layer_3 : DesignWindow :=
  window_with [ [ mk_row (IntText 10) (inch "1") (IntText 3) 0 ];
                [default_row 1]; [default_row 2]; [default_row 3];
                [default_row 4]; [default_row 5] ].

(** The window as built, six sections of one default row. *)
Definition six_default_rows : DesignWindow :=
  window_with [ [default_row 0]; [default_row 1]; [default_row 2];
                [default_row 3]; [default_row 4]; [default_row 5] ].

(** A row whose diameter was left unselected. *)
Definition unselected_row (wid : nat) : Row :=
  mk_row (IntText 2) EmptyString (IntText 1) wid.

(** The height is not a number and fy is zero. *)
Definition no_height_zero_fy : DesignWindow :=
  with_edits {| edit_b := FloatText 30; edit_h := NotFloat;
                edit_r := FloatText 4; edit_fc := FloatText 210;
                edit_fy := FloatText 0; edit_phi := FloatText 0.9 |}
             six_default_rows.

(** The height is not a number, everything else as built. *)
Definition no_height : DesignWindow :=
  with_edits {| edit_b := FloatText 30; edit_h := NotFloat;
                edit_r := FloatText 4; edit_fc := FloatText 210;
                edit_fy := FloatText 4200; edit_phi := FloatText 0.9 |}
             six_default_rows.

(** A method of the section view that leaves the design window alone. *)
Definition keeps_design {A : Type} (m : M View3DWindow A) : Prop :=
  forall v, design (exec m v) = design v.

(** A section that is full. *)
Definition four_rows_window : DesignWindow :=
  window_with [ [default_row 0; default_row 6; default_row 7; default_row 8];
                [default_row 1]; [default_row 2]; [default_row 3];
                [default_row 4]; [default_row 5] ].

(** A view on the window as built, with the orders already collected. *)
Definition sample_view : View3DWindow :=
  {| design := six_default_rows;
     neg_orders := [ [inch "1/2"; inch "1/2"]; [inch "1/2"; inch "1/2"];
                     [inch "1/2"; inch "1/2"] ];
     pos_orders := [ [inch "1/2"; inch "5/8"]; [inch "1/2"; inch "1/2"];
                     [inch "1/2"; inch "1/2"] ] |}.

(** ** More of the section view *)

(** [l[k]] on a list: a negative index counts from the end. *)
Definition py_index {A : Type} (l : list A) (k : Z) : result A :=
  let n := Z.of_nat (length l) in
  let k' := if decide (k < 0)%Z then (n + k)%Z else k in
  if decide (0 <= k' < n)%Z then
    match l !! Z.to_nat k' with
    | Some x => Ok x
    | None => Raise IndexError
    end
  else Raise IndexError.

Section MoreView.
Context `{Constants}.

(** [View3DWindow.change_order] *)
Definition change_order (sign : string) (section : Z) (new_order : list string)
  : M View3DWindow unit :=
  if negb (known_sign sign) then mret tt else
  if negb (in_range section 3) then mret tt else
  let is_pos := bool_decide (sign = "pos") in
  v ← get;
  (* self.x_orders = self.x_orders or [...] *)
  orders ←
    (match orders_of is_pos v with
     | [] => lift (collect_orders (design v) (if is_pos then 3 else 0)%nat)
     | o => mret o
     end);
  modify (set_orders is_pos orders);;
  (* self.x_orders[section] = list(new_order) *)
  (if decide (Z.to_nat section < length orders)%nat
   then modify (set_orders is_pos (<[Z.to_nat section := new_order]> orders))
   else lift (Raise IndexError));;
  draw_views false.

(** [View3DWindow.__init__], as far as it reaches the orders: they start
    empty and [draw_views] collects them. *)
Definition open_view (d : DesignWindow) : View3DWindow :=
  exec (draw_views false)
       {| design := d; neg_orders := []; pos_orders := [] |}.

End MoreView.

(** The view together with [self.selected], the bar picked last. *)
Record ViewState : Type := {
  window : View3DWindow;
  selected : option (string * Z * Z)
}.

Definition set_selected (s : option (string * Z * Z)) (st : ViewState)
  : ViewState :=
  {| window := window st; selected := s |}.

(** A method of the view run on the state with the selection. *)
Definition on_window {A : Type} (m : M View3DWindow A) : M ViewState A :=
  fun st =>
    let '(v', r) := m (window st) in
    ({| window := v'; selected := selected st |}, r).

Section Keys.
Context `{Constants}.

(** [View3DWindow._on_key] for the key named [key]. *)
Definition _on_key (key : string) : M ViewState unit :=
  st ← get;
  match selected st with
  | None => mret tt
  | Some (sign, sec, idx) =>
    let orders := if bool_decide (sign = "pos") then pos_orders (window st)
                  else neg_orders (window st) in
    lst ← lift (py_index orders sec);
    if bool_decide (key = "left") && bool_decide (idx > 0)%Z then
      on_window (swap_bars sign sec idx (idx - 1));;
      modify (set_selected (Some (sign, sec, (idx - 1)%Z)))
    else if bool_decide (key = "right")
            && bool_decide (idx < Z.of_nat (length lst) - 1)%Z then
      on_window (swap_bars sign sec idx (idx + 1));;
      modify (set_selected (Some (sign, sec, (idx + 1)%Z)))
    else mret tt
  end.

End Keys.

(** A design window the view can draw: six sections, layer texts that
    [int] accepts. *)
Definition design_ready (d : DesignWindow) : Prop :=
  length (rebar_rows d) = 6%nat /\
  Forall layer_text_ok (concat (rebar_rows d)).

(** The orders of a view: not collected yet, or three lists. *)
Definition orders_ready (o : list (list string)) : Prop :=
  o = [] \/ length o = 3%nat.

Definition view_ready (v : View3DWindow) : Prop :=
  design_ready (design v) /\
  orders_ready (neg_orders v) /\ orders_ready (pos_orders v).

(** The index [list.insert] and [move_bar] settle on. *)
Definition clamp_index (new_idx : Z) (n : nat) : Z :=
  Z.max 0 (Z.min new_idx (Z.of_nat n - 1)).

(** ** The bars of the view, for statements *)

(** The designations of the bars of all layers of [_collect_bars]. *)
Definition bars_of_layers (layers : gmap Z (list (R * string)))
  : list string :=
  (mjoin ((map_to_list layers).*2)).*2.

(** What one row adds to the order of [_collect_order]. *)
Definition order_of_row `{Constants} (row : Row) : list string :=
  if decide ((qty_of (qty row) <= 0)%Z \/ DIAM_CM !! dia row = None)
  then []
  else replicate (Z.to_nat (qty_of (qty row))) (dia row).

(** ** The calculation report *)

(** The numbers of the dict that [_build_memoria] returns: the keys d,
    b1, pbal, pmax, as_min and as_max, the area calculated in each of the
    sections [As para ...], and the rows of verif_table before they are
    formatted: required area, provided area, and whether the row
    complies. *)
Record Memoria : Type := {
  mem_d : R;
  mem_b1 : R;
  mem_pbal : R;
  mem_pmax : R;
  mem_as_min : np64;
  mem_as_max : R;
  mem_calc : list R;
  mem_verif : list (np64 * R * bool)
}.

(** The body of the loop over the six labels. *)
Definition memoria_row (fc b d fy phi : R) (x : R * (np64 * R))
  : result (R * (np64 * R * bool)) :=
  let '(m, (a, des)) := x in
  let Mu_kgcm := Rabs m * 100000 in
  term ← pydiv (1.7 * fc * b * d) (2 * fy);
  q1 ← pydiv (2.89 * (fc * b * d) ^ 2) (fy ^ 2);
  q2 ← pydiv (6.8 * fc * b * Mu_kgcm) (phi * fy ^ 2);
  let root := q1 - q2 in
  let root := Rmax root 0 in
  let calc := term - 0.5 * sqrt root in
  Ok (calc, (a, des, ge_np des a)).

Section Memoria.
Context `{Constants}.

(** [DesignWindow._build_memoria], as far as the numbers go: [None]
    stands for the pair of [None] returned after the warning; texts,
    images and the title are left out. *)
Definition _build_memoria (w : DesignWindow) : result (option Memoria) :=
  match (b ← py_float (edit_b (edits w));
         h ← py_float (edit_h (edits w));
         r ← py_float (edit_r (edits w));
         fc ← py_float (edit_fc (edits w));
         fy ← py_float (edit_fy (edits w));
         phi ← py_float (edit_phi (edits w));
         Ok (b, h, r, fc, fy, phi)) with
  | Raise _ => Ok None
  | Ok (b, h, r, fc, fy, phi) =>
    let de := dict_get DIAM_CM (cb_estribo w) in
    let db := dict_get DIAM_CM (cb_varilla w) in
    let d := h - r - de - 0.5 * db in
    let beta1 := beta1_of fc in
    '(as_min, as_max) ← _calc_as_limits fc fy b d;
    q1 ← pydiv (0.85 * fc * beta1) fy;
    q2 ← pydiv 6000 (6000 + fy);
    let p_bal := q1 * q2 in
    let p_max := 0.75 * p_bal in
    as_n_raw ← mapM_result (fun m => _calc_as_req m fc b d fy phi)
                           (mn_corr w);
    as_p_raw ← mapM_result (fun m => _calc_as_req m fc b d fy phi)
                           (mp_corr w);
    let as_n := map (fun x => np_clip x as_min as_max) as_n_raw in
    let as_p := map (fun x => np_clip x as_min as_max) as_p_raw in
    let design_totals := _design_areas w in
    rows ← mapM_result (memoria_row fc b d fy phi)
             (take 6 (zip (mn_corr w ++ mp_corr w)
                          (zip (as_n ++ as_p) design_totals)));
    Ok (Some {| mem_d := d; mem_b1 := beta1; mem_pbal := p_bal;
                mem_pmax := p_max; mem_as_min := as_min;
                mem_as_max := as_max; mem_calc := map fst rows;
                mem_verif := map snd rows |})
  end.

End Memoria.

(** The rows as built, every quantity left blank. *)
Definition six_idle_rows : DesignWindow :=
  window_with [ [idle_row 0]; [idle_row 1]; [idle_row 2];
                [idle_row 3]; [idle_row 4]; [idle_row 5] ].

(** ** What the view draws in each layer *)

(** [sorted(layers)]: the keys of a dict of layers, in increasing
    order. *)
Definition sorted_keys {V : Type} (layers : gmap Z V) : list Z :=
  merge_sort Z.le (map fst (map_to_list layers)).

(** The loop [for layer in sorted(layers)] of
    [View3DWindow._plot_section], as far as it hands the stored order to
    the layers: [order] is what is left of the order from [start] on, and
    each layer takes the next [len(layers[layer])] designations of it, or
    its own bars when that slice is empty.  The result lists, for each
    layer, the designations of the circles drawn at the height of that
    layer, from left to right; the coordinates ([distribute_x] and
    [layer_positions_*], not among the sources) are left out. *)
Fixpoint plot_slices (order : list string)
  (layers : gmap Z (list (R * string))) (keys : list Z)
  : list (Z * list string) :=
  match keys with
  | [] => []
  | layer :: keys' =>
      let count := length (default [] (layers !! layer)) in
      let bars := match take count order with
                  | [] => map snd (default [] (layers !! layer))
                  | slice => slice
                  end in
      (layer, bars) :: plot_slices (drop (length bars) order) layers keys'
  end.

Definition plot_layers (order : list string)
  (layers : gmap Z (list (R * string))) : list (Z * list string) :=
  plot_slices order layers (sorted_keys layers).

(** The order has one designation for each bar of the layers, and no
    layer is empty. *)
Definition order_fits (order : list string)
  (layers : gmap Z (list (R * string))) : Prop :=
  Forall (fun k => default [] (layers !! k) <> []) (sorted_keys layers) /\
  length order
  = sum_list (map (fun k => length (default [] (layers !! k)))
                  (sorted_keys layers)).

Section Drawing.
Context `{Constants}.

(** What [draw_views] has [_plot_section] draw for the negative or the
    positive bars of the cut [idx]: the layers of [_collect_bars] and the
    stored order of the cut ([[]] when there is none). *)
Definition drawn_bars (is_pos : bool) (v : View3DWindow) (idx : nat)
  : result (list (Z * list string)) :=
  layers ← _collect_bars (design v) (if is_pos then idx + 3 else idx)%nat;
  Ok (plot_layers (default [] (orders_of is_pos v !! idx)) layers).

(** The claim about the drawing as the specification words it: the
    reordering changes x-coordinates only, so every layer shows the bars
    it showed before, at most in another order from left to right. *)
Definition spec_only_x_changes (is_pos : bool) (idx : nat)
  (v v' : View3DWindow) : Prop :=
  exists before after,
    drawn_bars is_pos v idx = Ok before /\
    drawn_bars is_pos v' idx = Ok after /\
    Forall2 (fun p q => p.1 = q.1 /\ p.2 ≡ₚ q.2) after before.

End Drawing.

(** Two bars of 1/2 inch in layer 1 and two of 5/8 inch in layer 2 in
    the first section. *)
Definition two_layer_rows : DesignWindow :=
  window_with [ [ mk_row (IntText 2) (inch "1/2") (IntText 1) 0;
                  mk_row (IntText 2) (inch "5/8") (IntText 2) 1 ];
                [default_row 2]; [default_row 3]; [default_row 4];
                [default_row 5]; [default_row 6] ].

(** The view on it, with the orders as collected from the rows. *)
Definition two_layer_view : View3DWindow :=
  {| design := two_layer_rows;
     neg_orders := [ [inch "1/2"; inch "1/2"; inch "5/8"; inch "5/8"];
                     [inch "1/2"; inch "1/2"]; [inch "1/2"; inch "1/2"] ];
     pos_orders := [ [inch "1/2"; inch "1/2"]; [inch "1/2"; inch "1/2"];
                     [inch "1/2"; inch "1/2"] ] |}.

(** ** [_calc_as_req] in binary64 *)

(** The same method with the arithmetic of the code: every operation is
    the binary64 operation, rounded to nearest.  The moment is a Python
    float, as in the model over the reals. *)
Module B64.
Import PrimFloat.
#[local] Set Warnings "-inexact-float".
#[local] Open Scope float_scope.

(** Python's [x / y] on floats. *)
Definition pydiv (x y : float) : result float :=
  if y =? 0 then Raise ZeroDivisionError else Ok (x / y).

(** Python's [x ** 2] on a float: the rounded square, and OverflowError
    when a finite [x] has no finite square. *)
Definition pysquare (x : float) : result float :=
  let y := x * x in
  if is_infinity y && negb (is_infinity x) then Raise OverflowError
  else Ok y.

(** [DesignWindow._calc_as_req], operation by operation and in the order
    Python evaluates them; [max(root, 0)] gives 0 when [0 > root] and
    [root] otherwise. *)
Definition _calc_as_req (Mu fc b d fy phi : float) : result float :=
  let Mu_kgcm := abs Mu * 100000 in
  term ← pydiv (1.7 * fc * b * d) (2 * fy);
  s1 ← pysquare (fc * b * d);
  s2 ← pysquare fy;
  q1 ← pydiv (2.89 * s1) s2;
  s3 ← pysquare fy;
  q2 ← pydiv (6.8 * fc * b * Mu_kgcm) (phi * s3);
  let root := q1 - q2 in
  let root := if root <? 0 then 0 else root in
  Ok (term - 0.5 * sqrt root).

(** The depth [_build_memoria] uses on the window as built: h = 50,
    r = 4, stirrup 0.95, bar 1.59.  It is 44.254999999999995. *)
Definition report_depth : float := 50 - 4 - 0.95 - 0.5 * 1.59.

(** The raw area the code computes there for a moment of zero, with
    fc = 210, b = 30, fy = 4200 and phi = 0.9. *)
Definition at_zero_moment : result float :=
  _calc_as_req 0 210 30 report_depth 4200 0.9.

(** - 2 ^ -47, about -7.1e-15. *)
Definition minus_two_to_minus_47 : float := -0x1p-47.



End B64.

(** * Properties *)

(** Decimal literals are rationals under [Q2R]; [field] wants them as
    quotients of integers. *)
Ltac decimals := cbv [Q2R QArith_base.Qnum QArith_base.Qden] in *.

(** ** Results and the monad *)

Lemma pydiv_ok (x y : R) : y <> 0 -> pydiv x y = Ok (x / y).
Proof. intros Hy. unfold pydiv. case_decide; [contradiction | reflexivity]. Qed.

Lemma pydiv_zero (x : R) : pydiv x 0 = Raise ZeroDivisionError.
Proof. unfold pydiv. case_decide; [reflexivity | contradiction]. Qed.

Lemma foldM_app {A B : Type} (f : A -> B -> result A) (a : A) (l1 l2 : list B) :
  foldM f a (l1 ++ l2) = (a' ← foldM f a l1; foldM f a' l2).
Proof.
  revert a. induction l1 as [|x l1 IH]; intros a; simpl; [reflexivity|].
  destruct (f a x) as [a'|e]; simpl; [apply IH | reflexivity].
Qed.

Lemma foldM_concat {A B : Type} (f : A -> B -> result A) (a : A)
  (ls : list (list B)) :
  foldM (fun st l => foldM f st l) a ls = foldM f a (concat ls).
Proof.
  revert a. induction ls as [|l ls IH]; intros a; simpl; [reflexivity|].
  rewrite foldM_app. destruct (foldM f a l); simpl; [apply IH | reflexivity].
Qed.

Lemma mapM_result_ok {A B : Type} (f : A -> result B) (g : A -> B) (l : list A) :
  (forall x, f x = Ok (g x)) -> mapM_result f l = Ok (map g l).
Proof.
  intros Hf. induction l as [|x l IH]; simpl; [reflexivity|].
  rewrite Hf, IH. reflexivity.
Qed.

(** ** The formula of the required area *)

Section RequiredArea.

Lemma calc_as_req_ok (Mu fc b d fy phi : R) :
  fy <> 0 -> phi <> 0 ->
  _calc_as_req Mu fc b d fy phi
  = Ok (as_term fc b d fy - 0.5 * sqrt (Rmax (radicand Mu fc b d fy phi) 0)).
Proof.
  intros Hfy Hphi. unfold _calc_as_req.
  assert (Hfy2 : fy ^ 2 <> 0) by (apply pow_nonzero; exact Hfy).
  rewrite !pydiv_ok; simpl; try reflexivity; try lra.
  - apply Rmult_integral_contrapositive_currified; assumption.
Qed.

Lemma radicand_square (Mu fc b d fy phi : R) :
  fy <> 0 -> phi <> 0 ->
  radicand Mu fc b d fy phi
  = (1.7 * fc * b * d / fy) ^ 2
    - 680000 * fc * b / (phi * fy ^ 2) * Rabs Mu.
Proof. intros Hfy Hphi. unfold radicand. decimals. field. split; assumption. Qed.

Lemma radicand_antitone (M1 M2 fc b d fy phi : R) :
  0 < b -> 0 < fc -> 0 < fy -> 0 < phi -> Rabs M1 <= Rabs M2 ->
  radicand M2 fc b d fy phi <= radicand M1 fc b d fy phi.
Proof.
  intros Hb Hfc Hfy Hphi HM.
  rewrite !radicand_square by lra.
  assert (Hc : 0 < 680000 * fc * b / (phi * fy ^ 2)).
  { apply Rdiv_lt_0_compat; [nra|]. apply Rmult_lt_0_compat; [lra|].
    apply pow_lt; lra. }
  nra.
Qed.





(** C2: for every moment and numeric fc, b, d, fy, phi for which the
    quotients of the formula exist (fy and phi not zero), the raw required
    area is term - 0.5 sqrt(max(0, root)) with Mu_units = |Mu| 100000,
    term = 1.7 fc b d / (2 fy) and root as in [radicand]; when the radicand
    is negative the result is term exactly. *)
Theorem calc_as_req_formula (Mu fc b d fy phi : R) :
  fy <> 0 -> phi <> 0 ->
  _calc_as_req Mu fc b d fy phi
  = Ok (as_term fc b d fy - 0.5 * sqrt (Rmax 0 (radicand Mu fc b d fy phi)))
  /\ (radicand Mu fc b d fy phi < 0 ->
      _calc_as_req Mu fc b d fy phi = Ok (as_term fc b d fy)).
Proof.
  intros Hfy Hphi. rewrite calc_as_req_ok by assumption. split.
  - rewrite Rmax_comm. reflexivity.
  - intros Hneg. rewrite Rmax_right by lra. rewrite sqrt_0.
    f_equal. lra.
Qed.

Lemma calc_as_req_formula_witness :
  _calc_as_req 1000 210 30 44 4200 0.9 = Ok (as_term 210 30 44 4200).
Proof.
  apply (calc_as_req_formula 1000 210 30 44 4200 0.9); [lra | lra |].
  unfold radicand. rewrite (Rabs_pos_eq 1000) by lra. lra.
Defined.

(** C4: for fixed positive b, d, fc, fy, phi the raw required area is
    non-decreasing in |moment|, and once the radicand has reached 0 the
    result is term = 1.7 fc b d / (2 fy) for every larger |moment|. *)
Theorem calc_as_req_monotone (M1 M2 fc b d fy phi : R) :
  0 < b -> 0 < d -> 0 < fc -> 0 < fy -> 0 < phi ->
  Rabs M1 <= Rabs M2 ->
  exists a1 a2,
    _calc_as_req M1 fc b d fy phi = Ok a1 /\
    _calc_as_req M2 fc b d fy phi = Ok a2 /\
    a1 <= a2 /\
    (radicand M1 fc b d fy phi <= 0 -> a2 = as_term fc b d fy).
Proof.
  intros Hb Hd Hfc Hfy Hphi HM.
  pose proof (radicand_antitone M1 M2 fc b d fy phi Hb Hfc Hfy Hphi HM) as Hr.
  eexists _, _. rewrite !calc_as_req_ok by lra.
  split; [reflexivity|]. split; [reflexivity|]. split.
  - assert (sqrt (Rmax (radicand M2 fc b d fy phi) 0)
            <= sqrt (Rmax (radicand M1 fc b d fy phi) 0)).
    { apply sqrt_le_1_alt. apply Rle_max_compat_r. exact Hr. }
    lra.
  - intros H0. rewrite Rmax_right by lra. rewrite sqrt_0. lra.
Qed.

Lemma calc_as_req_monotone_witness :
  exists a1 a2,
    _calc_as_req 1000 210 30 44 4200 0.9 = Ok a1 /\
    _calc_as_req (-2000) 210 30 44 4200 0.9 = Ok a2 /\
    a1 <= a2 /\ a2 = as_term 210 30 44 4200.
Proof.
  destruct (calc_as_req_monotone 1000 (-2000) 210 30 44 4200 0.9)
    as (a1 & a2 & H1 & H2 & Hle & Hflat); try lra.
  - rewrite (Rabs_pos_eq 1000) by lra. rewrite (Rabs_left (-2000)) by lra. lra.
  - exists a1, a2. repeat split; try assumption. apply Hflat.
    unfold radicand. rewrite (Rabs_pos_eq 1000) by lra. lra.
Defined.



End RequiredArea.

(** ** Effective depth *)

Section EffectiveDepth.
Context `{Constants}.

Lemma foldr_Rmax_snoc (l : list R) (a : R) :
  foldr Rmax 0 (l ++ [a]) = Rmax (foldr Rmax 0 l) a.
Proof.
  induction l as [|x l IH]; simpl.
  - apply Rmax_comm.
  - rewrite IH. apply Rmax_assoc.
Qed.

Lemma foldr_Rmax_nonneg (l : list R) : 0 <= foldr Rmax 0 l.
Proof.
  induction l as [|x l IH]; simpl; [lra|].
  eapply Rle_trans; [exact IH | apply Rmax_r].
Qed.

Lemma foldr_Rmax_upper (l : list R) (a : R) : a ∈ l -> a <= foldr Rmax 0 l.
Proof.
  induction l as [|x l IH]; simpl; intros Hin.
  - inversion Hin.
  - apply elem_of_cons in Hin as [->|Hin]; [apply Rmax_l|].
    eapply Rle_trans; [apply IH, Hin | apply Rmax_r].
Qed.

Lemma foldr_Rmax_attained (l : list R) :
  foldr Rmax 0 l > 0 -> foldr Rmax 0 l ∈ l.
Proof.
  induction l as [|x l IH]; simpl; intros Hpos; [lra|].
  destruct (Rle_dec x (foldr Rmax 0 l)) as [Hle|Hgt].
  - rewrite Rmax_right in * by exact Hle.
    apply elem_of_cons. right. apply IH. exact Hpos.
  - rewrite Rmax_left by lra. apply elem_of_cons. left. reflexivity.
Qed.

Lemma filter_none {A : Type} (P : A -> Prop) `{forall x, Decision (P x)}
  (l : list A) :
  (forall x, x ∈ l -> ~ P x) -> filter P l = [].
Proof.
  induction l as [|x l IH]; intros Hno; [reflexivity|].
  rewrite filter_cons_False by (apply Hno; left).
  apply IH. intros y Hy. apply Hno. right. exact Hy.
Qed.

Lemma elem_of_map {A B : Type} (f : A -> B) (l : list A) (x : A) :
  x ∈ l -> f x ∈ map f l.
Proof.
  induction l as [|y l IH]; intros Hin; [inversion Hin|].
  apply elem_of_cons in Hin as [->|Hin]; simpl; [left | right; auto].
Qed.

Lemma elem_of_map_inv {A B : Type} (f : A -> B) (l : list A) (y : B) :
  y ∈ map f l -> exists x, y = f x /\ x ∈ l.
Proof.
  induction l as [|x l IH]; simpl; intros Hin; [inversion Hin|].
  apply elem_of_cons in Hin as [->|Hin].
  - exists x. split; [reflexivity | left].
  - destruct (IH Hin) as (x' & Hx' & Hin'). exists x'. split; [exact Hx' | right; exact Hin'].
Qed.

Lemma layer_entries_snoc (k : Z) (seen : list Row) (row : Row) :
  layer_entries k (seen ++ [row])
  = layer_entries k seen ++ (if decide (in_layer k row) then [row] else []).
Proof.
  unfold layer_entries. rewrite filter_app. reflexivity.
Qed.

Lemma largest_entry_area_nonneg (seen : list Row) (k : Z) :
  0 <= largest_entry_area seen k.
Proof. apply foldr_Rmax_nonneg. Qed.

Lemma largest_entry_area_other (seen : list Row) (row : Row) (k : Z) :
  ~ in_layer k row ->
  largest_entry_area (seen ++ [row]) k = largest_entry_area seen k.
Proof.
  intros Hout. unfold largest_entry_area. rewrite layer_entries_snoc.
  rewrite decide_False by exact Hout. rewrite app_nil_r. reflexivity.
Qed.

Lemma largest_entry_area_same (seen : list Row) (row : Row) (k : Z) :
  in_layer k row ->
  largest_entry_area (seen ++ [row]) k
  = Rmax (largest_entry_area seen k) (entry_area row).
Proof.
  intros Hin. unfold largest_entry_area. rewrite layer_entries_snoc.
  rewrite decide_True by exact Hin. rewrite map_app. simpl.
  apply foldr_Rmax_snoc.
Qed.

Lemma representative_diam_other (db : R) (seen : list Row) (row : Row) (k : Z) :
  ~ in_layer k row ->
  representative_diam db (seen ++ [row]) k = representative_diam db seen k.
Proof.
  intros Hout. unfold representative_diam, leading_entry.
  rewrite largest_entry_area_other by exact Hout.
  rewrite layer_entries_snoc.
  rewrite (decide_False (P := in_layer k row)) by exact Hout.
  rewrite app_nil_r. reflexivity.
Qed.

(** A larger entry takes the layer over. *)
Lemma representative_diam_taken (db : R) (seen : list Row) (row : Row) (k : Z) :
  in_layer k row -> entry_area row > largest_entry_area seen k ->
  representative_diam db (seen ++ [row]) k = entry_diam row.
Proof.
  intros Hin Hgt. pose proof (largest_entry_area_nonneg seen k) as H0.
  unfold representative_diam, leading_entry.
  rewrite largest_entry_area_same by exact Hin.
  rewrite Rmax_right by lra.
  rewrite decide_True by lra.
  rewrite layer_entries_snoc, decide_True by exact Hin.
  rewrite filter_app.
  replace (filter (fun r => entry_area r = entry_area row) (layer_entries k seen))
    with (@nil Row).
  - simpl. rewrite filter_cons_True by reflexivity. reflexivity.
  - symmetry. apply filter_none. intros r Hr Heq.
    assert (entry_area r <= largest_entry_area seen k)
      by (apply foldr_Rmax_upper, elem_of_map, Hr).
    lra.
Qed.

(** An entry that is not larger leaves the layer as it was. *)
Lemma representative_diam_kept (db : R) (seen : list Row) (row : Row) (k : Z) :
  in_layer k row -> ~ entry_area row > largest_entry_area seen k ->
  representative_diam db (seen ++ [row]) k = representative_diam db seen k.
Proof.
  intros Hin Hle. unfold representative_diam, leading_entry.
  rewrite largest_entry_area_same by exact Hin.
  rewrite Rmax_left by lra.
  destruct (decide (largest_entry_area seen k > 0)) as [Hpos|Hnot];
    [|reflexivity].
  rewrite layer_entries_snoc, decide_True by exact Hin.
  rewrite filter_app.
  apply foldr_Rmax_attained in Hpos as Hat.
  apply elem_of_map_inv in Hat as (r & Hr & Hrin).
  destruct (filter (fun r0 => entry_area r0 = largest_entry_area seen k)
                   (layer_entries k seen)) as [|r0 rest] eqn:Hf.
  - exfalso.
    assert (Hrf : r ∈ filter (fun r0 => entry_area r0 = largest_entry_area seen k)
                             (layer_entries k seen)).
    { apply list_elem_of_filter. split; [symmetry; exact Hr | exact Hrin]. }
    rewrite Hf in Hrf. inversion Hrf.
  - reflexivity.
Qed.

Lemma tracks_start (db : R) :
  tracks db []
    ({[ 1%Z := 0; 2%Z := 0; 3%Z := 0; 4%Z := 0 ]},
     {[ 1%Z := db; 2%Z := db; 3%Z := db; 4%Z := db ]}).
Proof.
  intros k Hk. unfold representative_diam, largest_entry_area. simpl.
  rewrite decide_False by lra.
  assert (Hcases : k = 1%Z \/ k = 2%Z \/ k = 3%Z \/ k = 4%Z) by lia.
  destruct Hcases as [-> | [-> | [-> | ->]]]; split; reflexivity.
Qed.

Lemma scan_row_tracks (db : R) (seen : list Row) (st : gmap Z R * gmap Z R)
  (row : Row) :
  tracks db seen st -> layer_1_to_4 row ->
  exists st', scan_row st row = Ok st' /\ tracks db (seen ++ [row]) st'.
Proof.
  intros Htr (layer & Hlayer & Hrange). destruct st as [areas diams].
  destruct (Htr layer Hrange) as [Ha Hd]. simpl in Ha, Hd.
  unfold scan_row. rewrite Hlayer. simpl.
  unfold py_getitem. rewrite Ha. simpl.
  fold (entry_area row). fold (entry_diam row).
  destruct (decide (entry_area row > largest_entry_area seen layer))
    as [Hgt|Hle].
  - eexists. split; [reflexivity|]. intros k Hk. simpl.
    destruct (decide (layer = k)) as [<-|Hne].
    + rewrite !lookup_insert_eq.
      rewrite largest_entry_area_same by exact Hlayer.
      rewrite Rmax_right by lra.
      rewrite (representative_diam_taken db seen row layer Hlayer Hgt).
      split; reflexivity.
    + rewrite !lookup_insert_ne by exact Hne.
      assert (Hout : ~ in_layer k row).
      { unfold in_layer. rewrite Hlayer. congruence. }
      rewrite largest_entry_area_other, representative_diam_other
        by exact Hout.
      apply (Htr k Hk).
  - eexists. split; [reflexivity|]. intros k Hk. simpl.
    destruct (decide (layer = k)) as [<-|Hne].
    + rewrite largest_entry_area_same by exact Hlayer.
      rewrite Rmax_left by lra.
      rewrite (representative_diam_kept db seen row layer Hlayer Hle).
      split; assumption.
    + assert (Hout : ~ in_layer k row).
      { unfold in_layer. rewrite Hlayer. congruence. }
      rewrite largest_entry_area_other, representative_diam_other
        by exact Hout.
      apply (Htr k Hk).
Qed.

Lemma foldM_scan_row_tracks (db : R) (rows seen : list Row)
  (st : gmap Z R * gmap Z R) :
  tracks db seen st -> Forall layer_1_to_4 rows ->
  exists st', foldM scan_row st rows = Ok st' /\ tracks db (seen ++ rows) st'.
Proof.
  revert seen st. induction rows as [|row rows IH]; intros seen st Htr Hwf.
  - exists st. rewrite app_nil_r. split; [reflexivity | exact Htr].
  - apply Forall_cons in Hwf as [Hrow Hwf].
    destruct (scan_row_tracks db seen st row Htr Hrow) as (st1 & Hst1 & Htr1).
    destruct (IH (seen ++ [row]) st1 Htr1 Hwf) as (st' & Hst' & Htr').
    exists st'. simpl. rewrite Hst1. simpl. split; [exact Hst'|].
    rewrite <- app_assoc in Htr'. exact Htr'.
Qed.

Lemma scan_rows_tracks (db : R) (sections : list (list Row)) :
  Forall layer_1_to_4 (concat sections) ->
  exists st',
    scan_rows ({[ 1%Z := 0; 2%Z := 0; 3%Z := 0; 4%Z := 0 ]},
               {[ 1%Z := db; 2%Z := db; 3%Z := db; 4%Z := db ]}) sections
    = Ok st' /\
    tracks db (concat sections) st'.
Proof.
  intros Hwf. unfold scan_rows. rewrite foldM_concat.
  apply (foldM_scan_row_tracks db (concat sections) [] _ (tracks_start db) Hwf).
Qed.

Lemma detect_max_layer_highest (areas : gmap Z R) (A : Z -> R) :
  (forall k, (1 <= k <= 4)%Z -> areas !! k = Some (A k)) ->
  detect_max_layer areas = Ok (highest_layer A).
Proof.
  intros Hl. unfold detect_max_layer, highest_layer, py_getitem. simpl.
  rewrite (Hl 1%Z), (Hl 2%Z), (Hl 3%Z), (Hl 4%Z) by lia. simpl.
  repeat case_decide; reflexivity.
Qed.

Lemma highest_layer_cases (A : Z -> R) :
  highest_layer A = 1%Z \/ highest_layer A = 2%Z \/
  highest_layer A = 3%Z \/ highest_layer A = 4%Z.
Proof. unfold highest_layer. repeat case_decide; auto. Qed.

Lemma depth_of_layers_weighted (h r de : R) (areas diams : gmap Z R)
  (A D : Z -> R) :
  (forall k, (1 <= k <= 4)%Z -> areas !! k = Some (A k)) ->
  (forall k, (1 <= k <= 4)%Z -> diams !! k = Some (D k)) ->
  depth_of_layers h r de areas diams (highest_layer A)
  = Ok (weighted_depth h r de A D).
Proof.
  intros Ha Hd. unfold depth_of_layers, weighted_depth, py_getitem.
  rewrite (Ha 1%Z), (Ha 2%Z), (Ha 3%Z), (Ha 4%Z) by lia.
  rewrite (Hd 1%Z), (Hd 2%Z), (Hd 3%Z) by lia. simpl.
  destruct (highest_layer_cases A) as [Hk|[Hk|[Hk|Hk]]]; rewrite Hk; simpl;
    unfold layer_depth, sumR; simpl; f_equal;
    repeat case_decide; try lra; try (exfalso; lia); try (field; lra).
Qed.

(** The closed form of [calc_effective_depth]: the state it leaves and
    the depth it returns. *)
Lemma calc_effective_depth_closed (w : DesignWindow) (h r : R) :
  edit_h (edits w) = FloatText h -> edit_r (edits w) = FloatText r ->
  Forall layer_1_to_4 (concat (rebar_rows w)) ->
  let de := dict_get DIAM_CM (cb_estribo w) in
  let db := dict_get DIAM_CM (cb_varilla w) in
  let A := largest_entry_area (concat (rebar_rows w)) in
  let D := representative_diam db (concat (rebar_rows w)) in
  calc_effective_depth w
  = (set_layer_combo (highest_layer A) w, Ok (weighted_depth h r de A D)).
Proof.
  intros Hh Hr Hwf de db A D.
  destruct (scan_rows_tracks db (rebar_rows w) Hwf) as ([areas diams] & Hscan & Htr).
  assert (Ha : forall k, (1 <= k <= 4)%Z -> areas !! k = Some (A k))
    by (intros k Hk; apply (Htr k Hk)).
  assert (Hd : forall k, (1 <= k <= 4)%Z -> diams !! k = Some (D k))
    by (intros k Hk; apply (Htr k Hk)).
  unfold calc_effective_depth, mbind, M_bind, get, lift, modify.
  rewrite Hh, Hr. simpl. fold db. rewrite Hscan.
  rewrite (detect_max_layer_highest areas A Ha).
  fold de. rewrite (depth_of_layers_weighted h r de areas diams A D Ha Hd).
  reflexivity.
Qed.

(** Without a height or a cover the depth is 0.0 and nothing is
    written. *)
Lemma calc_effective_depth_invalid (w : DesignWindow) :
  edit_h (edits w) = NotFloat \/ edit_r (edits w) = NotFloat ->
  calc_effective_depth w = (w, Ok 0).
Proof.
  intros Hbad. unfold calc_effective_depth, mbind, M_bind, get.
  destruct Hbad as [Hbad|Hbad]; rewrite Hbad;
    [|destruct (edit_h (edits w))]; reflexivity.
Qed.

(** C1 (amended): the effective depth is the average of the centroid
    depths d1..dk weighted by the LARGEST SINGLE-ENTRY area of each layer
    (quantity times catalogue area, over the entries of all sections), k
    being the highest layer with such an area above zero (1 if none); the
    diameter of a layer is that of the first entry reaching that area, and
    the diameter of the longitudinal bar when no entry of the layer has a
    positive area; d is d1 when the weights add up to zero.  The detected k
    goes to the layer combo. *)
Theorem effective_depth_weighted (w : DesignWindow) (h r : R) :
  edit_h (edits w) = FloatText h -> edit_r (edits w) = FloatText r ->
  Forall layer_1_to_4 (concat (rebar_rows w)) ->
  eval calc_effective_depth w
  = Ok (weighted_depth h r (dict_get DIAM_CM (cb_estribo w))
          (largest_entry_area (concat (rebar_rows w)))
          (representative_diam (dict_get DIAM_CM (cb_varilla w))
                               (concat (rebar_rows w))))
  /\ layer_combo (derived (exec calc_effective_depth w))
     = highest_layer (largest_entry_area (concat (rebar_rows w))).
Proof.
  intros Hh Hr Hwf. unfold eval, exec.
  rewrite (calc_effective_depth_closed w h r Hh Hr Hwf).
  split; reflexivity.
Qed.

End EffectiveDepth.

(** ** Limits, clamp and the required areas of the window *)

Section Limits.
Context `{Constants}.

Lemma calc_as_limits_ok (fc fy b d : R) :
  fy <> 0 -> fy <> -6000 -> 0 <= fc ->
  _calc_as_limits fc fy b d
  = Ok (Real (as_min_formula fc fy b d), as_max_formula fc fy b d).
Proof.
  intros Hfy Hfy' Hfc. unfold _calc_as_limits, np_sqrt.
  rewrite decide_False by lra.
  rewrite !pydiv_ok by lra. reflexivity.
Qed.

Lemma np_clip_upper (x lo hi : R) : Rmin (Rmax x lo) hi <= hi.
Proof. apply Rmin_r. Qed.

Lemma np_clip_lower (x lo hi : R) : lo <= hi -> lo <= Rmin (Rmax x lo) hi.
Proof. intros Hle. apply Rmin_glb; [apply Rmax_r | exact Hle]. Qed.

Lemma np_clip_zero (x : R) : np_clip x (Real 0) 0 = Real 0.
Proof.
  unfold np_clip. f_equal. apply Rmin_right. apply Rmax_r.
Qed.

Lemma required_areas_invalid (w : DesignWindow) :
  edit_b (edits w) = NotFloat \/ edit_fc (edits w) = NotFloat \/
  edit_fy (edits w) = NotFloat \/ edit_phi (edits w) = NotFloat ->
  _required_areas w = (w, Ok (np_zeros 3, np_zeros 3)).
Proof.
  intros Hbad. unfold _required_areas, mbind, M_bind, get.
  destruct (edit_b (edits w)), (edit_fc (edits w)), (edit_fy (edits w)),
    (edit_phi (edits w)); simpl; try reflexivity.
  destruct Hbad as [Hbad|[Hbad|[Hbad|Hbad]]]; discriminate.
Qed.

Lemma required_areas_closed (w w1 : DesignWindow) (b fc fy phi d : R) :
  material_inputs w b fc fy phi ->
  calc_effective_depth w = (w1, Ok d) ->
  fy <> 0 -> fy <> -6000 -> phi <> 0 -> 0 <= fc ->
  let lo := Real (as_min_formula fc fy b d) in
  let hi := as_max_formula fc fy b d in
  let raws_n := map (as_raw fc b d fy phi) (mn_corr w) in
  let raws_p := map (as_raw fc b d fy phi) (mp_corr w) in
  _required_areas w
  = (set_raw raws_n raws_p (set_limits lo hi w1),
     Ok (map (fun x => np_clip x lo hi) raws_n,
         map (fun x => np_clip x lo hi) raws_p)).
Proof.
  intros (Hb & Hfc & Hfy & Hphi) Hd Hfy0 Hfy6 Hphi0 Hfc0 lo hi raws_n raws_p.
  unfold _required_areas, mbind, M_bind, get, lift, modify.
  rewrite Hb, Hfc, Hfy, Hphi. simpl. rewrite Hd.
  rewrite calc_as_limits_ok by assumption.
  rewrite !(mapM_result_ok _ (as_raw fc b d fy phi))
    by (intros m; apply calc_as_req_ok; assumption).
  reflexivity.
Qed.

(** C3 (amended): for fc >= 0 and fy other than 0 and -6000 the limits
    are As_min = 0.7 (sqrt(fc) / fy) b d and As_max = 0.75 ((0.85 fc beta1
    / fy) (6000 / (6000 + fy))) b d with beta1 = 0.85 up to fc = 280 and
    0.85 - ((fc - 280) / 70) 0.05 above, without a floor (0.80 at fc = 350).
    The required area is min(max(raw, As_min), As_max): it never exceeds
    As_max, and it is at least As_min WHENEVER As_min <= As_max.  The window
    keeps the raw values and returns the clipped ones. *)
Theorem limits_and_clamp (fc fy b d : R) :
  fy <> 0 -> fy <> -6000 -> 0 <= fc ->
  _calc_as_limits fc fy b d
  = Ok (Real (as_min_formula fc fy b d), as_max_formula fc fy b d)
  /\ (fc <= 280 -> beta1_of fc = 0.85)
  /\ (280 < fc -> beta1_of fc = 0.85 - ((fc - 280) / 70) * 0.05)
  /\ beta1_of 350 = 0.80
  /\ (forall raw, exists y,
        np_clip raw (Real (as_min_formula fc fy b d)) (as_max_formula fc fy b d)
        = Real y /\
        y <= as_max_formula fc fy b d /\
        (as_min_formula fc fy b d <= as_max_formula fc fy b d ->
         as_min_formula fc fy b d <= y))
  /\ (forall w w1 phi,
        material_inputs w b fc fy phi ->
        calc_effective_depth w = (w1, Ok d) -> phi <> 0 ->
        exists raws_n raws_p,
          mapM_result (fun m => _calc_as_req m fc b d fy phi) (mn_corr w)
          = Ok raws_n /\
          mapM_result (fun m => _calc_as_req m fc b d fy phi) (mp_corr w)
          = Ok raws_p /\
          as_n_raw (derived (exec _required_areas w)) = raws_n /\
          as_p_raw (derived (exec _required_areas w)) = raws_p /\
          as_min (derived (exec _required_areas w))
          = Real (as_min_formula fc fy b d) /\
          as_max (derived (exec _required_areas w)) = as_max_formula fc fy b d /\
          eval _required_areas w
          = Ok (map (fun x => np_clip x (Real (as_min_formula fc fy b d))
                                      (as_max_formula fc fy b d)) raws_n,
                map (fun x => np_clip x (Real (as_min_formula fc fy b d))
                                      (as_max_formula fc fy b d)) raws_p)).
Proof.
  intros Hfy Hfy' Hfc.
  split; [apply calc_as_limits_ok; assumption|].
  split; [intros Hle; unfold beta1_of; rewrite decide_True by lra; reflexivity|].
  split; [intros Hgt; unfold beta1_of; rewrite decide_False by lra; reflexivity|].
  split; [unfold beta1_of; rewrite decide_False by lra; lra|].
  split.
  - intros raw. eexists. split; [reflexivity|].
    split; [apply np_clip_upper | apply np_clip_lower].
  - intros w w1 phi Hin Hd Hphi.
    exists (map (as_raw fc b d fy phi) (mn_corr w)),
           (map (as_raw fc b d fy phi) (mp_corr w)).
    unfold exec, eval.
    rewrite (required_areas_closed w w1 b fc fy phi d Hin Hd Hfy Hfy' Hphi Hfc).
    repeat split;
      apply mapM_result_ok; intros m; apply calc_as_req_ok; assumption.
Qed.

(** C6 (amended): when b, fc, fy or phi is not a number the required
    areas are the six zeros and the window is untouched; when h or r is not
    a number the effective depth is 0.0; and when only h or r fails the
    required areas are all zero PROVIDED the formulas stay defined (fc >= 0,
    fy other than 0 and -6000, phi other than 0). *)
Theorem degraded_inputs (w : DesignWindow) :
  (edit_b (edits w) = NotFloat \/ edit_fc (edits w) = NotFloat \/
   edit_fy (edits w) = NotFloat \/ edit_phi (edits w) = NotFloat ->
   _required_areas w = (w, Ok (np_zeros 3, np_zeros 3)))
  /\ (edit_h (edits w) = NotFloat \/ edit_r (edits w) = NotFloat ->
      calc_effective_depth w = (w, Ok 0) /\
      forall b fc fy phi,
        material_inputs w b fc fy phi ->
        fy <> 0 -> fy <> -6000 -> phi <> 0 -> 0 <= fc ->
        eval _required_areas w
        = Ok (map (fun _ => Real 0) (mn_corr w),
              map (fun _ => Real 0) (mp_corr w))).
Proof.
  split; [apply required_areas_invalid|].
  intros Hbad. pose proof (calc_effective_depth_invalid w Hbad) as Hd.
  split; [exact Hd|].
  intros b fc fy phi Hin Hfy Hfy' Hphi Hfc. unfold eval.
  rewrite (required_areas_closed w w b fc fy phi 0 Hin Hd Hfy Hfy' Hphi Hfc).
  cbn [snd].
  assert (Hlo : as_min_formula fc fy b 0 = 0) by (unfold as_min_formula; lra).
  assert (Hhi : as_max_formula fc fy b 0 = 0) by (unfold as_max_formula; lra).
  rewrite Hlo, Hhi, !map_map.
  f_equal. f_equal; apply map_ext; intros m; apply np_clip_zero.
Qed.

(** A zero fy stops [_required_areas] at the first Python division. *)
Lemma required_areas_zero_fy (w w1 : DesignWindow) (b fc phi d : R) :
  material_inputs w b fc 0 phi ->
  calc_effective_depth w = (w1, Ok d) ->
  _required_areas w = (w1, Raise ZeroDivisionError).
Proof.
  intros (Hb & Hfc & Hfy & Hphi) Hd.
  unfold _required_areas, mbind, M_bind, get, lift, modify.
  rewrite Hb, Hfc, Hfy, Hphi. simpl. rewrite Hd.
  unfold _calc_as_limits. rewrite pydiv_zero. reflexivity.
Qed.

(** With numeric inputs, valid layers and defined quotients the
    required areas come back. *)
Lemma required_areas_runs (w : DesignWindow) (b fc fy phi h r : R) :
  material_inputs w b fc fy phi ->
  edit_h (edits w) = FloatText h -> edit_r (edits w) = FloatText r ->
  Forall layer_1_to_4 (concat (rebar_rows w)) ->
  fy <> 0 -> fy <> -6000 -> phi <> 0 -> 0 <= fc ->
  exists w1 reqs_n reqs_p, _required_areas w = (w1, Ok (reqs_n, reqs_p)).
Proof.
  intros Hin Hh Hr Hwf Hfy Hfy' Hphi Hfc.
  pose proof (calc_effective_depth_closed w h r Hh Hr Hwf) as Hd.
  cbv zeta in Hd.
  pose proof (required_areas_closed w _ b fc fy phi _ Hin Hd Hfy Hfy' Hphi Hfc)
    as Hra.
  cbv zeta in Hra. eauto.
Qed.

End Limits.

(** ** Frames: the methods write derived attributes only *)

Section Frames.
Context `{Constants}.

Lemma same_inputs_refl (w : DesignWindow) : same_inputs w w.
Proof. repeat split. Qed.

Lemma same_inputs_trans (w1 w2 w3 : DesignWindow) :
  same_inputs w1 w2 -> same_inputs w2 w3 -> same_inputs w1 w3.
Proof.
  unfold same_inputs. intros (A1 & A2 & A3 & A4 & A5 & A6 & A7)
    (B1 & B2 & B3 & B4 & B5 & B6 & B7).
  repeat split; congruence.
Qed.

Lemma same_inputs_set_derived (f : Derived -> Derived) (w : DesignWindow) :
  same_inputs w (set_derived f w).
Proof. repeat split. Qed.

Lemma calc_effective_depth_frame (w : DesignWindow) :
  same_inputs w (exec calc_effective_depth w).
Proof.
  unfold exec, calc_effective_depth, mbind, M_bind, get, lift, modify.
  destruct (edit_h (edits w)); simpl; [|apply same_inputs_refl].
  destruct (edit_r (edits w)); simpl; [|apply same_inputs_refl].
  destruct (scan_rows _ _) as [[areas diams]|e]; simpl;
    [|apply same_inputs_refl].
  destruct (detect_max_layer areas) as [k|e]; simpl; [|apply same_inputs_refl].
  apply same_inputs_set_derived.
Qed.

Lemma required_areas_frame (w : DesignWindow) :
  same_inputs w (exec _required_areas w).
Proof.
  pose proof (calc_effective_depth_frame w) as Hd.
  unfold exec in *. unfold _required_areas, mbind, M_bind, get, lift, modify.
  destruct (edit_b (edits w)); simpl; [|apply same_inputs_refl].
  destruct (edit_fc (edits w)); simpl; [|apply same_inputs_refl].
  destruct (edit_fy (edits w)); simpl; [|apply same_inputs_refl].
  destruct (edit_phi (edits w)); simpl; [|apply same_inputs_refl].
  destruct (calc_effective_depth w) as [w1 [d|e]]; simpl in *; [|exact Hd].
  destruct (_calc_as_limits _ _ _ _) as [[lo hi]|e]; simpl; [|exact Hd].
  destruct (mapM_result _ (mn_corr w)) as [rn|e]; simpl;
    [|unfold same_inputs in *; simpl; intuition congruence].
  destruct (mapM_result _ (mp_corr w)) as [rp|e]; simpl;
    unfold same_inputs in *; simpl; intuition congruence.
Qed.

Lemma keeps_inputs_ret {A : Type} (a : A) :
  keeps_inputs (mret a : M DesignWindow A).
Proof. intros w. apply same_inputs_refl. Qed.

Lemma keeps_inputs_get : keeps_inputs (get : M DesignWindow DesignWindow).
Proof. intros w. apply same_inputs_refl. Qed.

Lemma keeps_inputs_lift {A : Type} (r : result A) :
  keeps_inputs (lift r : M DesignWindow A).
Proof. intros w. apply same_inputs_refl. Qed.

Lemma keeps_inputs_modify (f : Derived -> Derived) :
  keeps_inputs (modify (set_derived f)).
Proof. intros w. apply same_inputs_set_derived. Qed.

Lemma keeps_inputs_bind {A B : Type} (m : M DesignWindow A)
  (f : A -> M DesignWindow B) :
  keeps_inputs m -> (forall a, keeps_inputs (f a)) -> keeps_inputs (m ≫= f).
Proof.
  intros Hm Hf w. specialize (Hm w). unfold exec, mbind, M_bind in *.
  destruct (m w) as [w1 [a|e]]; simpl in *; [|exact Hm].
  eapply same_inputs_trans; [exact Hm | apply (Hf a w1)].
Qed.

Lemma keeps_inputs_calc_effective_depth : keeps_inputs calc_effective_depth.
Proof. intros w. apply calc_effective_depth_frame. Qed.

Lemma keeps_inputs_required_areas : keeps_inputs _required_areas.
Proof. intros w. apply required_areas_frame. Qed.

Ltac frame :=
  repeat first
    [ apply keeps_inputs_ret
    | apply keeps_inputs_get
    | apply keeps_inputs_lift
    | apply keeps_inputs_modify
    | apply keeps_inputs_calc_effective_depth
    | apply keeps_inputs_required_areas
    | apply keeps_inputs_bind; [|intros ?]
    | match goal with
      | |- keeps_inputs (match ?x with _ => _ end) => destruct x
      | |- keeps_inputs (let '(_, _) := ?x in _) => destruct x
      end ].

Lemma keeps_inputs_update_design_as : keeps_inputs update_design_as.
Proof. unfold update_design_as. frame. Qed.

Lemma keeps_inputs_draw_section : keeps_inputs draw_section.
Proof. unfold draw_section. frame. Qed.

Lemma keeps_inputs_draw_required_distribution :
  keeps_inputs draw_required_distribution.
Proof. unfold draw_required_distribution. frame. Qed.

End Frames.

(** ** Provided areas and the base width check *)

Section BaseWidth.
Context `{Constants}.

Lemma two_layers_lookup_1 (a b : LayerData) :
  ({[ 1%Z := a; 2%Z := b ]} : gmap Z LayerData) !! 1%Z = Some a.
Proof. apply lookup_insert_eq. Qed.

Lemma two_layers_lookup_2 (a b : LayerData) :
  ({[ 1%Z := a; 2%Z := b ]} : gmap Z LayerData) !! 2%Z = Some b.
Proof. reflexivity. Qed.

Lemma two_layers_lookup_other (a b : LayerData) (k : Z) :
  k <> 1%Z -> k <> 2%Z ->
  ({[ 1%Z := a; 2%Z := b ]} : gmap Z LayerData) !! k = None.
Proof.
  intros H1 H2. rewrite lookup_insert_ne by congruence.
  apply lookup_singleton_ne. congruence.
Qed.

Lemma two_layers_insert_1 (a b c : LayerData) :
  <[1%Z := c]> ({[ 1%Z := a; 2%Z := b ]} : gmap Z LayerData)
  = {[ 1%Z := c; 2%Z := b ]}.
Proof. apply insert_insert_eq. Qed.

Lemma two_layers_insert_2 (a b c : LayerData) :
  <[2%Z := c]> ({[ 1%Z := a; 2%Z := b ]} : gmap Z LayerData)
  = {[ 1%Z := a; 2%Z := c ]}.
Proof.
  rewrite insert_insert_ne by lia. f_equal.
Qed.

Lemma layer_entries_cons (k : Z) (row : Row) (rows : list Row) :
  layer_entries k (row :: rows)
  = (if decide (in_layer k row) then [row] else []) ++ layer_entries k rows.
Proof.
  unfold layer_entries. destruct (decide (in_layer k row)) as [Hin|Hout].
  - rewrite filter_cons_True by exact Hin. reflexivity.
  - rewrite filter_cons_False by exact Hout. reflexivity.
Qed.

Lemma layer_sums_cons_in (k : Z) (row : Row) (rows : list Row) :
  in_layer k row ->
  layer_bar_count (row :: rows) k
  = (qty_of (qty row) + layer_bar_count rows k)%Z /\
  layer_diam_sum (row :: rows) k
  = IZR (qty_of (qty row)) * entry_diam row + layer_diam_sum rows k.
Proof.
  intros Hin. unfold layer_bar_count, layer_diam_sum.
  rewrite layer_entries_cons, decide_True by exact Hin. split; reflexivity.
Qed.

Lemma layer_sums_cons_out (k : Z) (row : Row) (rows : list Row) :
  ~ in_layer k row ->
  layer_bar_count (row :: rows) k = layer_bar_count rows k /\
  layer_diam_sum (row :: rows) k = layer_diam_sum rows k.
Proof.
  intros Hout. unfold layer_bar_count, layer_diam_sum.
  rewrite layer_entries_cons, decide_False by exact Hout. split; reflexivity.
Qed.

(** The loop over the rows of a section, in closed form. *)
Lemma foldM_row_step_closed (rows : list Row) (t : R) (n1 n2 : Z) (s1 s2 : R) :
  Forall layer_text_ok rows ->
  exists t' n1' s1' n2' s2',
    foldM row_step
      (t, {[ 1%Z := {| ld_n := n1; ld_sum_d := s1 |};
             2%Z := {| ld_n := n2; ld_sum_d := s2 |} ]}) rows
    = Ok (t', {[ 1%Z := {| ld_n := n1'; ld_sum_d := s1' |};
                 2%Z := {| ld_n := n2'; ld_sum_d := s2' |} ]}) /\
    t' = t + provided_area rows /\
    n1' = (n1 + layer_bar_count rows 1)%Z /\
    s1' = s1 + layer_diam_sum rows 1 /\
    n2' = (n2 + layer_bar_count rows 2)%Z /\
    s2' = s2 + layer_diam_sum rows 2.
Proof.
  revert t n1 n2 s1 s2.
  induction rows as [|row rows IH]; intros t n1 n2 s1 s2 Hwf.
  - exists t, n1, s1, n2, s2. simpl.
    unfold provided_area, layer_bar_count, layer_diam_sum, sumR. simpl.
    repeat split; try lra; lia.
  - apply Forall_cons in Hwf as [Hrow Hwf].
    assert (Hlayer : exists k, int_or 1 (capa row) = Ok k).
    { unfold layer_text_ok in Hrow. destruct (capa row); simpl; eauto.
      contradiction. }
    destruct Hlayer as [k Hk].
    assert (Hprov : provided_area (row :: rows)
                    = entry_area row + provided_area rows) by reflexivity.
    simpl foldM. unfold row_step at 1. rewrite Hk. simpl.
    fold (entry_diam row).
    destruct (decide (k = 1%Z)) as [->|Hk1];
      [|destruct (decide (k = 2%Z)) as [->|Hk2]].
    + rewrite two_layers_lookup_1, two_layers_insert_1. simpl.
      destruct (IH (t + IZR (qty_of (qty row)) * dict_get BAR_DATA (dia row))
                   (n1 + qty_of (qty row))%Z n2
                   (s1 + IZR (qty_of (qty row)) * entry_diam row) s2 Hwf)
        as (t' & n1' & s1' & n2' & s2' & Hf & Ht & Hn1 & Hs1 & Hn2 & Hs2).
      exists t', n1', s1', n2', s2'. split; [exact Hf|].
      destruct (layer_sums_cons_in 1 row rows Hk) as [Hc Hd].
      assert (Hout : ~ in_layer 2 row) by (unfold in_layer; congruence).
      destruct (layer_sums_cons_out 2 row rows Hout) as [Hc' Hd'].
      rewrite Hprov, Hc, Hd, Hc', Hd'. unfold entry_area.
      repeat split; try lra; lia.
    + rewrite two_layers_lookup_2, two_layers_insert_2. simpl.
      destruct (IH (t + IZR (qty_of (qty row)) * dict_get BAR_DATA (dia row))
                   n1 (n2 + qty_of (qty row))%Z s1
                   (s2 + IZR (qty_of (qty row)) * entry_diam row) Hwf)
        as (t' & n1' & s1' & n2' & s2' & Hf & Ht & Hn1 & Hs1 & Hn2 & Hs2).
      exists t', n1', s1', n2', s2'. split; [exact Hf|].
      destruct (layer_sums_cons_in 2 row rows Hk) as [Hc Hd].
      assert (Hout : ~ in_layer 1 row) by (unfold in_layer; congruence).
      destruct (layer_sums_cons_out 1 row rows Hout) as [Hc' Hd'].
      rewrite Hprov, Hc, Hd, Hc', Hd'. unfold entry_area.
      repeat split; try lra; lia.
    + rewrite two_layers_lookup_other by assumption. simpl.
      destruct (IH (t + IZR (qty_of (qty row)) * dict_get BAR_DATA (dia row))
                   n1 n2 s1 s2 Hwf)
        as (t' & n1' & s1' & n2' & s2' & Hf & Ht & Hn1 & Hs1 & Hn2 & Hs2).
      exists t', n1', s1', n2', s2'. split; [exact Hf|].
      assert (Hout1 : ~ in_layer 1 row) by (unfold in_layer; congruence).
      assert (Hout2 : ~ in_layer 2 row) by (unfold in_layer; congruence).
      destruct (layer_sums_cons_out 1 row rows Hout1) as [Hc Hd].
      destruct (layer_sums_cons_out 2 row rows Hout2) as [Hc' Hd'].
      rewrite Hprov, Hc, Hd, Hc', Hd'. unfold entry_area.
      repeat split; try lra; lia.
Qed.

Lemma section_step_closed (w : DesignWindow) (r : R) (totals base_reqs : list R)
  (rows : list Row) :
  edit_r (edits w) = FloatText r -> Forall layer_text_ok rows ->
  section_step w (totals, base_reqs) rows
  = Ok (totals ++ [provided_area rows],
        base_reqs ++ [section_base_12 r (dict_get DIAM_CM (cb_estribo w)) rows]).
Proof.
  intros Hr Hwf. unfold section_step, layers0.
  destruct (foldM_row_step_closed rows 0 0 0 0 0 Hwf)
    as (t' & n1' & s1' & n2' & s2' & Hf & Ht & Hn1 & Hs1 & Hn2 & Hs2).
  rewrite Hf. simpl. rewrite Hr. simpl.
  unfold dict_values. cbn [omap list_omap].
  rewrite two_layers_lookup_1, two_layers_lookup_2. simpl.
  rewrite Z.add_0_l in Hn1, Hn2. rewrite Rplus_0_l in Ht, Hs1, Hs2.
  subst. reflexivity.
Qed.

Lemma section_step_no_cover (w : DesignWindow) (totals base_reqs : list R)
  (rows : list Row) :
  edit_r (edits w) = NotFloat -> Forall layer_text_ok rows ->
  section_step w (totals, base_reqs) rows
  = Ok (totals ++ [provided_area rows], base_reqs).
Proof.
  intros Hr Hwf. unfold section_step, layers0.
  destruct (foldM_row_step_closed rows 0 0 0 0 0 Hwf)
    as (t' & n1' & s1' & n2' & s2' & Hf & Ht & _).
  rewrite Hf. simpl. rewrite Hr. simpl.
  rewrite Rplus_0_l in Ht. subst. reflexivity.
Qed.

Lemma sections_closed (w : DesignWindow) (r : R) (sections : list (list Row))
  (totals base_reqs : list R) :
  edit_r (edits w) = FloatText r ->
  Forall layer_text_ok (concat sections) ->
  foldM (section_step w) (totals, base_reqs) sections
  = Ok (totals ++ map provided_area sections,
        base_reqs
        ++ map (section_base_12 r (dict_get DIAM_CM (cb_estribo w))) sections).
Proof.
  intros Hr. revert totals base_reqs.
  induction sections as [|rows sections IH]; intros totals base_reqs Hwf.
  - simpl. rewrite !app_nil_r. reflexivity.
  - simpl in Hwf. apply Forall_app in Hwf as [Hrows Hwf].
    cbn [foldM].
    rewrite (section_step_closed w r totals base_reqs rows Hr Hrows).
    unfold mbind, result_bind. rewrite (IH _ _ Hwf).
    rewrite <- !app_assoc. reflexivity.
Qed.

(** [_design_areas] returns the provided area of each section. *)
Lemma design_areas_closed (w : DesignWindow) :
  _design_areas w = map provided_area (rebar_rows w).
Proof.
  unfold _design_areas. apply map_ext. intros rows.
  unfold provided_area, sumR.
  assert (Hgen : forall t,
            foldl (fun total row =>
                     total + IZR (qty_of (qty row)) * dict_get BAR_DATA (dia row))
                  t rows
            = t + foldr Rplus 0 (map entry_area rows)).
  { induction rows as [|row rows IH]; intros t; simpl; [lra|].
    rewrite IH. unfold entry_area. lra. }
  rewrite Hgen. lra.
Qed.

(** The closed form of [update_design_as] when r and b are numbers and
    the required areas come back. *)
Lemma update_design_as_closed (w w1 : DesignWindow) (reqs_n reqs_p : list np64)
  (r b : R) (rows0 : list Row) (rest : list (list Row)) :
  _required_areas w = (w1, Ok (reqs_n, reqs_p)) ->
  edit_r (edits w) = FloatText r -> edit_b (edits w) = FloatText b ->
  Forall layer_text_ok (concat (rebar_rows w)) ->
  rebar_rows w = rows0 :: rest ->
  let de := dict_get DIAM_CM (cb_estribo w) in
  let totals := map provided_area (rebar_rows w) in
  let max_base := foldl Rmax (section_base_12 r de rows0)
                        (map (section_base_12 r de) rest) in
  update_design_as w
  = (set_ax_des (totals, zip_with status_of totals (reqs_n ++ reqs_p))
       (set_base_msg (base_msg_of max_base b)
          (set_base_req max_base (set_as_total (py_sum totals) w1))),
     Ok tt).
Proof.
  intros Hreq Hr Hb Hwf Hrows de totals max_base.
  pose proof (required_areas_frame w) as Hframe.
  unfold exec in Hframe. rewrite Hreq in Hframe. simpl in Hframe.
  destruct Hframe as (_ & _ & He & Hce & _ & Hrr & _).
  unfold update_design_as, mbind, M_bind, get, lift, modify.
  rewrite Hreq. simpl.
  rewrite (sections_closed w1 r (rebar_rows w1) [] [])
    by (rewrite ?He, ?Hrr; assumption).
  rewrite Hrr, Hce, He, Hb. unfold totals, max_base, de.
  rewrite Hrows. reflexivity.
Qed.

(** C5 (amended): with r and b numbers, the rows of a section are
    grouped by layer for the layers 1 and 2 ONLY (bars assigned to layers 3
    and 4 are left out of the check); each of these two layers requires
    2 r + 2 de + max(n_layer - 1, 0) 2.5 + the sum of the diameters of its
    bars; the section requires the larger of the two, the reported base is
    the maximum over the sections, and the message is OK exactly when the
    reported base is at most b, the warning otherwise. *)
Theorem base_width_check (w : DesignWindow) (r b : R)
  (reqs : list np64 * list np64) :
  edit_r (edits w) = FloatText r -> edit_b (edits w) = FloatText b ->
  Forall layer_text_ok (concat (rebar_rows w)) ->
  rebar_rows w <> [] ->
  eval _required_areas w = Ok reqs ->
  let de := dict_get DIAM_CM (cb_estribo w) in
  exists max_base,
    py_max (map (fun rows => Rmax (base_required_layer r de rows 1)
                                  (base_required_layer r de rows 2))
                (rebar_rows w)) = Ok max_base /\
    base_req_label (derived (exec update_design_as w)) = Some max_base /\
    (base_msg_label (derived (exec update_design_as w)) = "OK"
     <-> max_base <= b) /\
    (~ max_base <= b ->
     base_msg_label (derived (exec update_design_as w))
     = "Aumentar base o capa").
Proof.
  intros Hr Hb Hwf Hne Hreq de.
  assert (Hrows : exists rows0 rest, rebar_rows w = rows0 :: rest).
  { destruct (rebar_rows w) as [|rows0 rest]; [contradiction | eauto]. }
  destruct Hrows as (rows0 & rest & Hrows).
  unfold eval in Hreq.
  destruct (_required_areas w) as [w1 res] eqn:Hra. simpl in Hreq. subst res.
  destruct reqs as [reqs_n reqs_p].
  pose proof (update_design_as_closed w w1 reqs_n reqs_p r b rows0 rest
                Hra Hr Hb Hwf Hrows) as Hup.
  cbv zeta in Hup. fold de in Hup.
  exists (foldl Rmax (section_base_12 r de rows0)
                (map (section_base_12 r de) rest)).
  split; [rewrite Hrows; reflexivity|].
  unfold exec. rewrite Hup. cbn.
  split; [reflexivity|].
  unfold base_msg_of. case_decide.
  - split; [split; [auto | reflexivity] | contradiction].
  - split; [split; [discriminate | contradiction] | reflexivity].
Qed.

End BaseWidth.

(** ** The rows of a section: between one and four *)

Section Rows.
Context `{Constants}.

Lemma rows_inv_same_inputs (w w' : DesignWindow) :
  same_inputs w w' -> rows_inv w -> rows_inv w'.
Proof.
  intros (_ & _ & _ & _ & _ & Hrows & Hnext) Hinv.
  unfold rows_inv in *. rewrite Hrows, Hnext. exact Hinv.
Qed.

Lemma section_ok_older (next : nat) (rows : list Row) :
  section_ok next rows -> section_ok (S next) rows.
Proof.
  intros (Hlen & Hnd & Hold). repeat split; try assumption; try lia.
  eapply Forall_impl; [exact Hold|]. simpl. intros row Hrow. lia.
Qed.

Lemma section_ok_add (next : nat) (rows : list Row) (row : Row) :
  section_ok next rows -> (length rows < 4)%nat -> widget row = next ->
  section_ok (S next) (rows ++ [row]).
Proof.
  intros (Hlen & Hnd & Hold) Hlt Hw. repeat split.
  - rewrite length_app. simpl. lia.
  - rewrite length_app. simpl. lia.
  - rewrite map_app. simpl. apply NoDup_app. split; [exact Hnd|]. split.
    + intros x Hx Hx'. apply list_elem_of_singleton in Hx'. subst x.
      apply elem_of_map_inv in Hx as (r & Hr & Hin).
      rewrite Forall_forall in Hold. specialize (Hold r Hin). lia.
    + apply NoDup_singleton.
  - apply Forall_app. split.
    + eapply Forall_impl; [exact Hold|]. simpl. intros r Hr. lia.
    + constructor; [lia | constructor].
Qed.

Lemma section_ok_single (next : nat) (row : Row) :
  (widget row < next)%nat -> section_ok next [row].
Proof.
  intros Hlt. split; [simpl; lia|]. split.
  - apply NoDup_singleton.
  - apply List.Forall_cons; [exact Hlt | apply List.Forall_nil].
Qed.

Lemma filter_other_widget_all (wid : nat) (rows : list Row) :
  wid ∉ map widget rows ->
  filter (fun r => widget r <> wid) rows = rows.
Proof.
  induction rows as [|row rows IH]; intros Hnot; [reflexivity|].
  simpl in Hnot. apply not_elem_of_cons in Hnot as [Hne Hnot].
  rewrite filter_cons_True by congruence. rewrite IH by exact Hnot.
  reflexivity.
Qed.

Lemma filter_other_widget_length (wid : nat) (rows : list Row) :
  NoDup (map widget rows) ->
  (length rows <= S (length (filter (fun r => widget r <> wid) rows)))%nat.
Proof.
  induction rows as [|row rows IH]; intros Hnd; simpl; [lia|].
  simpl in Hnd. apply NoDup_cons in Hnd as [Hnot Hnd].
  destruct (decide (widget row = wid)) as [Heq|Hne].
  - rewrite filter_cons_False by tauto.
    rewrite filter_other_widget_all by (rewrite <- Heq; exact Hnot). lia.
  - rewrite filter_cons_True by exact Hne. simpl. specialize (IH Hnd). lia.
Qed.

Lemma section_ok_remove (next wid : nat) (rows : list Row) :
  section_ok next rows -> (1 < length rows)%nat ->
  section_ok next (filter (fun r => widget r <> wid) rows).
Proof.
  intros (Hlen & Hnd & Hold) Hgt.
  pose proof (filter_other_widget_length wid rows Hnd) as Hkeep.
  pose proof (length_filter (fun r => widget r <> wid) rows) as Hshort.
  repeat split; try lia.
  - clear -Hnd. induction rows as [|row rows IH]; [constructor|].
    simpl in Hnd. apply NoDup_cons in Hnd as [Hnot Hnd].
    destruct (decide (widget row <> wid)) as [Hne|Heq].
    + rewrite filter_cons_True by exact Hne. simpl. apply NoDup_cons.
      split; [|apply IH, Hnd].
      intros Hin. apply Hnot. apply elem_of_map_inv in Hin as (r & Hr & Hin).
      apply list_elem_of_filter in Hin as [_ Hin]. rewrite Hr.
      apply elem_of_map, Hin.
    + rewrite filter_cons_False by exact Heq. apply IH, Hnd.
  - apply Forall_forall. intros r Hr.
    apply list_elem_of_filter in Hr as [_ Hr].
    rewrite Forall_forall in Hold. apply Hold, Hr.
Qed.

Lemma rows_inv_insert (w : DesignWindow) (idx next' : nat)
  (rows rows' : list Row) :
  rows_inv w -> rebar_rows w !! idx = Some rows ->
  (next_widget w <= next')%nat ->
  section_ok next' rows' ->
  rows_inv (set_next_widget next'
              (set_rebar_rows (<[idx := rows']> (rebar_rows w)) w)).
Proof.
  intros [Hlen Hall] Hat Hle Hnew. split; simpl.
  - rewrite length_insert. exact Hlen.
  - apply Forall_insert; [|exact Hnew].
    eapply Forall_impl; [exact Hall|]. simpl.
    intros rs (Hl & Hnd & Hold). repeat split; try assumption; try lia.
    eapply Forall_impl; [exact Hold|]. simpl. intros r Hr. lia.
Qed.

(** Adding a row is a no-op on a full section. *)
Lemma add_rebar_row_full (w : DesignWindow) (idx : nat) (rows : list Row) :
  rebar_rows w !! idx = Some rows -> (length rows >= 4)%nat ->
  _add_rebar_row idx w = (w, Ok tt).
Proof.
  intros Hat Hfull. unfold _add_rebar_row, mbind, M_bind, get, lift, rows_at.
  rewrite Hat. rewrite decide_True by exact Hfull. reflexivity.
Qed.

(** Removing a row is a no-op on the last row of a section. *)
Lemma remove_rebar_row_last (w : DesignWindow) (idx wid : nat)
  (rows : list Row) :
  rebar_rows w !! idx = Some rows -> (length rows <= 1)%nat ->
  _remove_rebar_row idx wid w = (w, Ok tt).
Proof.
  intros Hat Hlast.
  unfold _remove_rebar_row, mbind, M_bind, get, lift, rows_at.
  rewrite Hat. rewrite decide_True by exact Hlast. reflexivity.
Qed.

Lemma add_rebar_row_inv (w : DesignWindow) (idx : nat) :
  rows_inv w -> rows_inv (exec (_add_rebar_row idx) w).
Proof.
  intros Hinv. unfold exec, _add_rebar_row, mbind, M_bind, get, lift, rows_at.
  destruct (rebar_rows w !! idx) as [rows|] eqn:Hat; simpl; [|exact Hinv].
  destruct (decide (length rows >= 4)%nat) as [Hfull|Hroom]; simpl;
    [exact Hinv|].
  apply (rows_inv_insert w idx (S (next_widget w)) rows); try assumption;
    [lia|].
  apply section_ok_add; [|lia | reflexivity].
  destruct Hinv as [_ Hall]. rewrite Forall_forall in Hall.
  apply Hall. eapply list_elem_of_lookup_2, Hat.
Qed.

Lemma remove_rebar_row_inv (w : DesignWindow) (idx wid : nat) :
  rows_inv w -> rows_inv (exec (_remove_rebar_row idx wid) w).
Proof.
  intros Hinv.
  unfold exec, _remove_rebar_row, mbind, M_bind, get, lift, rows_at, modify.
  destruct (rebar_rows w !! idx) as [rows|] eqn:Hat; simpl; [|exact Hinv].
  destruct (decide (length rows <= 1)%nat) as [Hlast|Hmore]; simpl;
    [exact Hinv|].
  set (w' := set_rebar_rows _ w).
  assert (Hinv' : rows_inv w').
  { destruct w as [a b c d e rr nw dd]. simpl in *.
    apply (rows_inv_insert
             {| mn_corr := a; mp_corr := b; edits := c; cb_estribo := d;
                cb_varilla := e; rebar_rows := rr; next_widget := nw;
                derived := dd |} idx nw rows); simpl; try assumption; [lia|].
    apply section_ok_remove; [|lia].
    destruct Hinv as [_ Hall]. simpl in Hall. rewrite Forall_forall in Hall.
    apply Hall. eapply list_elem_of_lookup_2, Hat. }
  pose proof (keeps_inputs_update_design_as w') as Hframe.
  unfold exec in Hframe.
  destruct (update_design_as w') as [w'' res]; simpl in *.
  destruct res; simpl; apply (rows_inv_same_inputs w' w'' Hframe Hinv').
Qed.

Lemma on_click_inv (c : click) (w : DesignWindow) :
  rows_inv w -> rows_inv (on_click c w).
Proof.
  destruct c as [idx|idx wid]; simpl;
    [apply add_rebar_row_inv | apply remove_rebar_row_inv].
Qed.

Lemma run_clicks_inv (cs : list click) (w : DesignWindow) :
  rows_inv w -> rows_inv (run_clicks cs w).
Proof.
  revert w. induction cs as [|c cs IH]; intros w Hinv; simpl; [exact Hinv|].
  apply IH, on_click_inv, Hinv.
Qed.

Lemma exec_bind_ok {S A B : Type} (m : M S A) (f : A -> M S B) (s s1 : S)
  (a : A) :
  m s = (s1, Ok a) -> exec (m ≫= f) s = exec (f a) s1.
Proof. intros Hm. unfold exec, mbind, M_bind. rewrite Hm. reflexivity. Qed.

Lemma add_first_rows_built (mn mp : list R) :
  add_first_rows (seq 0 6) (fresh_window mn mp)
  = (set_next_widget 6
       (set_rebar_rows
          [ [default_row 0]; [default_row 1]; [default_row 2];
            [default_row 3]; [default_row 4]; [default_row 5] ]
          (fresh_window mn mp)),
     Ok tt).
Proof. reflexivity. Qed.

Lemma init_window_inv (mn mp : list R) : rows_inv (init_window mn mp).
Proof.
  unfold init_window, _build_ui.
  rewrite (exec_bind_ok _ _ _ _ _ (add_first_rows_built mn mp)).
  eapply rows_inv_same_inputs.
  - apply (keeps_inputs_bind draw_section);
      [apply keeps_inputs_draw_section | intros ?].
    apply (keeps_inputs_bind draw_required_distribution);
      [apply keeps_inputs_draw_required_distribution | intros ?].
    apply keeps_inputs_update_design_as.
  - split; [reflexivity|].
    change (Forall (section_ok 6)
              [ [default_row 0]; [default_row 1]; [default_row 2];
                [default_row 3]; [default_row 4]; [default_row 5] ]).
    repeat (apply List.Forall_cons;
            [apply section_ok_single; cbn [widget default_row mk_row]; lia|]).
    apply List.Forall_nil.
Qed.

(** C9: after any sequence of clicks on the add and remove buttons each
    of the six sections holds between 1 and 4 rows; adding to a section of
    4 rows and removing from a section of 1 row change nothing. *)
Theorem rebar_rows_between_1_and_4 (mn mp : list R) (cs : list click) :
  length (rebar_rows (run_clicks cs (init_window mn mp))) = 6%nat /\
  Forall (fun rows => (1 <= length rows <= 4)%nat)
         (rebar_rows (run_clicks cs (init_window mn mp))) /\
  (forall w idx rows,
     rebar_rows w !! idx = Some rows -> (length rows >= 4)%nat ->
     _add_rebar_row idx w = (w, Ok tt)) /\
  (forall w idx wid rows,
     rebar_rows w !! idx = Some rows -> (length rows <= 1)%nat ->
     _remove_rebar_row idx wid w = (w, Ok tt)).
Proof.
  destruct (run_clicks_inv cs _ (init_window_inv mn mp)) as [Hlen Hall].
  split; [exact Hlen|]. split.
  - eapply Forall_impl; [exact Hall|]. simpl. intros rows Hok. apply Hok.
  - split; [apply add_rebar_row_full | apply remove_rebar_row_last].
Qed.

End Rows.

(** ** Reordering the bars of a section *)

Section Reordering.
Context `{Constants}.

Lemma keeps_design_ret {A : Type} (a : A) :
  keeps_design (mret a : M View3DWindow A).
Proof. intros v. reflexivity. Qed.

Lemma keeps_design_get : keeps_design (get : M View3DWindow View3DWindow).
Proof. intros v. reflexivity. Qed.

Lemma keeps_design_lift {A : Type} (r : result A) :
  keeps_design (lift r : M View3DWindow A).
Proof. intros v. reflexivity. Qed.

Lemma keeps_design_set_neg (o : list (list string)) :
  keeps_design (modify (set_neg_orders o)).
Proof. intros v. reflexivity. Qed.

Lemma keeps_design_set_pos (o : list (list string)) :
  keeps_design (modify (set_pos_orders o)).
Proof. intros v. reflexivity. Qed.

Lemma keeps_design_set_orders (is_pos : bool) (o : list (list string)) :
  keeps_design (modify (set_orders is_pos o)).
Proof. intros v. destruct is_pos; reflexivity. Qed.

Lemma keeps_design_bind {A B : Type} (m : M View3DWindow A)
  (f : A -> M View3DWindow B) :
  keeps_design m -> (forall a, keeps_design (f a)) -> keeps_design (m ≫= f).
Proof.
  intros Hm Hf v. specialize (Hm v). unfold exec, mbind, M_bind in *.
  destruct (m v) as [v1 [a|e]]; simpl in *; [|exact Hm].
  rewrite <- Hm. apply (Hf a v1).
Qed.

Ltac view_frame :=
  repeat first
    [ apply keeps_design_ret
    | apply keeps_design_get
    | apply keeps_design_lift
    | apply keeps_design_set_neg
    | apply keeps_design_set_pos
    | apply keeps_design_set_orders
    | apply keeps_design_bind; [|intros ?]
    | match goal with
      | |- keeps_design (match ?x with _ => _ end) => destruct x
      | |- keeps_design (let '(_, _) := ?x in _) => destruct x
      end ].

Lemma keeps_design_draw_views (reset_orders : bool) :
  keeps_design (draw_views reset_orders).
Proof. unfold draw_views. view_frame. Qed.

Lemma keeps_design_fetch_order (is_pos : bool) (section : Z) :
  keeps_design (fetch_order is_pos section).
Proof. unfold fetch_order. view_frame. Qed.

Lemma keeps_design_swap_bars (sign : string) (section i j : Z) :
  keeps_design (swap_bars sign section i j).
Proof.
  unfold swap_bars. view_frame;
    first [apply keeps_design_fetch_order | apply keeps_design_draw_views].
Qed.

Lemma keeps_design_move_bar (sign : string) (section idx new_idx : Z) :
  keeps_design (move_bar sign section idx new_idx).
Proof.
  unfold move_bar. view_frame;
    first [apply keeps_design_fetch_order | apply keeps_design_draw_views].
Qed.
Lemma orders_of_set_orders (is_pos : bool) (o : list (list string))
  (v : View3DWindow) :
  orders_of is_pos (set_orders is_pos o v) = o.
Proof. destruct is_pos; reflexivity. Qed.

Lemma draw_views_keeps_orders (is_pos : bool) (v : View3DWindow) :
  orders_of is_pos v <> [] ->
  orders_of is_pos (exec (draw_views false) v) = orders_of is_pos v.
Proof.
  intros Hne. unfold exec, draw_views, mbind, M_bind, result_bind, get, lift,
    modify, mret, M_ret.
  cbv beta iota.
  destruct (edit_b (edits (design v))); cbn [py_float]; cbv beta iota;
    [|reflexivity].
  destruct (edit_h (edits (design v))); cbn [py_float]; cbv beta iota;
    [|reflexivity].
  destruct (edit_r (edits (design v))); cbn [py_float]; cbv beta iota;
    [|reflexivity].
  destruct (mapM_result (fun i => _collect_bars (design v) i) [0; 1; 2]%nat)
    as [neg_layers|e]; cbv beta iota; [|reflexivity].
  destruct (mapM_result (fun i => _collect_bars (design v) (i + 3))
                        [0; 1; 2]%nat)
    as [pos_layers|e]; cbv beta iota; [|reflexivity].
  destruct is_pos; cbn [orders_of orb] in *.
  - destruct (bool_decide (neg_orders v = [])); cbv beta iota.
    + destruct (collect_orders (design v) 0) as [o|e]; cbv beta iota;
        [|reflexivity].
      cbn [set_neg_orders pos_orders fst].
      rewrite (bool_decide_eq_false_2 (pos_orders v = [])) by exact Hne.
      reflexivity.
    + rewrite (bool_decide_eq_false_2 (pos_orders v = [])) by exact Hne.
      reflexivity.
  - rewrite (bool_decide_eq_false_2 (neg_orders v = [])) by exact Hne.
    cbv beta iota.
    destruct (bool_decide (pos_orders v = [])); cbv beta iota; [|reflexivity].
    destruct (collect_orders (design v) 3) as [o|e]; reflexivity.
Qed.

Lemma list_insert_at_Permutation {A : Type} (k : nat) (x : A) (l : list A) :
  list_insert_at k x l ≡ₚ x :: l.
Proof.
  unfold list_insert_at. rewrite <- Permutation_middle.
  rewrite take_drop. reflexivity.
Qed.

Lemma fetch_order_present (is_pos : bool) (section : Z) (v : View3DWindow)
  (lst : list string) :
  orders_of is_pos v !! Z.to_nat section = Some lst ->
  fetch_order is_pos section v = (v, Ok (orders_of is_pos v, lst)).
Proof.
  intros Hat. unfold fetch_order, mbind, M_bind, get.
  destruct (orders_of is_pos v) as [|o os] eqn:Ho; [discriminate|].
  simpl. rewrite Hat. reflexivity.
Qed.

Lemma reorder_lookup (is_pos : bool) (v : View3DWindow) (n : nat)
  (orders : list (list string)) (lst lst' : list string) :
  orders !! n = Some lst ->
  orders_of is_pos
    (exec (draw_views false) (set_orders is_pos (<[n := lst']> orders) v))
  !! n = Some lst'.
Proof.
  intros Hat. rewrite draw_views_keeps_orders.
  - rewrite orders_of_set_orders. apply list_lookup_insert_eq.
    eapply lookup_lt_Some, Hat.
  - rewrite orders_of_set_orders. intros Hnil.
    apply (f_equal length) in Hnil. rewrite length_insert in Hnil.
    apply lookup_lt_Some in Hat. simpl in Hnil. lia.
Qed.

Lemma swap_bars_permutes (v : View3DWindow) (sign : string) (section i j : Z)
  (lst : list string) :
  orders_of (bool_decide (sign = "pos")) v !! Z.to_nat section = Some lst ->
  exists lst',
    orders_of (bool_decide (sign = "pos"))
              (exec (swap_bars sign section i j) v)
    !! Z.to_nat section = Some lst' /\
    lst' ≡ₚ lst.
Proof.
  intros Hat. unfold swap_bars.
  destruct (known_sign sign); simpl; [|exists lst; split; [exact Hat | reflexivity]].
  destruct (in_range section 3); simpl; [|exists lst; split; [exact Hat | reflexivity]].
  unfold exec, mbind at 1, M_bind.
  rewrite (fetch_order_present _ _ _ _ Hat).
  destruct (in_range i (length lst) && in_range j (length lst)); simpl;
    [|exists lst; split; [exact Hat | reflexivity]].
  destruct (lst !! Z.to_nat i) as [xi|] eqn:Hi; simpl;
    [|exists lst; split; [exact Hat | reflexivity]].
  destruct (lst !! Z.to_nat j) as [xj|] eqn:Hj; simpl;
    [|exists lst; split; [exact Hat | reflexivity]].
  eexists. split.
  - unfold mbind, M_bind, modify.
    apply (reorder_lookup _ v _ _ lst _ Hat).
  - apply (Permutation_insert_swap lst _ _ xi xj Hi Hj).
Qed.

Lemma move_bar_permutes (v : View3DWindow) (sign : string)
  (section idx new_idx : Z) (lst : list string) :
  orders_of (bool_decide (sign = "pos")) v !! Z.to_nat section = Some lst ->
  exists lst',
    orders_of (bool_decide (sign = "pos"))
              (exec (move_bar sign section idx new_idx) v)
    !! Z.to_nat section = Some lst' /\
    lst' ≡ₚ lst.
Proof.
  intros Hat. unfold move_bar.
  destruct (known_sign sign); simpl; [|exists lst; split; [exact Hat | reflexivity]].
  destruct (in_range section 3); simpl; [|exists lst; split; [exact Hat | reflexivity]].
  unfold exec, mbind at 1, M_bind.
  rewrite (fetch_order_present _ _ _ _ Hat).
  destruct (in_range idx (length lst)); simpl;
    [|exists lst; split; [exact Hat | reflexivity]].
  destruct (decide _); simpl; [exists lst; split; [exact Hat | reflexivity]|].
  destruct (lst !! Z.to_nat idx) as [val|] eqn:Hi; simpl;
    [|exists lst; split; [exact Hat | reflexivity]].
  eexists. split.
  - unfold mbind, M_bind, modify.
    apply (reorder_lookup _ v _ _ lst _ Hat).
  - rewrite list_insert_at_Permutation. symmetry.
    apply delete_Permutation, Hi.
Qed.
(** An order that fits the layers is cut into one slice for each layer,
    as long as the layer has bars. *)
Lemma plot_slices_fit (layers : gmap Z (list (R * string)))
  (keys : list Z) (order : list string) :
  Forall (fun k => default [] (layers !! k) <> []) keys ->
  length order
  = sum_list (map (fun k => length (default [] (layers !! k))) keys) ->
  concat (map snd (plot_slices order layers keys)) = order /\
  map (fun p => (p.1, length p.2)) (plot_slices order layers keys)
  = map (fun k => (k, length (default [] (layers !! k)))) keys.
Proof.
  intros Hne. revert order.
  induction Hne as [|k keys Hk Hne IH]; intros order Hlen.
  - simpl in *. destruct order; [split; reflexivity | discriminate].
  - cbn [plot_slices map] in *.
    change (sum_list (?x :: ?l)) with (x + sum_list l)%nat in Hlen.
    set (count := length (default [] (layers !! k))) in *.
    assert (Hpos : (0 < count)%nat).
    { unfold count. destruct (default [] (layers !! k));
        [contradiction | simpl; lia]. }
    assert (Htake : length (take count order) = count)
      by (rewrite length_take; lia).
    destruct (take count order) as [|x slice] eqn:Hslice;
      [simpl in Htake; lia|].
    cbv zeta iota. rewrite Htake.
    destruct (IH (drop count order)) as [Hcat Hcounts].
    { rewrite length_drop. lia. }
    cbn [map concat fst snd]. rewrite Hcat, Hcounts, Htake, <- Hslice.
    split; [apply take_drop | reflexivity].
Qed.

Lemma plot_layers_Permutation (layers : gmap Z (list (R * string)))
  (lst lst' : list string) :
  order_fits lst layers -> lst' ≡ₚ lst ->
  concat (map snd (plot_layers lst' layers))
  ≡ₚ concat (map snd (plot_layers lst layers)) /\
  map (fun p => (p.1, length p.2)) (plot_layers lst' layers)
  = map (fun p => (p.1, length p.2)) (plot_layers lst layers).
Proof.
  intros [Hne Hlen] Hperm. unfold plot_layers.
  destruct (plot_slices_fit layers _ lst Hne Hlen) as [-> ->].
  assert (Hlen' : length lst'
            = sum_list (map (fun k => length (default [] (layers !! k)))
                            (sorted_keys layers)))
    by (rewrite (Permutation_length Hperm); exact Hlen).
  destruct (plot_slices_fit layers _ lst' Hne Hlen') as [-> ->].
  split; [exact Hperm | reflexivity].
Qed.

(** C8 (amended): swapping or moving bars of a section in the view
    changes nothing of the design window, so the required areas, the
    provided areas and the base width check computed from it are the same
    before and after; the stored order of the section becomes a
    permutation of itself.  In the drawing the order is cut into slices by
    the number of bars of each layer: when the order fits the layers, the
    bars drawn are as a whole the same and each layer keeps its number of
    bars, but WHICH designation is drawn in which layer follows the order,
    so more than x-coordinates can change. *)
Theorem reordering_keeps_areas (v : View3DWindow) (sign : string)
  (section i j : Z) :
  let v1 := exec (swap_bars sign section i j) v in
  let v2 := exec (move_bar sign section i j) v in
  (design v1 = design v /\ design v2 = design v) /\
  (_required_areas (design v1) = _required_areas (design v) /\
   _required_areas (design v2) = _required_areas (design v)) /\
  (_design_areas (design v1) = _design_areas (design v) /\
   _design_areas (design v2) = _design_areas (design v)) /\
  (update_design_as (design v1) = update_design_as (design v) /\
   update_design_as (design v2) = update_design_as (design v)) /\
  (forall lst,
     orders_of (bool_decide (sign = "pos")) v !! Z.to_nat section = Some lst ->
     (exists lst1,
        orders_of (bool_decide (sign = "pos")) v1 !! Z.to_nat section
        = Some lst1 /\ lst1 ≡ₚ lst) /\
     (exists lst2,
        orders_of (bool_decide (sign = "pos")) v2 !! Z.to_nat section
        = Some lst2 /\ lst2 ≡ₚ lst)) /\
  (forall lst layers,
     orders_of (bool_decide (sign = "pos")) v !! Z.to_nat section = Some lst ->
     order_fits lst layers ->
     forall v', v' = v1 \/ v' = v2 ->
     exists lst',
       orders_of (bool_decide (sign = "pos")) v' !! Z.to_nat section
       = Some lst' /\
       concat (map snd (plot_layers lst' layers))
       ≡ₚ concat (map snd (plot_layers lst layers)) /\
       map (fun p => (p.1, length p.2)) (plot_layers lst' layers)
       = map (fun p => (p.1, length p.2)) (plot_layers lst layers)).
Proof.
  intros v1 v2.
  assert (H1 : design v1 = design v) by apply keeps_design_swap_bars.
  assert (H2 : design v2 = design v) by apply keeps_design_move_bar.
  rewrite H1, H2.
  split; [split; reflexivity|]. split; [split; reflexivity|].
  split; [split; reflexivity|]. split; [split; reflexivity|].
  split.
  - intros lst Hat. split.
    + apply (swap_bars_permutes v sign section i j lst). assumption.
    + apply (move_bar_permutes v sign section i j lst). assumption.
  - intros lst layers Hat Hfit v' Hv'.
    assert (Hperm : exists lst',
              orders_of (bool_decide (sign = "pos")) v' !! Z.to_nat section
              = Some lst' /\ lst' ≡ₚ lst).
    { destruct Hv' as [-> | ->].
      - apply (swap_bars_permutes v sign section i j lst). assumption.
      - apply (move_bar_permutes v sign section i j lst). assumption. }
    destruct Hperm as (lst' & Hat' & Hperm).
    exists lst'. split; [exact Hat'|].
    apply plot_layers_Permutation; assumption.
Qed.

End Reordering.

(** ** More on reordering the bars of the view *)

Section MoreReordering.
Context `{Constants}.

Lemma in_range_spec (i : Z) (n : nat) :
  in_range i n = true <-> (0 <= i < Z.of_nat n)%Z.
Proof.
  unfold in_range. rewrite andb_true_iff, !bool_decide_eq_true. tauto.
Qed.

Lemma in_range_lookup {A : Type} (l : list A) (i : Z) :
  in_range i (length l) = true -> exists x, l !! Z.to_nat i = Some x.
Proof.
  intros Hi. apply in_range_spec in Hi.
  apply lookup_lt_is_Some_2. lia.
Qed.

Lemma insert_not_nil {A : Type} (l : list A) (n : nat) (x y : A) :
  l !! n = Some y -> <[n := x]> l <> [].
Proof.
  intros Hat Hnil. apply (f_equal length) in Hnil.
  rewrite length_insert in Hnil. apply lookup_lt_Some in Hat.
  simpl in Hnil. lia.
Qed.

Lemma orders_after_draw (is_pos : bool) (v : View3DWindow)
  (o : list (list string)) :
  o <> [] ->
  orders_of is_pos (fst (draw_views false (set_orders is_pos o v))) = o.
Proof.
  intros Hne.
  change (fst (draw_views false (set_orders is_pos o v)))
    with (exec (draw_views false) (set_orders is_pos o v)).
  rewrite draw_views_keeps_orders; rewrite orders_of_set_orders;
    [reflexivity | exact Hne].
Qed.

(** The orders that [swap_bars] leaves, when it gets to swap. *)
Lemma swap_bars_orders (v : View3DWindow) (sign : string) (section i j : Z)
  (lst : list string) (xi xj : string) :
  known_sign sign = true -> in_range section 3 = true ->
  orders_of (bool_decide (sign = "pos")) v !! Z.to_nat section = Some lst ->
  in_range i (length lst) = true -> in_range j (length lst) = true ->
  lst !! Z.to_nat i = Some xi -> lst !! Z.to_nat j = Some xj ->
  orders_of (bool_decide (sign = "pos")) (exec (swap_bars sign section i j) v)
  = <[Z.to_nat section := <[Z.to_nat j := xi]> (<[Z.to_nat i := xj]> lst)]>
      (orders_of (bool_decide (sign = "pos")) v).
Proof.
  intros Hs Hsec Hat Hi Hj Hxi Hxj. unfold swap_bars.
  rewrite Hs, Hsec. cbn [negb].
  unfold exec, mbind at 1, M_bind.
  rewrite (fetch_order_present _ _ _ _ Hat).
  rewrite Hi, Hj. cbn [andb negb]. rewrite Hxi, Hxj.
  unfold mbind, M_bind, modify.
  apply orders_after_draw. eapply insert_not_nil, Hat.
Qed.

(** [swap_bars] gives up without touching the orders when a guard
    fails. *)
Lemma swap_bars_skips (v : View3DWindow) (sign : string) (section i j : Z)
  (lst : list string) :
  orders_of (bool_decide (sign = "pos")) v !! Z.to_nat section = Some lst ->
  known_sign sign = false \/ in_range section 3 = false \/
  in_range i (length lst) = false \/ in_range j (length lst) = false ->
  exec (swap_bars sign section i j) v = v.
Proof.
  intros Hat Hbad. unfold swap_bars.
  destruct (known_sign sign); cbn [negb]; [|reflexivity].
  destruct (in_range section 3); cbn [negb]; [|reflexivity].
  unfold exec, mbind at 1, M_bind.
  rewrite (fetch_order_present _ _ _ _ Hat).
  destruct Hbad as [Hbad|[Hbad|[Hbad|Hbad]]]; try discriminate;
    rewrite Hbad; rewrite ?andb_false_r; reflexivity.
Qed.

Lemma swap_lookup_1 {A : Type} (l : list A) (i j : nat) (xi xj : A) :
  l !! i = Some xi -> l !! j = Some xj ->
  <[j := xi]> (<[i := xj]> l) !! i = Some xj.
Proof.
  intros Hi Hj. destruct (decide (i = j)) as [->|Hne].
  - rewrite list_lookup_insert_eq
      by (rewrite length_insert; eapply lookup_lt_Some, Hj). congruence.
  - rewrite list_lookup_insert_ne by congruence.
    apply list_lookup_insert_eq. eapply lookup_lt_Some, Hi.
Qed.

Lemma swap_lookup_2 {A : Type} (l : list A) (i j : nat) (xi xj : A) :
  l !! i = Some xi -> l !! j = Some xj ->
  <[j := xi]> (<[i := xj]> l) !! j = Some xi.
Proof.
  intros Hi Hj. apply list_lookup_insert_eq. rewrite length_insert.
  eapply lookup_lt_Some, Hj.
Qed.

Lemma swap_swap {A : Type} (l : list A) (i j : nat) (xi xj : A) :
  l !! i = Some xi -> l !! j = Some xj ->
  <[j := xj]> (<[i := xi]> (<[j := xi]> (<[i := xj]> l))) = l.
Proof.
  intros Hi Hj. apply list_eq. intros k.
  destruct (decide (k = j)) as [->|Hkj].
  - rewrite list_lookup_insert_eq
      by (rewrite !length_insert; eapply lookup_lt_Some, Hj). congruence.
  - rewrite list_lookup_insert_ne by congruence.
    destruct (decide (k = i)) as [->|Hki].
    + rewrite list_lookup_insert_eq
        by (rewrite !length_insert; eapply lookup_lt_Some, Hi). congruence.
    + rewrite !list_lookup_insert_ne by congruence. reflexivity.
Qed.

(** X1: [swap_bars] exchanges the two bars and nothing else: the bar of
    position i is found at j and the bar of j at i, every other position of
    the section and every other section keep their bar. *)
Theorem swap_bars_exchanges (v : View3DWindow) (sign : string)
  (section i j : Z) (lst : list string) :
  known_sign sign = true -> in_range section 3 = true ->
  orders_of (bool_decide (sign = "pos")) v !! Z.to_nat section = Some lst ->
  in_range i (length lst) = true -> in_range j (length lst) = true ->
  let orders' :=
    orders_of (bool_decide (sign = "pos"))
              (exec (swap_bars sign section i j) v) in
  exists lst',
    orders' !! Z.to_nat section = Some lst' /\
    length lst' = length lst /\
    lst' !! Z.to_nat i = lst !! Z.to_nat j /\
    lst' !! Z.to_nat j = lst !! Z.to_nat i /\
    (forall k, k <> Z.to_nat i -> k <> Z.to_nat j -> lst' !! k = lst !! k) /\
    (forall m, m <> Z.to_nat section ->
               orders' !! m
               = orders_of (bool_decide (sign = "pos")) v !! m).
Proof.
  intros Hs Hsec Hat Hi Hj orders'.
  destruct (in_range_lookup lst i Hi) as [xi Hxi].
  destruct (in_range_lookup lst j Hj) as [xj Hxj].
  unfold orders'.
  rewrite (swap_bars_orders v sign section i j lst xi xj Hs Hsec Hat Hi Hj
             Hxi Hxj).
  eexists. split.
  - apply list_lookup_insert_eq. eapply lookup_lt_Some, Hat.
  - split; [rewrite !length_insert; reflexivity|].
    split; [rewrite Hxj; apply (swap_lookup_1 lst _ _ xi xj Hxi Hxj)|].
    split; [rewrite Hxi; apply (swap_lookup_2 lst _ _ xi xj Hxi Hxj)|].
    split.
    + intros k Hki Hkj. rewrite !list_lookup_insert_ne by congruence.
      reflexivity.
    + intros m Hm. rewrite list_lookup_insert_ne by congruence. reflexivity.
Qed.

(** X2: swapping the same two bars twice gives back the stored orders. *)
Theorem swap_bars_twice (v : View3DWindow) (sign : string) (section i j : Z)
  (lst : list string) :
  orders_of (bool_decide (sign = "pos")) v !! Z.to_nat section = Some lst ->
  orders_of (bool_decide (sign = "pos"))
            (exec (swap_bars sign section i j)
                  (exec (swap_bars sign section i j) v))
  = orders_of (bool_decide (sign = "pos")) v.
Proof.
  intros Hat.
  destruct (known_sign sign) eqn:Hs;
    [|rewrite !(swap_bars_skips v sign section i j lst Hat); auto].
  destruct (in_range section 3) eqn:Hsec;
    [|rewrite !(swap_bars_skips v sign section i j lst Hat); auto].
  destruct (in_range i (length lst)) eqn:Hi;
    [|rewrite !(swap_bars_skips v sign section i j lst Hat); auto].
  destruct (in_range j (length lst)) eqn:Hj;
    [|rewrite !(swap_bars_skips v sign section i j lst Hat); auto 6].
  destruct (in_range_lookup lst i Hi) as [xi Hxi].
  destruct (in_range_lookup lst j Hj) as [xj Hxj].
  pose proof (swap_bars_orders v sign section i j lst xi xj Hs Hsec Hat Hi Hj
                Hxi Hxj) as H1.
  set (v1 := exec (swap_bars sign section i j) v) in *.
  set (lst1 := <[Z.to_nat j := xi]> (<[Z.to_nat i := xj]> lst)) in *.
  assert (Hat1 : orders_of (bool_decide (sign = "pos")) v1 !! Z.to_nat section
                 = Some lst1).
  { rewrite H1. apply list_lookup_insert_eq. eapply lookup_lt_Some, Hat. }
  assert (Hlen : length lst1 = length lst)
    by (unfold lst1; rewrite !length_insert; reflexivity).
  rewrite (swap_bars_orders v1 sign section i j lst1 xj xi Hs Hsec Hat1);
    try (rewrite Hlen; assumption).
  - rewrite H1. rewrite list_insert_insert_eq. unfold lst1.
    rewrite (swap_swap lst _ _ xi xj Hxi Hxj).
    apply list_insert_id, Hat.
  - apply (swap_lookup_1 lst _ _ xi xj Hxi Hxj).
  - apply (swap_lookup_2 lst _ _ xi xj Hxi Hxj).
Qed.

Lemma clamp_index_range (new_idx : Z) (n : nat) :
  (0 < n)%nat -> (0 <= clamp_index new_idx n < Z.of_nat n)%Z.
Proof. unfold clamp_index. lia. Qed.

Lemma clamp_index_id (idx : Z) (n : nat) :
  (0 <= idx < Z.of_nat n)%Z -> clamp_index idx n = idx.
Proof. unfold clamp_index. lia. Qed.

Lemma move_bar_skips (v : View3DWindow) (sign : string)
  (section idx new_idx : Z) (lst : list string) :
  orders_of (bool_decide (sign = "pos")) v !! Z.to_nat section = Some lst ->
  known_sign sign = false \/ in_range section 3 = false \/
  in_range idx (length lst) = false \/
  idx = clamp_index new_idx (length lst) ->
  exec (move_bar sign section idx new_idx) v = v.
Proof.
  intros Hat Hbad. unfold move_bar.
  destruct (known_sign sign); cbn [negb]; [|reflexivity].
  destruct (in_range section 3); cbn [negb]; [|reflexivity].
  unfold exec, mbind at 1, M_bind.
  rewrite (fetch_order_present _ _ _ _ Hat).
  destruct (in_range idx (length lst)); cbn [negb]; [|reflexivity].
  fold (clamp_index new_idx (length lst)).
  destruct Hbad as [Hbad|[Hbad|[Hbad|Hbad]]]; try discriminate.
  rewrite decide_True by exact Hbad. reflexivity.
Qed.

(** The orders that [move_bar] leaves, when it gets to move. *)
Lemma move_bar_orders (v : View3DWindow) (sign : string)
  (section idx new_idx : Z) (lst : list string) (val : string) :
  known_sign sign = true -> in_range section 3 = true ->
  orders_of (bool_decide (sign = "pos")) v !! Z.to_nat section = Some lst ->
  in_range idx (length lst) = true ->
  idx <> clamp_index new_idx (length lst) ->
  lst !! Z.to_nat idx = Some val ->
  orders_of (bool_decide (sign = "pos"))
            (exec (move_bar sign section idx new_idx) v)
  = <[Z.to_nat section :=
        list_insert_at (Z.to_nat (clamp_index new_idx (length lst))) val
                       (delete (Z.to_nat idx) lst)]>
      (orders_of (bool_decide (sign = "pos")) v).
Proof.
  intros Hs Hsec Hat Hi Hne Hval. unfold move_bar.
  rewrite Hs, Hsec. cbn [negb].
  unfold exec, mbind at 1, M_bind.
  rewrite (fetch_order_present _ _ _ _ Hat).
  rewrite Hi. cbn [negb]. fold (clamp_index new_idx (length lst)).
  rewrite decide_False by exact Hne. rewrite Hval.
  unfold mbind, M_bind, modify.
  apply orders_after_draw. eapply insert_not_nil, Hat.
Qed.

Lemma list_insert_at_lookup {A : Type} (k : nat) (x : A) (l : list A) :
  (k <= length l)%nat -> list_insert_at k x l !! k = Some x.
Proof.
  intros Hk. unfold list_insert_at.
  rewrite lookup_app_r by (rewrite length_take; lia).
  rewrite length_take. replace (k - k `min` length l)%nat with 0%nat by lia.
  reflexivity.
Qed.

Lemma list_insert_at_delete {A : Type} (k : nat) (x : A) (l : list A) :
  (k <= length l)%nat -> delete k (list_insert_at k x l) = l.
Proof.
  intros Hk. unfold list_insert_at. rewrite delete_take_drop.
  rewrite take_app_length' by (rewrite length_take; lia).
  rewrite cons_middle, app_assoc.
  rewrite drop_app_length' by (rewrite length_app, length_take; simpl; lia).
  apply take_drop.
Qed.

Lemma list_insert_at_length {A : Type} (k : nat) (x : A) (l : list A) :
  length (list_insert_at k x l) = S (length l).
Proof.
  unfold list_insert_at. rewrite length_app. simpl.
  rewrite length_take, length_drop. lia.
Qed.

Lemma list_insert_at_restore {A : Type} (k : nat) (x : A) (l : list A) :
  l !! k = Some x -> list_insert_at k x (delete k l) = l.
Proof.
  intros Hk. unfold list_insert_at. rewrite delete_take_drop.
  pose proof (lookup_lt_Some _ _ _ Hk) as Hlt.
  rewrite take_app_length' by (rewrite length_take; lia).
  rewrite drop_app_length' by (rewrite length_take; lia).
  apply take_drop_middle, Hk.
Qed.

(** X3: [move_bar] takes the bar out of position idx and puts it at the
    requested position, cut to the ends of the list; the other bars keep
    their relative order and the other sections their bars. *)
Theorem move_bar_places (v : View3DWindow) (sign : string)
  (section idx new_idx : Z) (lst : list string) (val : string) :
  known_sign sign = true -> in_range section 3 = true ->
  orders_of (bool_decide (sign = "pos")) v !! Z.to_nat section = Some lst ->
  in_range idx (length lst) = true ->
  lst !! Z.to_nat idx = Some val ->
  let c := clamp_index new_idx (length lst) in
  let orders' :=
    orders_of (bool_decide (sign = "pos"))
              (exec (move_bar sign section idx new_idx) v) in
  exists lst',
    orders' !! Z.to_nat section = Some lst' /\
    length lst' = length lst /\
    lst' !! Z.to_nat c = Some val /\
    delete (Z.to_nat c) lst' = delete (Z.to_nat idx) lst /\
    (forall m, m <> Z.to_nat section ->
               orders' !! m
               = orders_of (bool_decide (sign = "pos")) v !! m).
Proof.
  intros Hs Hsec Hat Hi Hval c orders'.
  pose proof (lookup_lt_Some _ _ _ Hval) as Hlt.
  assert (Hc : (0 <= c < Z.of_nat (length lst))%Z)
    by (apply clamp_index_range; lia).
  destruct (decide (idx = c)) as [Heq|Hne].
  - unfold orders'.
    rewrite (move_bar_skips v sign section idx new_idx lst Hat) by auto.
    exists lst. rewrite <- Heq. repeat split; try assumption; reflexivity.
  - unfold orders'.
    rewrite (move_bar_orders v sign section idx new_idx lst val Hs Hsec Hat
               Hi Hne Hval).
    fold c.
    assert (Hroom : (Z.to_nat c <= length (delete (Z.to_nat idx) lst))%nat).
    { rewrite length_delete by (rewrite Hval; eauto). lia. }
    eexists. split.
    + apply list_lookup_insert_eq. eapply lookup_lt_Some, Hat.
    + split.
      * rewrite list_insert_at_length, length_delete by (rewrite Hval; eauto).
        lia.
      * split; [apply list_insert_at_lookup, Hroom|].
        split; [apply list_insert_at_delete, Hroom|].
        intros m Hm. rewrite list_lookup_insert_ne by congruence. reflexivity.
Qed.

(** X4: moving a bar and then moving it back from where it landed gives
    back the stored orders. *)
Theorem move_bar_back (v : View3DWindow) (sign : string)
  (section idx new_idx : Z) (lst : list string) :
  orders_of (bool_decide (sign = "pos")) v !! Z.to_nat section = Some lst ->
  in_range idx (length lst) = true ->
  orders_of (bool_decide (sign = "pos"))
            (exec (move_bar sign section
                            (clamp_index new_idx (length lst)) idx)
                  (exec (move_bar sign section idx new_idx) v))
  = orders_of (bool_decide (sign = "pos")) v.
Proof.
  intros Hat Hi.
  set (c := clamp_index new_idx (length lst)).
  destruct (known_sign sign) eqn:Hs;
    [|rewrite !(move_bar_skips v sign section _ _ lst Hat); auto].
  destruct (in_range section 3) eqn:Hsec;
    [|rewrite !(move_bar_skips v sign section _ _ lst Hat); auto].
  destruct (in_range_lookup lst idx Hi) as [val Hval].
  pose proof (lookup_lt_Some _ _ _ Hval) as Hlt.
  pose proof (proj1 (in_range_spec idx (length lst)) Hi) as Hidx.
  assert (Hc : (0 <= c < Z.of_nat (length lst))%Z)
    by (apply clamp_index_range; lia).
  destruct (decide (idx = c)) as [Heq|Hne].
  - rewrite (move_bar_skips v sign section idx new_idx lst Hat) by auto.
    rewrite (move_bar_skips v sign section c idx lst Hat); [reflexivity|].
    do 3 right. rewrite clamp_index_id by exact Hidx. congruence.
  - pose proof (move_bar_orders v sign section idx new_idx lst val Hs Hsec Hat
                  Hi Hne Hval) as H1.
    fold c in H1.
    set (v1 := exec (move_bar sign section idx new_idx) v) in *.
    set (lst1 := list_insert_at (Z.to_nat c) val (delete (Z.to_nat idx) lst))
      in *.
    assert (Hroom : (Z.to_nat c <= length (delete (Z.to_nat idx) lst))%nat).
    { rewrite length_delete by (rewrite Hval; eauto). lia. }
    assert (Hat1 : orders_of (bool_decide (sign = "pos")) v1
                   !! Z.to_nat section = Some lst1).
    { rewrite H1. apply list_lookup_insert_eq. eapply lookup_lt_Some, Hat. }
    assert (Hlen : length lst1 = length lst).
    { unfold lst1. rewrite list_insert_at_length, length_delete
        by (rewrite Hval; eauto). lia. }
    rewrite (move_bar_orders v1 sign section c idx lst1 val Hs Hsec Hat1).
    + rewrite H1, list_insert_insert_eq. rewrite Hlen.
      rewrite (clamp_index_id idx) by exact Hidx.
      unfold lst1. rewrite list_insert_at_delete by exact Hroom.
      rewrite list_insert_at_restore by exact Hval.
      apply list_insert_id, Hat.
    + apply in_range_spec. rewrite Hlen. exact Hc.
    + rewrite Hlen, clamp_index_id by exact Hidx. congruence.
    + apply list_insert_at_lookup, Hroom.
Qed.

(** The orders that [change_order] leaves. *)
Lemma change_order_orders (v : View3DWindow) (sign : string) (section : Z)
  (new_order lst : list string) :
  known_sign sign = true -> in_range section 3 = true ->
  orders_of (bool_decide (sign = "pos")) v !! Z.to_nat section = Some lst ->
  orders_of (bool_decide (sign = "pos"))
            (exec (change_order sign section new_order) v)
  = <[Z.to_nat section := new_order]>
      (orders_of (bool_decide (sign = "pos")) v).
Proof.
  intros Hs Hsec Hat. unfold change_order. rewrite Hs, Hsec. cbn [negb].
  unfold exec, mbind, M_bind, get, modify, lift, mret, M_ret.
  cbv beta iota.
  destruct (orders_of (bool_decide (sign = "pos")) v) as [|o os] eqn:Ho;
    [discriminate|].
  cbv beta iota. rewrite <- Ho in *.
  rewrite decide_True by (eapply lookup_lt_Some, Hat).
  cbv beta iota.
  pose proof (orders_after_draw (bool_decide (sign = "pos"))
                (set_orders (bool_decide (sign = "pos"))
                   (orders_of (bool_decide (sign = "pos")) v) v)
                (<[Z.to_nat section := new_order]>
                   (orders_of (bool_decide (sign = "pos")) v))
                (insert_not_nil _ _ _ _ Hat)) as Hdraw.
  destruct (bool_decide (sign = "pos")); exact Hdraw.
Qed.

Lemma keeps_design_change_order (sign : string) (section : Z)
  (new_order : list string) :
  keeps_design (change_order sign section new_order).
Proof.
  unfold change_order.
  repeat first
    [ apply keeps_design_ret | apply keeps_design_get
    | apply keeps_design_lift | apply keeps_design_set_orders
    | apply keeps_design_draw_views
    | apply keeps_design_bind; [|intros ?]
    | match goal with
      | |- keeps_design (match ?x with _ => _ end) => destruct x
      end ].
Qed.

(** X5: [change_order] stores the new order for the section, for reading
    back, and leaves the other sections and the design window alone; of two
    calls for the same section the second one decides. *)
Theorem change_order_sets (v : View3DWindow) (sign : string) (section : Z)
  (o1 o2 lst : list string) :
  known_sign sign = true -> in_range section 3 = true ->
  orders_of (bool_decide (sign = "pos")) v !! Z.to_nat section = Some lst ->
  let v1 := exec (change_order sign section o1) v in
  orders_of (bool_decide (sign = "pos")) v1 !! Z.to_nat section = Some o1 /\
  (forall m, m <> Z.to_nat section ->
             orders_of (bool_decide (sign = "pos")) v1 !! m
             = orders_of (bool_decide (sign = "pos")) v !! m) /\
  design v1 = design v /\
  orders_of (bool_decide (sign = "pos"))
            (exec (change_order sign section o2) v1)
  = orders_of (bool_decide (sign = "pos"))
              (exec (change_order sign section o2) v).
Proof.
  intros Hs Hsec Hat v1.
  pose proof (change_order_orders v sign section o1 lst Hs Hsec Hat) as H1.
  fold v1 in H1.
  assert (Hat1 : orders_of (bool_decide (sign = "pos")) v1 !! Z.to_nat section
                 = Some o1).
  { rewrite H1. apply list_lookup_insert_eq. eapply lookup_lt_Some, Hat. }
  split; [exact Hat1|]. split.
  - intros m Hm. rewrite H1. apply list_lookup_insert_ne. congruence.
  - split; [apply keeps_design_change_order|].
    rewrite (change_order_orders v1 sign section o2 o1 Hs Hsec Hat1).
    rewrite (change_order_orders v sign section o2 lst Hs Hsec Hat).
    rewrite H1. apply list_insert_insert_eq.
Qed.

Lemma M_bind_run {S A B : Type} (m : M S A) (f : A -> M S B) (s s1 : S)
  (a : A) :
  m s = (s1, Ok a) -> (m ≫= f) s = f a s1.
Proof. intros Hm. unfold mbind, M_bind. rewrite Hm. reflexivity. Qed.

Lemma rows_at_ready (d : DesignWindow) (idx : nat) :
  design_ready d -> (idx < 6)%nat ->
  exists rows, rows_at d idx = Ok rows /\ Forall layer_text_ok rows.
Proof.
  intros [Hlen Hwf] Hidx. unfold rows_at.
  destruct (rebar_rows d !! idx) as [rows|] eqn:Hat.
  - exists rows. split; [reflexivity|].
    rewrite Forall_forall in *. intros row Hrow. apply Hwf.
    apply list_elem_of_In, in_concat. exists rows.
    split; apply list_elem_of_In; [eapply list_elem_of_lookup_2, Hat | exact Hrow].
  - apply lookup_ge_None in Hat. lia.
Qed.

Lemma collect_bars_ready (d : DesignWindow) (idx : nat) :
  design_ready d -> (idx < 6)%nat -> exists layers, _collect_bars d idx = Ok layers.
Proof.
  intros Hd Hidx. destruct (rows_at_ready d idx Hd Hidx) as (rows & Hrows & Hwf).
  unfold _collect_bars. rewrite Hrows. cbn [mbind result_bind].
  clear Hrows.
  generalize (∅ : gmap Z (list (R * string))).
  induction rows as [|row rows IH]; intros layers; [eexists; reflexivity|].
  apply Forall_cons in Hwf as [Hrow Hwf]. cbn [foldM].
  destruct (decide _); cbn [mbind result_bind]; [apply IH, Hwf|].
  unfold layer_text_ok in Hrow.
  destruct (capa row); try contradiction; cbn [int_or mbind result_bind];
    apply IH, Hwf.
Qed.

Lemma collect_orders_ready (d : DesignWindow) (off : nat) :
  design_ready d -> (off <= 3)%nat ->
  exists o, collect_orders d off = Ok o /\ length o = 3%nat.
Proof.
  intros Hd Hoff. unfold collect_orders, _collect_order. cbn [mapM_result].
  destruct (rows_at_ready d (0 + off) Hd ltac:(lia)) as (r0 & -> & _).
  destruct (rows_at_ready d (1 + off) Hd ltac:(lia)) as (r1 & -> & _).
  destruct (rows_at_ready d (2 + off) Hd ltac:(lia)) as (r2 & -> & _).
  eexists. split; reflexivity.
Qed.

Lemma view_ready_set_orders (is_pos : bool) (o : list (list string))
  (v : View3DWindow) :
  view_ready v -> length o = 3%nat -> view_ready (set_orders is_pos o v).
Proof.
  intros (Hd & Hn & Hp) Ho.
  destruct is_pos; repeat split; try apply Hd; try assumption; right; exact Ho.
Qed.

(** [draw_views] on a ready view returns and leaves a ready view. *)
Lemma draw_views_ready (reset_orders : bool) (v : View3DWindow) :
  view_ready v ->
  eval (draw_views reset_orders) v = Ok tt /\
  view_ready (exec (draw_views reset_orders) v).
Proof.
  intros Hv. pose proof Hv as (Hd & Hn & Hp).
  unfold eval, exec, draw_views, mbind, M_bind, result_bind, get, lift,
    modify, mret, M_ret.
  cbv beta iota.
  destruct (edit_b (edits (design v))); cbn [py_float]; cbv beta iota;
    [|split; [reflexivity | exact Hv]].
  destruct (edit_h (edits (design v))); cbn [py_float]; cbv beta iota;
    [|split; [reflexivity | exact Hv]].
  destruct (edit_r (edits (design v))); cbn [py_float]; cbv beta iota;
    [|split; [reflexivity | exact Hv]].
  cbn [mapM_result]. unfold mbind, result_bind.
  destruct (collect_bars_ready (design v) 0 Hd ltac:(lia)) as (l0 & ->).
  destruct (collect_bars_ready (design v) 1 Hd ltac:(lia)) as (l1 & ->).
  destruct (collect_bars_ready (design v) 2 Hd ltac:(lia)) as (l2 & ->).
  destruct (collect_bars_ready (design v) (0 + 3) Hd ltac:(lia)) as (l3 & ->).
  destruct (collect_bars_ready (design v) (1 + 3) Hd ltac:(lia)) as (l4 & ->).
  destruct (collect_bars_ready (design v) (2 + 3) Hd ltac:(lia)) as (l5 & ->).
  cbv beta iota.
  destruct (collect_orders_ready (design v) 0 Hd ltac:(lia)) as (on & Hon & Hlon).
  destruct (collect_orders_ready (design v) 3 Hd ltac:(lia)) as (op & Hop & Hlop).
  destruct (reset_orders || bool_decide (neg_orders v = [])); cbv beta iota.
  - rewrite Hon. cbv beta iota. cbn [set_neg_orders pos_orders design].
    destruct (reset_orders || bool_decide (pos_orders v = [])); cbv beta iota.
    + rewrite Hop. cbv beta iota. split; [reflexivity|].
      repeat split; try apply Hd; right; assumption.
    + split; [reflexivity|].
      repeat split; try apply Hd; [right|]; assumption.
  - destruct (reset_orders || bool_decide (pos_orders v = [])); cbv beta iota.
    + rewrite Hop. cbv beta iota. split; [reflexivity|].
      repeat split; try apply Hd; [|right]; assumption.
    + split; [reflexivity | exact Hv].
Qed.

Lemma fetch_order_ready (is_pos : bool) (section : Z) (v : View3DWindow) :
  view_ready v -> in_range section 3 = true ->
  exists v1 orders lst,
    fetch_order is_pos section v = (v1, Ok (orders, lst)) /\
    view_ready v1 /\ length orders = 3%nat.
Proof.
  intros Hv Hsec. pose proof Hv as (Hd & Hn & Hp).
  apply in_range_spec in Hsec.
  unfold fetch_order, mbind, M_bind, get, lift, modify, mret, M_ret.
  cbv beta iota.
  assert (Hor : orders_ready (orders_of is_pos v))
    by (destruct is_pos; assumption).
  destruct (orders_of is_pos v) as [|o os] eqn:Ho.
  - destruct (collect_orders_ready (design v) (if is_pos then 3 else 0)%nat Hd
                ltac:(destruct is_pos; lia)) as (oc & Hoc & Hloc).
    rewrite Hoc. cbv beta iota.
    destruct (oc !! Z.to_nat section) as [lst|] eqn:Hat.
    + eexists _, _, _. split; [reflexivity|].
      split; [apply view_ready_set_orders; assumption | exact Hloc].
    + apply lookup_ge_None in Hat. lia.
  - cbv beta iota. destruct Hor as [Hor|Hor]; [discriminate|].
    destruct ((o :: os) !! Z.to_nat section) as [lst|] eqn:Hat.
    + eexists _, _, _. split; [reflexivity|]. split; [exact Hv | exact Hor].
    + apply lookup_ge_None in Hat. lia.
Qed.

Lemma swap_bars_ready (v : View3DWindow) (sign : string) (section i j : Z) :
  view_ready v ->
  eval (swap_bars sign section i j) v = Ok tt /\
  view_ready (exec (swap_bars sign section i j) v).
Proof.
  intros Hv. pose proof Hv as (Hd & Hn & Hp).
  unfold swap_bars.
  destruct (known_sign sign); cbn [negb]; [|split; [reflexivity | exact Hv]].
  destruct (in_range section 3) eqn:Hsec; cbn [negb];
    [|split; [reflexivity | exact Hv]].
  destruct (fetch_order_ready (bool_decide (sign = "pos")) section v Hv Hsec)
    as (v1 & orders & lst & Hf & Hv1 & Hlen).
  unfold eval, exec. rewrite (M_bind_run _ _ _ _ _ Hf).
  destruct (in_range i (length lst) && in_range j (length lst)) eqn:Hij;
    cbn [negb]; [|split; [reflexivity | exact Hv1]].
  apply andb_true_iff in Hij as [Hi Hj].
  destruct (in_range_lookup lst i Hi) as [xi ->].
  destruct (in_range_lookup lst j Hj) as [xj ->].
  unfold mbind, M_bind, modify.
  apply (draw_views_ready false). apply view_ready_set_orders; [exact Hv1|].
  rewrite length_insert. exact Hlen.
Qed.

Lemma move_bar_ready (v : View3DWindow) (sign : string) (section i j : Z) :
  view_ready v ->
  eval (move_bar sign section i j) v = Ok tt /\
  view_ready (exec (move_bar sign section i j) v).
Proof.
  intros Hv. pose proof Hv as (Hd & Hn & Hp).
  unfold move_bar.
  destruct (known_sign sign); cbn [negb]; [|split; [reflexivity | exact Hv]].
  destruct (in_range section 3) eqn:Hsec; cbn [negb];
    [|split; [reflexivity | exact Hv]].
  destruct (fetch_order_ready (bool_decide (sign = "pos")) section v Hv Hsec)
    as (v1 & orders & lst & Hf & Hv1 & Hlen).
  unfold eval, exec. rewrite (M_bind_run _ _ _ _ _ Hf).
  destruct (in_range i (length lst)) eqn:Hi; cbn [negb];
    [|split; [reflexivity | exact Hv1]].
  destruct (decide _); [split; [reflexivity | exact Hv1]|].
  destruct (in_range_lookup lst i Hi) as [val ->].
  unfold mbind, M_bind, modify.
  apply (draw_views_ready false). apply view_ready_set_orders; [exact Hv1|].
  rewrite length_insert. exact Hlen.
Qed.

Lemma change_order_ready (v : View3DWindow) (sign : string) (section : Z)
  (new_order : list string) :
  view_ready v ->
  eval (change_order sign section new_order) v = Ok tt /\
  view_ready (exec (change_order sign section new_order) v).
Proof.
  intros Hv. pose proof Hv as (Hd & Hn & Hp).
  unfold change_order.
  destruct (known_sign sign); cbn [negb]; [|split; [reflexivity | exact Hv]].
  destruct (in_range section 3) eqn:Hsec; cbn [negb];
    [|split; [reflexivity | exact Hv]].
  apply in_range_spec in Hsec.
  unfold eval, exec, mbind, M_bind, get, lift, modify, mret, M_ret.
  cbv beta iota.
  assert (Hor : orders_ready (orders_of (bool_decide (sign = "pos")) v))
    by (destruct (bool_decide (sign = "pos")); assumption).
  assert (Hgo : forall o v0, view_ready v0 -> length o = 3%nat ->
            snd (draw_views false
                   (set_orders (bool_decide (sign = "pos"))
                      (<[Z.to_nat section := new_order]> o)
                      (set_orders (bool_decide (sign = "pos")) o v0)))
            = Ok tt /\
            view_ready
              (fst (draw_views false
                      (set_orders (bool_decide (sign = "pos"))
                         (<[Z.to_nat section := new_order]> o)
                         (set_orders (bool_decide (sign = "pos")) o v0))))).
  { intros o v0 Hv0 Ho. apply (draw_views_ready false).
    apply view_ready_set_orders;
      [apply view_ready_set_orders; assumption|].
    rewrite length_insert. exact Ho. }
  assert (Hoff : ((if bool_decide (sign = "pos") then 3 else 0) <= 3)%nat)
    by (case_bool_decide; lia).
  destruct (orders_of (bool_decide (sign = "pos")) v) as [|o os] eqn:Ho.
  + destruct (collect_orders_ready (design v) _ Hd Hoff)
      as (oc & Hoc & Hloc).
    rewrite Hoc. cbv beta iota.
    rewrite decide_True by lia. cbv beta iota.
    destruct (draw_views false _) as [v2 [[]|e]] eqn:Hdv;
      pose proof (Hgo oc v Hv Hloc) as [Hok Hrd]; rewrite Hdv in *;
      cbn [fst snd] in *; [split; [reflexivity | exact Hrd] | discriminate].
  + cbv beta iota. destruct Hor as [Hor|Hor]; [discriminate|].
    rewrite decide_True by lia. cbv beta iota.
    destruct (draw_views false _) as [v2 [[]|e]] eqn:Hdv;
      pose proof (Hgo (o :: os) v Hv Hor) as [Hok Hrd]; rewrite Hdv in *;
      cbn [fst snd] in *; [split; [reflexivity | exact Hrd] | discriminate].
Qed.

(** X6: on a view of a design window with six sections and integer
    layer texts, whose orders are not yet collected or hold three lists,
    [swap_bars], [move_bar] and [change_order] return for every argument,
    and leave such a view; so does opening the view.  Plotting is left out
    of the methods, as in [draw_views]. *)
Theorem reordering_never_raises (v : View3DWindow) (sign : string)
  (section i j : Z) (new_order : list string) :
  view_ready v ->
  (eval (swap_bars sign section i j) v = Ok tt /\
   view_ready (exec (swap_bars sign section i j) v)) /\
  (eval (move_bar sign section i j) v = Ok tt /\
   view_ready (exec (move_bar sign section i j) v)) /\
  (eval (change_order sign section new_order) v = Ok tt /\
   view_ready (exec (change_order sign section new_order) v)) /\
  (view_ready (open_view (design v))).
Proof.
  intros Hv.
  split; [apply swap_bars_ready, Hv|].
  split; [apply move_bar_ready, Hv|].
  split; [apply change_order_ready, Hv|].
  unfold open_view. apply (draw_views_ready false).
  destruct Hv as (Hd & _). repeat split; try apply Hd; left; reflexivity.
Qed.

(** The selection and the keys *)

Lemma on_window_run {A : Type} (m : M View3DWindow A) (st : ViewState)
  (v' : View3DWindow) (r : result A) :
  m (window st) = (v', r) ->
  on_window m st = ({| window := v'; selected := selected st |}, r).
Proof. intros Hm. unfold on_window. rewrite Hm. reflexivity. Qed.

Lemma py_index_in_range {A : Type} (l : list A) (k : Z) (x : A) :
  (0 <= k)%Z -> l !! Z.to_nat k = Some x -> py_index l k = Ok x.
Proof.
  intros Hk Hat. unfold py_index. pose proof (lookup_lt_Some _ _ _ Hat).
  cbv zeta. destruct (decide (k < 0)%Z); [lia|].
  destruct (decide (0 <= k < Z.of_nat (length l))%Z); [|lia].
  rewrite Hat. reflexivity.
Qed.

(** A key that swaps: what [_on_key] leaves. *)
Lemma on_key_swaps (st : ViewState) (key sign : string) (sec idx other : Z)
  (lst : list string) :
  view_ready (window st) ->
  selected st = Some (sign, sec, idx) ->
  known_sign sign = true -> in_range sec 3 = true ->
  orders_of (bool_decide (sign = "pos")) (window st) !! Z.to_nat sec
  = Some lst ->
  in_range idx (length lst) = true -> in_range other (length lst) = true ->
  (key = "left" /\ other = (idx - 1)%Z /\ (idx > 0)%Z) \/
  (key = "right" /\ other = (idx + 1)%Z /\ ~ (idx > 0)%Z) \/
  (key = "right" /\ other = (idx + 1)%Z /\ (idx > 0)%Z) ->
  _on_key key st
  = ({| window := exec (swap_bars sign sec idx other) (window st);
        selected := Some (sign, sec, other) |}, Ok tt).
Proof.
  intros Hv Hsel Hs Hsec Hat Hi Ho Hkey.
  pose proof (proj1 (in_range_spec _ _) Hsec) as Hsec'.
  pose proof (proj1 (in_range_spec _ _) Hi) as Hi'.
  pose proof (proj1 (in_range_spec _ _) Ho) as Ho'.
  destruct (swap_bars_ready (window st) sign sec idx other Hv) as [Hok _].
  unfold eval in Hok.
  destruct (swap_bars sign sec idx other (window st)) as [v' r] eqn:Hsw.
  cbn [snd] in Hok. subst r.
  unfold _on_key. rewrite (M_bind_run get _ st st st eq_refl).
  rewrite Hsel.
  rewrite (M_bind_run _ _ st st lst); cycle 1.
  { unfold lift. f_equal. apply py_index_in_range; [lia|].
    unfold orders_of in Hat. exact Hat. }
  unfold exec. 
  destruct Hkey as [(-> & -> & Hpos)|[(-> & -> & Hpos)|(-> & -> & Hpos)]].
  - rewrite (bool_decide_eq_true_2 ("left" = "left")) by reflexivity.
    rewrite (bool_decide_eq_true_2 (idx > 0)%Z) by exact Hpos. cbn [andb].
    rewrite (M_bind_run _ _ _ _ tt (on_window_run _ st v' _ Hsw)).
    rewrite Hsw. reflexivity.
  - rewrite (bool_decide_eq_false_2 ("right" = "left")) by discriminate.
    cbn [andb].
    rewrite (bool_decide_eq_true_2 ("right" = "right")) by reflexivity.
    rewrite (bool_decide_eq_true_2 (idx < Z.of_nat (length lst) - 1)%Z)
      by lia.
    cbn [andb].
    rewrite (M_bind_run _ _ _ _ tt (on_window_run _ st v' _ Hsw)).
    rewrite Hsw. reflexivity.
  - rewrite (bool_decide_eq_false_2 ("right" = "left")) by discriminate.
    cbn [andb].
    rewrite (bool_decide_eq_true_2 ("right" = "right")) by reflexivity.
    rewrite (bool_decide_eq_true_2 (idx < Z.of_nat (length lst) - 1)%Z)
      by lia.
    cbn [andb].
    rewrite (M_bind_run _ _ _ _ tt (on_window_run _ st v' _ Hsw)).
    rewrite Hsw. reflexivity.
Qed.

Lemma on_key_stays (st : ViewState) (key sign : string) (sec idx : Z)
  (lst : list string) :
  selected st = Some (sign, sec, idx) ->
  in_range sec 3 = true ->
  orders_of (bool_decide (sign = "pos")) (window st) !! Z.to_nat sec
  = Some lst ->
  ~ (key = "left" /\ (idx > 0)%Z) ->
  ~ (key = "right" /\ (idx < Z.of_nat (length lst) - 1)%Z) ->
  _on_key key st = (st, Ok tt).
Proof.
  intros Hsel Hsec Hat Hl Hr.
  pose proof (proj1 (in_range_spec _ _) Hsec) as Hsec'.
  unfold _on_key. rewrite (M_bind_run get _ st st st eq_refl).
  rewrite Hsel.
  rewrite (M_bind_run _ _ st st lst); cycle 1.
  { unfold lift. f_equal. apply py_index_in_range; [lia|].
    unfold orders_of in Hat. exact Hat. }
  destruct (bool_decide (key = "left")) eqn:Hkl;
    destruct (bool_decide (idx > 0)%Z) eqn:Hpos; cbn [andb];
    try (apply bool_decide_eq_true_1 in Hkl);
    try (apply bool_decide_eq_true_1 in Hpos);
    try (exfalso; apply Hl; split; assumption);
    destruct (bool_decide (key = "right")) eqn:Hkr;
    destruct (bool_decide (idx < Z.of_nat (length lst) - 1)%Z) eqn:Hlt;
    cbn [andb];
    try (apply bool_decide_eq_true_1 in Hkr);
    try (apply bool_decide_eq_true_1 in Hlt);
    try (exfalso; apply Hr; split; assumption);
    reflexivity.
Qed.

(** X7: with a bar of a collected order selected, a key press returns; the
    selection stays in the same order and still names the same bar: the
    left key takes it one place down unless it is the first, the right key
    one place up unless it is the last, any other key changes nothing. *)
Theorem on_key_selection_follows_bar (st : ViewState) (key sign : string)
  (sec idx : Z) (lst : list string) :
  view_ready (window st) ->
  selected st = Some (sign, sec, idx) ->
  known_sign sign = true -> in_range sec 3 = true ->
  orders_of (bool_decide (sign = "pos")) (window st) !! Z.to_nat sec
  = Some lst ->
  in_range idx (length lst) = true ->
  let st' := exec (_on_key key) st in
  eval (_on_key key) st = Ok tt /\
  exists (idx' : Z) (lst' : list string),
    selected st' = Some (sign, sec, idx') /\
    orders_of (bool_decide (sign = "pos")) (window st') !! Z.to_nat sec
    = Some lst' /\
    length lst' = length lst /\
    lst' !! Z.to_nat idx' = lst !! Z.to_nat idx /\
    (key = "left" -> idx' = Z.max 0 (idx - 1)) /\
    (key = "right" -> idx' = Z.min (Z.of_nat (length lst) - 1) (idx + 1)) /\
    (key <> "left" -> key <> "right" -> st' = st).
Proof.
  intros Hv Hsel Hs Hsec Hat Hi st'.
  pose proof (proj1 (in_range_spec _ _) Hi) as Hi'.
  destruct (in_range_lookup lst idx Hi) as [xi Hxi].
  assert (Hmove : forall other, in_range other (length lst) = true ->
    (key = "left" /\ other = (idx - 1)%Z /\ (idx > 0)%Z) \/
    (key = "right" /\ other = (idx + 1)%Z /\ ~ (idx > 0)%Z) \/
    (key = "right" /\ other = (idx + 1)%Z /\ (idx > 0)%Z) ->
    eval (_on_key key) st = Ok tt /\
    exists lst',
      selected st' = Some (sign, sec, other) /\
      orders_of (bool_decide (sign = "pos")) (window st') !! Z.to_nat sec
      = Some lst' /\
      length lst' = length lst /\
      lst' !! Z.to_nat other = lst !! Z.to_nat idx).
  { intros other Ho Hkey.
    destruct (in_range_lookup lst other Ho) as [xo Hxo].
    unfold st', eval, exec.
    rewrite (on_key_swaps st key sign sec idx other lst Hv Hsel Hs Hsec Hat
               Hi Ho Hkey).
    cbn [fst snd window selected]. split; [reflexivity|].
    rewrite (swap_bars_orders _ sign sec idx other lst xi xo Hs Hsec Hat
               Hi Ho Hxi Hxo).
    eexists. split; [reflexivity|].
    split; [apply list_lookup_insert_eq; eapply lookup_lt_Some, Hat|].
    split; [rewrite !length_insert; reflexivity|].
    rewrite Hxi. apply (swap_lookup_2 lst _ _ xi xo Hxi Hxo). }
  assert (Hstay :
    ~ (key = "left" /\ (idx > 0)%Z) ->
    ~ (key = "right" /\ (idx < Z.of_nat (length lst) - 1)%Z) ->
    eval (_on_key key) st = Ok tt /\ st' = st).
  { intros Hl Hr. unfold st', eval, exec.
    rewrite (on_key_stays st key sign sec idx lst Hsel Hsec Hat Hl Hr).
    split; reflexivity. }
  destruct (decide (key = "left")) as [Hkl|Hkl].
  - destruct (decide (idx > 0)%Z) as [Hpos|Hpos].
    + destruct (Hmove (idx - 1)%Z) as (Hok & lst' & H1 & H2 & H3 & H4).
      { apply in_range_spec. lia. }
      { left. repeat split; [exact Hkl | exact Hpos]. }
      split; [exact Hok|]. exists (idx - 1)%Z, lst'.
      repeat split; try assumption; try lia.
      * intros ->. discriminate.
      * intros; contradiction.
    + destruct Hstay as (Hok & Hst).
      { tauto. } { subst key. intros [? _]; discriminate. }
      split; [exact Hok|]. exists idx, lst. rewrite Hst.
      repeat split; try assumption; try lia.
      * intros ->. discriminate.
  - destruct (decide (key = "right")) as [Hkr|Hkr].
    + destruct (decide (idx < Z.of_nat (length lst) - 1)%Z) as [Hlt|Hlt].
      * destruct (Hmove (idx + 1)%Z) as (Hok & lst' & H1 & H2 & H3 & H4).
        { apply in_range_spec. lia. }
        { destruct (decide (idx > 0)%Z); [right; right | right; left];
            repeat split; assumption. }
        split; [exact Hok|]. exists (idx + 1)%Z, lst'.
        repeat split; try assumption; try lia; try contradiction.
      * destruct Hstay as (Hok & Hst); [tauto | tauto |].
        split; [exact Hok|]. exists idx, lst. rewrite Hst.
        repeat split; try assumption; try lia; try contradiction.
    + destruct Hstay as (Hok & Hst); [tauto | tauto |].
      split; [exact Hok|]. exists idx, lst. rewrite Hst.
      repeat split; try assumption; try lia; try contradiction.
Qed.

End MoreReordering.

(** ** More on the effective depth *)

Section MoreEffectiveDepth.
Context `{Constants}.

Lemma div_between (x s lo hi : R) :
  0 < s -> lo * s <= x <= hi * s -> lo <= x / s <= hi.
Proof.
  intros Hs [Hlo Hhi]. split.
  - apply Rmult_le_reg_r with s; [exact Hs|].
    unfold Rdiv. rewrite Rmult_assoc, Rinv_l by lra. lra.
  - apply Rmult_le_reg_r with s; [exact Hs|].
    unfold Rdiv. rewrite Rmult_assoc, Rinv_l by lra. lra.
Qed.

Lemma dict_get_nonneg (d : gmap string R) (key : string) :
  (forall k x, d !! k = Some x -> 0 <= x) -> 0 <= dict_get d key.
Proof.
  intros Hd. unfold dict_get. destruct (d !! key) as [x|] eqn:Hx; simpl;
    [apply (Hd key x Hx) | lra].
Qed.

Lemma representative_diam_nonneg (db : R) (all : list Row) (k : Z) :
  (forall key x, DIAM_CM !! key = Some x -> 0 <= x) -> 0 <= db ->
  0 <= representative_diam db all k.
Proof.
  intros Hd Hdb. unfold representative_diam. case_decide; [|exact Hdb].
  destruct (leading_entry all k); [|exact Hdb].
  apply dict_get_nonneg, Hd.
Qed.

(** The weighted depth lies between the depth of the highest layer in
    use and the depth of the first. *)
Lemma weighted_depth_between (h r de : R) (A D : Z -> R) :
  (forall k, 0 <= A k) -> (forall k, 0 <= D k) ->
  layer_depth h r de D (highest_layer A) <= weighted_depth h r de A D
  <= layer_depth h r de D 1.
Proof.
  intros HA HD.
  pose proof (HA 1%Z) as HA1. pose proof (HA 2%Z) as HA2.
  pose proof (HA 3%Z) as HA3. pose proof (HA 4%Z) as HA4.
  pose proof (HD 1%Z) as HD1. pose proof (HD 2%Z) as HD2.
  pose proof (HD 3%Z) as HD3.
  unfold weighted_depth, highest_layer.
  destruct (decide (A 4%Z > 0)) as [H4|H4];
    [|destruct (decide (A 3%Z > 0)) as [H3|H3];
      [|destruct (decide (A 2%Z > 0)) as [H2|H2]]];
    simpl; unfold layer_depth, sumR; simpl;
    repeat case_decide; try lra; try (exfalso; lia);
    apply div_between; try lra; nra.
Qed.

(** X8: With non-negative catalogue diameters the effective depth lies
    between the centroid depth of the highest layer in use, which is what
    the layer combo shows, and that of layer 1. *)
Theorem effective_depth_between_layers (w : DesignWindow) (h r : R) :
  edit_h (edits w) = FloatText h -> edit_r (edits w) = FloatText r ->
  Forall layer_1_to_4 (concat (rebar_rows w)) ->
  (forall key x, DIAM_CM !! key = Some x -> 0 <= x) ->
  let de := dict_get DIAM_CM (cb_estribo w) in
  let D := representative_diam (dict_get DIAM_CM (cb_varilla w))
                               (concat (rebar_rows w)) in
  let k := layer_combo (derived (exec calc_effective_depth w)) in
  exists d,
    eval calc_effective_depth w = Ok d /\
    (1 <= k <= 4)%Z /\
    layer_depth h r de D k <= d <= layer_depth h r de D 1 /\
    d <= h - r - de.
Proof.
  intros Hh Hr Hwf Hdiam de D k.
  pose proof (calc_effective_depth_closed w h r Hh Hr Hwf) as Hd.
  cbv zeta in Hd. unfold k, eval, exec. rewrite Hd. cbn [fst snd].
  eexists. split; [reflexivity|].
  change (layer_combo (derived (set_layer_combo ?x w))) with x.
  assert (HD : forall i, 0 <= D i).
  { intros i. apply representative_diam_nonneg; [exact Hdiam|].
    apply dict_get_nonneg, Hdiam. }
  pose proof (weighted_depth_between h r de _ D
                (largest_entry_area_nonneg (concat (rebar_rows w))) HD)
    as Hbt.
  split.
  - destruct (highest_layer_cases
                (largest_entry_area (concat (rebar_rows w))))
      as [Hk|[Hk|[Hk|Hk]]]; rewrite Hk; lia.
  - split; [exact Hbt|].
    destruct Hbt as [_ Hup]. unfold layer_depth in Hup.
    rewrite decide_True in Hup by reflexivity. pose proof (HD 1%Z) as HD1.
    unfold de, D in *. lra.
Qed.

(** The dict of the layer areas never gets a key outside 1..4. *)
Lemma scan_row_keys (st st' : gmap Z R * gmap Z R) (row : Row) :
  (forall k, is_Some (st.1 !! k) -> (1 <= k <= 4)%Z) ->
  scan_row st row = Ok st' ->
  forall k, is_Some (st'.1 !! k) -> (1 <= k <= 4)%Z.
Proof.
  intros Hkeys Hrun k Hk. destruct st as [areas diams].
  unfold scan_row in Hrun.
  destruct (int_or 1 (capa row)) as [layer|e]; simpl in Hrun; [|discriminate].
  unfold py_getitem in Hrun.
  destruct (areas !! layer) as [cur|] eqn:Hcur; simpl in Hrun; [|discriminate].
  case_decide; injection Hrun as <-; simpl in Hk.
  - destruct (decide (layer = k)) as [<-|Hne].
    + apply Hkeys. simpl. rewrite Hcur. eauto.
    + rewrite lookup_insert_ne in Hk by exact Hne. apply Hkeys, Hk.
  - apply Hkeys, Hk.
Qed.

Lemma foldM_scan_row_keys (rows : list Row) (st st' : gmap Z R * gmap Z R) :
  (forall k, is_Some (st.1 !! k) -> (1 <= k <= 4)%Z) ->
  foldM scan_row st rows = Ok st' ->
  forall k, is_Some (st'.1 !! k) -> (1 <= k <= 4)%Z.
Proof.
  revert st. induction rows as [|row rows IH]; intros st Hkeys Hrun.
  - simpl in Hrun. injection Hrun as <-. exact Hkeys.
  - simpl in Hrun. destruct (scan_row st row) as [st1|e] eqn:Hst1;
      simpl in Hrun; [|discriminate].
    apply (IH st1); [|exact Hrun].
    apply (scan_row_keys st st1 row Hkeys Hst1).
Qed.

Lemma tracks_keys (db : R) (seen : list Row) (st : gmap Z R * gmap Z R) :
  tracks db seen st -> forall k, (1 <= k <= 4)%Z -> is_Some (st.1 !! k).
Proof. intros Htr k Hk. destruct (Htr k Hk) as [Ha _]. rewrite Ha. eauto. Qed.

Lemma start_keys (k : Z) :
  is_Some (({[ 1%Z := 0; 2%Z := 0; 3%Z := 0; 4%Z := 0 ]} : gmap Z R) !! k) ->
  (1 <= k <= 4)%Z.
Proof.
  intros Hk.
  destruct (decide (k = 1%Z)); [lia|].
  destruct (decide (k = 2%Z)); [lia|].
  destruct (decide (k = 3%Z)); [lia|].
  destruct (decide (k = 4%Z)); [lia|].
  rewrite !lookup_insert_ne in Hk by congruence.
  rewrite lookup_singleton_ne in Hk by congruence.
  destruct Hk; discriminate.
Qed.

(** The scan stops at the first entry whose layer text is not an integer
    or names no layer of the dicts. *)
Lemma scan_rows_stops (db : R) (sections : list (list Row))
  (pre post : list Row) (row : Row) :
  concat sections = pre ++ row :: post ->
  Forall layer_1_to_4 pre ->
  ~ layer_1_to_4 row ->
  scan_rows ({[ 1%Z := 0; 2%Z := 0; 3%Z := 0; 4%Z := 0 ]},
             {[ 1%Z := db; 2%Z := db; 3%Z := db; 4%Z := db ]}) sections
  = Raise (match capa row with NotInt => ValueError | _ => KeyError end).
Proof.
  intros Hsplit Hpre Hrow. unfold scan_rows.
  rewrite foldM_concat, Hsplit, foldM_app.
  destruct (foldM_scan_row_tracks db pre [] _ (tracks_start db) Hpre)
    as (st1 & Hst1 & Htr1).
  rewrite Hst1. cbn [mbind result_bind foldM].
  pose proof (foldM_scan_row_keys pre
                ({[ 1%Z := 0; 2%Z := 0; 3%Z := 0; 4%Z := 0 ]},
                 {[ 1%Z := db; 2%Z := db; 3%Z := db; 4%Z := db ]})
                st1 start_keys Hst1) as Hkeys.
  assert (Hstop : scan_row st1 row
            = Raise (match capa row with
                     | NotInt => ValueError | _ => KeyError end)).
  { destruct st1 as [areas diams]. unfold scan_row.
    destruct (int_or 1 (capa row)) as [layer|e] eqn:Hlayer.
    - cbn [mbind result_bind]. unfold py_getitem.
      destruct (areas !! layer) as [cur|] eqn:Hcur.
      + exfalso. apply Hrow. exists layer. split; [exact Hlayer|].
        apply Hkeys. simpl. rewrite Hcur. eauto.
      + destruct (capa row); try discriminate; reflexivity.
    - destruct (capa row); try discriminate.
      simpl in Hlayer. injection Hlayer as <-. reflexivity. }
  rewrite Hstop. reflexivity.
Qed.

(** X9: With a height and a cover, an entry whose layer text is not an
    integer, or is an integer outside 1..4, stops the effective depth:
    ValueError in the first case, KeyError in the second, the layer combo
    not written; the required areas and the update of the labels stop
    with it, the limits and the labels not written. *)
Theorem effective_depth_bad_layer (w : DesignWindow) (h r : R)
  (pre post : list Row) (row : Row) :
  edit_h (edits w) = FloatText h -> edit_r (edits w) = FloatText r ->
  concat (rebar_rows w) = pre ++ row :: post ->
  Forall layer_1_to_4 pre ->
  ~ layer_1_to_4 row ->
  let e := match capa row with NotInt => ValueError | _ => KeyError end in
  calc_effective_depth w = (w, Raise e) /\
  (forall b fc fy phi, material_inputs w b fc fy phi ->
     _required_areas w = (w, Raise e) /\
     update_design_as w = (w, Raise e) /\
     _redraw w = (w, Raise e)).
Proof.
  intros Hh Hr Hsplit Hpre Hrow e.
  assert (Hd : calc_effective_depth w = (w, Raise e)).
  { unfold calc_effective_depth, mbind, M_bind, get, lift.
    rewrite Hh, Hr. simpl.
    rewrite (scan_rows_stops _ (rebar_rows w) pre post row Hsplit Hpre Hrow).
    reflexivity. }
  split; [exact Hd|].
  intros b fc fy phi (Hb & Hfc & Hfy & Hphi).
  assert (Hra : _required_areas w = (w, Raise e)).
  { unfold _required_areas, mbind, M_bind, get.
    rewrite Hb, Hfc, Hfy, Hphi. simpl. rewrite Hd. reflexivity. }
  split; [exact Hra|]. split.
  - unfold update_design_as, mbind, M_bind. rewrite Hra. reflexivity.
  - unfold _redraw, draw_section, mbind, M_bind, get.
    rewrite Hb, Hh, Hr. simpl. rewrite Hd. reflexivity.
Qed.

End MoreEffectiveDepth.

(** ** More on the required areas *)

Section MoreRequiredAreas.
Context `{Constants}.

Lemma lookup_map {A B : Type} (f : A -> B) (l : list A) (i : nat) :
  map f l !! i = f <$> (l !! i).
Proof.
  revert i. induction l as [|x l IH]; intros [|i]; simpl; try reflexivity.
  apply IH.
Qed.

Lemma as_raw_monotone (fc b d fy phi M1 M2 : R) :
  0 < b -> 0 < fc -> 0 < fy -> 0 < phi -> Rabs M1 <= Rabs M2 ->
  as_raw fc b d fy phi M1 <= as_raw fc b d fy phi M2.
Proof.
  intros Hb Hfc Hfy Hphi HM. unfold as_raw.
  pose proof (radicand_antitone M1 M2 fc b d fy phi Hb Hfc Hfy Hphi HM) as Hr.
  assert (sqrt (Rmax (radicand M2 fc b d fy phi) 0)
          <= sqrt (Rmax (radicand M1 fc b d fy phi) 0)).
  { apply sqrt_le_1_alt. apply Rle_max_compat_r. exact Hr. }
  lra.
Qed.

Lemma clip_monotone (x y lo hi : R) :
  x <= y -> Rmin (Rmax x lo) hi <= Rmin (Rmax y lo) hi.
Proof.
  intros Hxy. apply Rle_min_compat_r. apply Rle_max_compat_r. exact Hxy.
Qed.

(** X10: The required areas of the window, over the negative and the positive
    moments together: one for each moment, none of them nan, none above
    As_max, and a moment that is larger in absolute value never gets the
    smaller area. *)
Theorem required_areas_follow_moments (w : DesignWindow)
  (b fc fy phi h r : R) :
  material_inputs w b fc fy phi ->
  edit_h (edits w) = FloatText h -> edit_r (edits w) = FloatText r ->
  Forall layer_1_to_4 (concat (rebar_rows w)) ->
  0 < b -> 0 < fc -> 0 < fy -> 0 < phi ->
  exists reqs_n reqs_p,
    eval _required_areas w = Ok (reqs_n, reqs_p) /\
    length reqs_n = length (mn_corr w) /\
    length reqs_p = length (mp_corr w) /\
    forall i j m1 m2,
      (mn_corr w ++ mp_corr w) !! i = Some m1 ->
      (mn_corr w ++ mp_corr w) !! j = Some m2 ->
      Rabs m1 <= Rabs m2 ->
      exists a1 a2,
        (reqs_n ++ reqs_p) !! i = Some (Real a1) /\
        (reqs_n ++ reqs_p) !! j = Some (Real a2) /\
        a1 <= a2 /\
        a2 <= as_max (derived (exec _required_areas w)).
Proof.
  intros Hin Hh Hr Hwf Hb Hfc Hfy Hphi.
  pose proof (calc_effective_depth_closed w h r Hh Hr Hwf) as Hd.
  cbv zeta in Hd.
  pose proof (required_areas_closed w _ b fc fy phi _ Hin Hd) as Hra.
  cbv zeta in Hra. specialize (Hra ltac:(lra) ltac:(lra) ltac:(lra) ltac:(lra)).
  unfold eval, exec. rewrite Hra. cbn [fst snd].
  eexists _, _. split; [reflexivity|].
  rewrite !length_map. split; [reflexivity|]. split; [reflexivity|].
  intros i j m1 m2 Hi Hj HM.
  rewrite <- !map_app, !lookup_map, Hi, Hj. cbn [fmap option_fmap option_map].
  unfold np_clip. eexists _, _. split; [reflexivity|]. split; [reflexivity|].
  split.
  - apply clip_monotone, as_raw_monotone; assumption.
  - apply Rmin_r.
Qed.

End MoreRequiredAreas.

(** ** More on the update of the labels *)

Section MoreUpdate.
Context `{Constants}.

Lemma sections_no_cover (w : DesignWindow) (sections : list (list Row))
  (totals base_reqs : list R) :
  edit_r (edits w) = NotFloat ->
  Forall layer_text_ok (concat sections) ->
  foldM (section_step w) (totals, base_reqs) sections
  = Ok (totals ++ map provided_area sections, base_reqs).
Proof.
  intros Hr. revert totals.
  induction sections as [|rows sections IH]; intros totals Hwf.
  - simpl. rewrite app_nil_r. reflexivity.
  - simpl in Hwf. apply Forall_app in Hwf as [Hrows Hwf].
    cbn [foldM].
    rewrite (section_step_no_cover w totals base_reqs rows Hr Hrows).
    unfold mbind, result_bind. rewrite (IH _ Hwf).
    rewrite <- !app_assoc. reflexivity.
Qed.

(** The labels of the base check are written by [update_design_as]
    only. *)
Lemma calc_effective_depth_labels (w : DesignWindow) :
  base_req_label (derived (exec calc_effective_depth w))
  = base_req_label (derived w) /\
  base_msg_label (derived (exec calc_effective_depth w))
  = base_msg_label (derived w).
Proof.
  unfold exec, calc_effective_depth, mbind, M_bind, get, lift, modify.
  destruct (edit_h (edits w)); simpl; [|split; reflexivity].
  destruct (edit_r (edits w)); simpl; [|split; reflexivity].
  destruct (scan_rows _ _) as [[areas diams]|e]; simpl;
    [|split; reflexivity].
  destruct (detect_max_layer areas) as [k|e]; simpl; split; reflexivity.
Qed.

Lemma required_areas_labels (w : DesignWindow) :
  base_req_label (derived (exec _required_areas w))
  = base_req_label (derived w) /\
  base_msg_label (derived (exec _required_areas w))
  = base_msg_label (derived w).
Proof.
  pose proof (calc_effective_depth_labels w) as Hd.
  unfold exec in *. unfold _required_areas, mbind, M_bind, get, lift, modify.
  destruct (edit_b (edits w)); simpl; [|split; reflexivity].
  destruct (edit_fc (edits w)); simpl; [|split; reflexivity].
  destruct (edit_fy (edits w)); simpl; [|split; reflexivity].
  destruct (edit_phi (edits w)); simpl; [|split; reflexivity].
  destruct (calc_effective_depth w) as [w1 [d|e]]; simpl in *; [|exact Hd].
  destruct (_calc_as_limits _ _ _ _) as [[lo hi]|e]; simpl; [|exact Hd].
  destruct (mapM_result _ (mn_corr w)) as [rn|e]; simpl; [|exact Hd].
  destruct (mapM_result _ (mp_corr w)) as [rp|e]; simpl; exact Hd.
Qed.

(** What [update_design_as] leaves when the required areas come back
    and the cover is a number. *)
Lemma update_design_as_cover (w w1 : DesignWindow)
  (reqs_n reqs_p : list np64) (r : R) (rows0 : list Row)
  (rest : list (list Row)) :
  _required_areas w = (w1, Ok (reqs_n, reqs_p)) ->
  edit_r (edits w) = FloatText r ->
  Forall layer_text_ok (concat (rebar_rows w)) ->
  rebar_rows w = rows0 :: rest ->
  let de := dict_get DIAM_CM (cb_estribo w) in
  let totals := map provided_area (rebar_rows w) in
  let max_base := foldl Rmax (section_base_12 r de rows0)
                        (map (section_base_12 r de) rest) in
  let msg := match edit_b (edits w) with
             | FloatText b => base_msg_of max_base b
             | NotFloat => EmptyString
             end in
  update_design_as w
  = (set_ax_des (totals, zip_with status_of totals (reqs_n ++ reqs_p))
       (set_base_msg msg
          (set_base_req max_base (set_as_total (py_sum totals) w1))),
     Ok tt).
Proof.
  intros Hreq Hr Hwf Hrows de totals max_base msg.
  pose proof (required_areas_frame w) as Hframe.
  unfold exec in Hframe. rewrite Hreq in Hframe. simpl in Hframe.
  destruct Hframe as (_ & _ & He & Hce & _ & Hrr & _).
  unfold update_design_as, mbind, M_bind, get, lift, modify.
  rewrite Hreq. simpl.
  rewrite (sections_closed w1 r (rebar_rows w1) [] [])
    by (rewrite ?He, ?Hrr; assumption).
  rewrite Hrr, Hce, He. unfold msg, totals, max_base, de.
  rewrite Hrows. simpl. destruct (edit_b (edits w)); reflexivity.
Qed.

(** ... and when the cover is not a number, or there is no section. *)
Lemma update_design_as_no_cover (w w1 : DesignWindow)
  (reqs_n reqs_p : list np64) :
  _required_areas w = (w1, Ok (reqs_n, reqs_p)) ->
  edit_r (edits w) = NotFloat \/ rebar_rows w = [] ->
  Forall layer_text_ok (concat (rebar_rows w)) ->
  let totals := map provided_area (rebar_rows w) in
  update_design_as w
  = (set_ax_des (totals, zip_with status_of totals (reqs_n ++ reqs_p))
       (set_as_total (py_sum totals) w1),
     Ok tt).
Proof.
  intros Hreq Hno Hwf totals.
  pose proof (required_areas_frame w) as Hframe.
  unfold exec in Hframe. rewrite Hreq in Hframe. simpl in Hframe.
  destruct Hframe as (_ & _ & He & Hce & _ & Hrr & _).
  unfold update_design_as, mbind, M_bind, get, lift, modify.
  rewrite Hreq. simpl.
  destruct Hno as [Hr|Hnil].
  - rewrite (sections_no_cover w1 (rebar_rows w1) [] [])
      by (rewrite ?He, ?Hrr; assumption).
    rewrite Hrr. reflexivity.
  - unfold totals. rewrite Hrr, Hnil. reflexivity.
Qed.

(** What [update_design_as] plots and stores, with or without a
    cover. *)
Lemma update_design_as_plot (w w1 : DesignWindow)
  (reqs_n reqs_p : list np64) :
  _required_areas w = (w1, Ok (reqs_n, reqs_p)) ->
  Forall layer_text_ok (concat (rebar_rows w)) ->
  let totals := map provided_area (rebar_rows w) in
  eval update_design_as w = Ok tt /\
  ax_des (derived (exec update_design_as w))
  = (totals, zip_with status_of totals (reqs_n ++ reqs_p)) /\
  as_total (derived (exec update_design_as w)) = py_sum totals.
Proof.
  intros Hreq Hwf totals. unfold eval, exec, totals.
  destruct (edit_r (edits w)) as [r|] eqn:Hr.
  - destruct (rebar_rows w) as [|rows0 rest] eqn:Hrows.
    + rewrite (update_design_as_no_cover w w1 reqs_n reqs_p Hreq)
        by (rewrite ?Hrows; auto).
      rewrite Hrows. repeat split; reflexivity.
    + rewrite <- Hrows in Hwf.
      rewrite (update_design_as_cover w w1 reqs_n reqs_p r rows0 rest
                 Hreq Hr Hwf Hrows).
      rewrite Hrows. repeat split; reflexivity.
  - rewrite (update_design_as_no_cover w w1 reqs_n reqs_p Hreq) by auto.
    repeat split; reflexivity.
Qed.

(** X11: Whenever the required areas come back and the layer texts are
    integers, [update_design_as] returns; the provided areas it plots are
    those of [_design_areas], the total it stores their sum, and the
    status of a section compares its provided area with the required
    area of the same position. *)
Theorem update_design_as_totals (w w1 : DesignWindow)
  (reqs_n reqs_p : list np64) :
  _required_areas w = (w1, Ok (reqs_n, reqs_p)) ->
  Forall layer_text_ok (concat (rebar_rows w)) ->
  let w' := exec update_design_as w in
  eval update_design_as w = Ok tt /\
  fst (ax_des (derived w')) = _design_areas w /\
  as_total (derived w') = py_sum (_design_areas w) /\
  length (snd (ax_des (derived w')))
  = Nat.min (length (rebar_rows w)) (length (reqs_n ++ reqs_p)) /\
  forall i t req,
    _design_areas w !! i = Some t -> (reqs_n ++ reqs_p) !! i = Some req ->
    snd (ax_des (derived w')) !! i
    = Some (if ge_np t req then "OK" else "NO OK").
Proof.
  intros Hreq Hwf w'.
  destruct (update_design_as_plot w w1 reqs_n reqs_p Hreq Hwf)
    as (Hok & Hax & Htot).
  unfold w'. rewrite Hax, Htot, design_areas_closed. cbn [fst snd].
  split; [exact Hok|]. split; [reflexivity|]. split; [reflexivity|].
  split.
  - rewrite length_zip_with, length_map. reflexivity.
  - intros i t req Ht Hq. rewrite lookup_zip_with, Ht, Hq. reflexivity.
Qed.

(** X12: Without a cover that is a number the labels of the base check keep
    what they showed before, whatever the rows are now; with a cover but
    without a width that is a number the required base is shown and the
    message is emptied. *)
Theorem update_design_as_base_labels (w w1 : DesignWindow)
  (reqs_n reqs_p : list np64) :
  _required_areas w = (w1, Ok (reqs_n, reqs_p)) ->
  Forall layer_text_ok (concat (rebar_rows w)) ->
  let w' := exec update_design_as w in
  (edit_r (edits w) = NotFloat \/ rebar_rows w = [] ->
   base_req_label (derived w') = base_req_label (derived w) /\
   base_msg_label (derived w') = base_msg_label (derived w)) /\
  (forall r rows0 rest,
     edit_r (edits w) = FloatText r -> edit_b (edits w) = NotFloat ->
     rebar_rows w = rows0 :: rest ->
     base_req_label (derived w')
     = Some (foldl Rmax
               (section_base_12 r (dict_get DIAM_CM (cb_estribo w)) rows0)
               (map (section_base_12 r (dict_get DIAM_CM (cb_estribo w)))
                    rest)) /\
     base_msg_label (derived w') = EmptyString).
Proof.
  intros Hreq Hwf w'. unfold w', exec. split.
  - intros Hno.
    rewrite (update_design_as_no_cover w w1 reqs_n reqs_p Hreq Hno Hwf).
    pose proof (required_areas_labels w) as Hl. unfold exec in Hl.
    rewrite Hreq in Hl. exact Hl.
  - intros r rows0 rest Hr Hb Hrows.
    rewrite (update_design_as_cover w w1 reqs_n reqs_p r rows0 rest
               Hreq Hr Hwf Hrows).
    rewrite Hb. split; reflexivity.
Qed.

End MoreUpdate.

(** ** More on the rows *)

Section MoreRows.
Context `{Constants}.

Lemma filter_fresh_widget (next : nat) (rows : list Row) (row : Row) :
  Forall (fun r => (widget r < next)%nat) rows -> widget row = next ->
  filter (fun r => widget r <> next) (rows ++ [row]) = rows.
Proof.
  intros Hold Hw. rewrite filter_app.
  rewrite (filter_cons_False _ row []) by (intros Hne; apply Hne, Hw).
  rewrite filter_nil, app_nil_r.
  induction Hold as [|r rows Hr Hold IH]; [reflexivity|].
  rewrite filter_cons_True by lia. rewrite IH. reflexivity.
Qed.

(** What [_add_rebar_row] leaves on a section with room. *)
Lemma add_rebar_row_room (w : DesignWindow) (idx : nat) (rows : list Row) :
  rebar_rows w !! idx = Some rows -> (length rows < 4)%nat ->
  _add_rebar_row idx w
  = (set_next_widget (S (next_widget w))
       (set_rebar_rows
          (<[idx := rows ++ [{| qty := IntText 2; dia := inch "1/2";
                                capa := IntText 1;
                                widget := next_widget w |}]]>
             (rebar_rows w)) w),
     Ok tt).
Proof.
  intros Hat Hroom. unfold _add_rebar_row, mbind, M_bind, get, lift, rows_at,
    modify.
  rewrite Hat. rewrite decide_False by lia. reflexivity.
Qed.

(** X13: Adding a row to a section with room and then removing the row just
    added gives back the rows there were; the new row shows 2 bars of 1/2
    inch in layer 1, and its widget number is not handed out again. *)
Theorem add_then_remove_row (w : DesignWindow) (idx : nat)
  (rows : list Row) :
  rows_inv w ->
  rebar_rows w !! idx = Some rows -> (length rows < 4)%nat ->
  let w1 := exec (_add_rebar_row idx) w in
  let w2 := exec (_remove_rebar_row idx (next_widget w)) w1 in
  rebar_rows w1 !! idx
  = Some (rows ++ [{| qty := IntText 2; dia := inch "1/2";
                      capa := IntText 1; widget := next_widget w |}]) /\
  (forall k, k <> idx -> rebar_rows w1 !! k = rebar_rows w !! k) /\
  rebar_rows w2 = rebar_rows w /\
  next_widget w2 = S (next_widget w) /\
  edits w2 = edits w.
Proof.
  intros Hinv Hat Hroom w1 w2.
  pose proof (lookup_lt_Some _ _ _ Hat) as Hidx.
  assert (Hok : section_ok (next_widget w) rows).
  { destruct Hinv as [_ Hall]. rewrite Forall_forall in Hall.
    apply Hall. eapply list_elem_of_lookup_2, Hat. }
  destruct Hok as (Hlen & _ & Hold).
  unfold w2, w1, exec.
  rewrite (add_rebar_row_room w idx rows Hat Hroom). cbn [fst].
  set (row := {| qty := IntText 2; dia := inch "1/2"; capa := IntText 1;
                 widget := next_widget w |}).
  set (wa := set_next_widget _ _).
  assert (Hata : rebar_rows wa !! idx = Some (rows ++ [row])).
  { unfold wa. simpl. apply list_lookup_insert_eq. exact Hidx. }
  split; [exact Hata|].
  split.
  { intros k Hk. unfold wa. simpl. apply list_lookup_insert_ne. congruence. }
  unfold _remove_rebar_row, mbind, M_bind, get, lift, rows_at, modify.
  rewrite Hata. rewrite decide_False by (rewrite length_app; simpl; lia).
  rewrite (filter_fresh_widget (next_widget w) rows row Hold eq_refl).
  set (wb := set_rebar_rows _ wa).
  assert (Hwb : rebar_rows wb = rebar_rows w /\
                next_widget wb = S (next_widget w) /\ edits wb = edits w).
  { unfold wb, wa. simpl. split; [|split; reflexivity].
    rewrite list_insert_insert_eq. apply list_insert_id. exact Hat. }
  pose proof (keeps_inputs_update_design_as wb) as Hframe.
  unfold exec in Hframe.
  destruct (update_design_as wb) as [wc res].
  cbn [fst] in *.
  destruct Hframe as (_ & _ & He & _ & _ & Hrr & Hnw).
  destruct Hwb as (H1 & H2 & H3).
  assert (Hgoal : rebar_rows wc = rebar_rows w /\
                  next_widget wc = S (next_widget w) /\ edits wc = edits w).
  { rewrite Hrr, Hnw, He. auto. }
  destruct res; exact Hgoal.
Qed.

(** ** The order of the rows of a section *)

Lemma provided_area_Permutation (rows rows' : list Row) :
  rows ≡ₚ rows' -> provided_area rows = provided_area rows'.
Proof.
  intros Hp. unfold provided_area, sumR.
  induction Hp; simpl; lra.
Qed.

Lemma layer_sums_Permutation (k : Z) (rows rows' : list Row) :
  rows ≡ₚ rows' ->
  layer_bar_count rows k = layer_bar_count rows' k /\
  layer_diam_sum rows k = layer_diam_sum rows' k.
Proof.
  intros Hp. unfold layer_bar_count, layer_diam_sum, layer_entries, sumR.
  induction Hp as [|x l l' Hp IH|x y l|l l' l'' Hp1 IH1 Hp2 IH2].
  - split; reflexivity.
  - destruct IH as [IHc IHd].
    destruct (decide (in_layer k x)) as [Hin|Hout].
    + rewrite !(filter_cons_True _ x) by exact Hin. simpl.
      split; [lia | lra].
    + rewrite !(filter_cons_False _ x) by exact Hout. split; assumption.
  - destruct (decide (in_layer k x)) as [Hx|Hx];
      destruct (decide (in_layer k y)) as [Hy|Hy];
      rewrite ?(filter_cons_True _ y), ?(filter_cons_False _ y),
        ?(filter_cons_True _ x), ?(filter_cons_False _ x),
        ?(filter_cons_True _ y), ?(filter_cons_False _ y) by assumption;
      simpl; split; try reflexivity; try lia; lra.
  - destruct IH1, IH2. split; congruence.
Qed.

Lemma section_base_12_Permutation (r de : R) (rows rows' : list Row) :
  rows ≡ₚ rows' -> section_base_12 r de rows = section_base_12 r de rows'.
Proof.
  intros Hp. unfold section_base_12, base_required_layer.
  destruct (layer_sums_Permutation 1 rows rows' Hp) as [-> ->].
  destruct (layer_sums_Permutation 2 rows rows' Hp) as [-> ->].
  reflexivity.
Qed.

(** X14: The order of the rows inside the sections does not reach the check
    of [update_design_as] nor [_design_areas]: with the rows of each
    section permuted, the loop over the sections gives the same provided
    areas and the same required bases. *)
Theorem row_order_is_irrelevant (w w' : DesignWindow) :
  Forall2 Permutation (rebar_rows w) (rebar_rows w') ->
  edits w' = edits w -> cb_estribo w' = cb_estribo w ->
  Forall layer_text_ok (concat (rebar_rows w)) ->
  _design_areas w' = _design_areas w /\
  foldM (section_step w') ([], []) (rebar_rows w')
  = foldM (section_step w) ([], []) (rebar_rows w) /\
  exists totals base_reqs,
    foldM (section_step w) ([], []) (rebar_rows w) = Ok (totals, base_reqs).
Proof.
  intros Hperm He Hce Hwf.
  assert (Hwf' : Forall layer_text_ok (concat (rebar_rows w'))).
  { clear He Hce. induction Hperm as [|rows rows' rs rs' Hp Hps IH];
      [constructor|].
    simpl in *. apply Forall_app in Hwf as [Hrows Hwf].
    apply Forall_app. split; [|apply IH, Hwf].
    rewrite <- Hp. exact Hrows. }
  assert (Htot : map provided_area (rebar_rows w')
                 = map provided_area (rebar_rows w)).
  { clear -Hperm. induction Hperm as [|rows rows' rs rs' Hp Hps IH];
      [reflexivity|].
    simpl. rewrite IH, (provided_area_Permutation rows rows' Hp).
    reflexivity. }
  split; [rewrite !design_areas_closed; exact Htot|].
  destruct (edit_r (edits w)) as [r|] eqn:Hr.
  - assert (Hr' : edit_r (edits w') = FloatText r) by (rewrite He; exact Hr).
    rewrite (sections_closed w' r _ [] [] Hr' Hwf').
    rewrite (sections_closed w r _ [] [] Hr Hwf).
    rewrite Htot, Hce. split; [|eauto]. do 3 f_equal.
    clear -Hperm. induction Hperm as [|rows rows' rs rs' Hp Hps IH];
      [reflexivity|].
    simpl. rewrite IH, (section_base_12_Permutation _ _ rows rows' Hp).
    reflexivity.
  - assert (Hr' : edit_r (edits w') = NotFloat) by (rewrite He; exact Hr).
    rewrite (sections_no_cover w' _ [] [] Hr' Hwf').
    rewrite (sections_no_cover w _ [] [] Hr Hwf).
    rewrite Htot. split; [reflexivity | eauto].
Qed.

End MoreRows.

(** ** The two collectors of the view *)

Section Collectors.
Context `{Constants}.

Lemma bars_of_layers_extend (m : gmap Z (list (R * string))) (k : Z)
  (l : list (R * string)) :
  bars_of_layers (<[k := default [] (m !! k) ++ l]> m)
  ≡ₚ bars_of_layers m ++ l.*2.
Proof.
  unfold bars_of_layers. destruct (m !! k) as [old|] eqn:Hk; simpl.
  - rewrite <- (map_to_list_delete m k old Hk).
    rewrite <- insert_delete_eq.
    rewrite map_to_list_insert by apply lookup_delete_eq.
    simpl. rewrite !fmap_app. solve_Permutation.
  - rewrite map_to_list_insert by exact Hk.
    simpl. rewrite !fmap_app. solve_Permutation.
Qed.

Lemma collect_order_closed (rows : list Row) (order : list string) :
  foldl (fun order row =>
           let qty := qty_of (qty row) in
           let dia_key := dia row in
           if decide ((qty <= 0)%Z \/ DIAM_CM !! dia_key = None)
           then order
           else order ++ replicate (Z.to_nat qty) dia_key)
        order rows
  = order ++ mjoin (order_of_row <$> rows).
Proof.
  revert order. induction rows as [|row rows IH]; intros order; simpl.
  - rewrite app_nil_r. reflexivity.
  - rewrite IH. unfold order_of_row at 2. case_decide.
    + reflexivity.
    + rewrite <- app_assoc. reflexivity.
Qed.

Lemma collect_bars_loop (rows : list Row)
  (layers : gmap Z (list (R * string))) :
  Forall layer_text_ok rows ->
  (forall key x, DIAM_CM !! key = Some x -> x <> 0) ->
  exists layers',
    foldM (fun layers row =>
             let qty := qty_of (qty row) in
             let dia_key := dia row in
             let dia := dict_get DIAM_CM dia_key in
             if decide ((qty <= 0)%Z \/ dia = 0) then Ok layers else
             layer ← int_or 1 (capa row);
             Ok (<[layer := default [] (layers !! layer)
                            ++ replicate (Z.to_nat qty) (dia, dia_key)]>
                   layers))
          layers rows = Ok layers' /\
    bars_of_layers layers'
    ≡ₚ bars_of_layers layers ++ mjoin (order_of_row <$> rows).
Proof.
  intros Hwf Hdiam. revert layers.
  induction Hwf as [|row rows Hrow Hwf IH]; intros layers.
  - exists layers. simpl. rewrite app_nil_r. split; reflexivity.
  - cbn [foldM]. cbv zeta.
    assert (Hskip : dict_get DIAM_CM (dia row) = 0
                    <-> DIAM_CM !! dia row = None).
    { unfold dict_get. destruct (DIAM_CM !! dia row) as [x|] eqn:Hx; simpl.
      - split; [intros H0; destruct (Hdiam _ _ Hx H0) | discriminate].
      - split; reflexivity. }
    rewrite fmap_cons. cbn [mjoin list_join].
    unfold order_of_row at 1.
    destruct (decide ((qty_of (qty row) <= 0)%Z
                      \/ dict_get DIAM_CM (dia row) = 0)) as [Hs|Hs].
    + rewrite decide_True by tauto.
      cbn [mbind result_bind]. apply IH.
    + rewrite decide_False by tauto.
      assert (Hlayer : exists k, int_or 1 (capa row) = Ok k).
      { unfold layer_text_ok in Hrow. destruct (capa row); simpl; eauto.
        contradiction. }
      destruct Hlayer as [k Hk]. rewrite Hk. cbn [mbind result_bind].
      destruct (IH (<[k := default [] (layers !! k)
                            ++ replicate (Z.to_nat (qty_of (qty row)))
                                 (dict_get DIAM_CM (dia row), dia row)]>
                      layers)) as (layers' & Hrun & Hperm).
      exists layers'. split; [exact Hrun|].
      rewrite Hperm, bars_of_layers_extend, fmap_replicate.
      cbn [snd]. rewrite <- app_assoc. reflexivity.
Qed.

(** X15: With no zero diameter in the catalogue and integer layer texts, the
    bars that [_collect_bars] groups by layer are, up to their order,
    the bars that [_collect_order] lists: one designation for each bar of
    each row with a positive quantity and a catalogued diameter, in the
    order of the rows. *)
Theorem collect_bars_matches_order (d : DesignWindow) (idx : nat)
  (rows : list Row) :
  rebar_rows d !! idx = Some rows ->
  Forall layer_text_ok rows ->
  (forall key x, DIAM_CM !! key = Some x -> x <> 0) ->
  exists layers,
    _collect_bars d idx = Ok layers /\
    _collect_order d idx = Ok (mjoin (order_of_row <$> rows)) /\
    bars_of_layers layers ≡ₚ mjoin (order_of_row <$> rows).
Proof.
  intros Hat Hwf Hdiam.
  destruct (collect_bars_loop rows ∅ Hwf Hdiam) as (layers & Hrun & Hperm).
  exists layers. unfold _collect_bars, _collect_order, rows_at.
  rewrite Hat. cbn [mbind result_bind].
  split; [exact Hrun|]. split.
  - rewrite collect_order_closed. reflexivity.
  - rewrite Hperm. unfold bars_of_layers. rewrite map_to_list_empty.
    reflexivity.
Qed.

End Collectors.

(** ** The calculation report *)

Section MemoriaProps.
Context `{Constants}.

Lemma memoria_row_ok (fc b d fy phi m : R) (a : np64) (des : R) :
  fy <> 0 -> phi <> 0 ->
  memoria_row fc b d fy phi (m, (a, des))
  = Ok (as_raw fc b d fy phi m, (a, des, ge_np des a)).
Proof.
  intros Hfy Hphi.
  pose proof (calc_as_req_ok m fc b d fy phi Hfy Hphi) as Hreq.
  unfold _calc_as_req in Hreq. unfold memoria_row.
  destruct (pydiv (1.7 * fc * b * d) (2 * fy)) as [t|e]; [|discriminate].
  cbn [mbind result_bind] in *.
  destruct (pydiv (2.89 * (fc * b * d) ^ 2) (fy ^ 2)) as [q1|e];
    [|discriminate].
  cbn [mbind result_bind] in *.
  destruct (pydiv (6.8 * fc * b * (Rabs m * 100000)) (phi * fy ^ 2))
    as [q2|e]; [|discriminate].
  cbn [mbind result_bind] in *. injection Hreq as Hreq.
  unfold as_raw. rewrite <- Hreq. reflexivity.
Qed.

(** X16: The report is refused, with [None], exactly when one of the six
    inputs is not a number; nothing is raised then. *)
Theorem build_memoria_none (w : DesignWindow) :
  _build_memoria w = Ok None <-> some_input_invalid w.
Proof.
  unfold _build_memoria, some_input_invalid.
  destruct (edit_b (edits w)) as [b|]; cbn [py_float mbind result_bind];
    [|split; [auto | reflexivity]].
  destruct (edit_h (edits w)) as [h|]; cbn [py_float mbind result_bind];
    [|split; [auto 10 | reflexivity]].
  destruct (edit_r (edits w)) as [r|]; cbn [py_float mbind result_bind];
    [|split; [auto 10 | reflexivity]].
  destruct (edit_fc (edits w)) as [fc|]; cbn [py_float mbind result_bind];
    [|split; [auto 10 | reflexivity]].
  destruct (edit_fy (edits w)) as [fy|]; cbn [py_float mbind result_bind];
    [|split; [auto 10 | reflexivity]].
  destruct (edit_phi (edits w)) as [phi|]; cbn [py_float mbind result_bind];
    [|split; [auto 10 | reflexivity]].
  split.
  - intros Hrun. exfalso.
    destruct (_calc_as_limits _ _ _ _) as [[lo hi]|e];
      cbn [mbind result_bind] in Hrun; [|discriminate].
    destruct (pydiv (0.85 * fc * beta1_of fc) fy) as [q1|e];
      cbn [mbind result_bind] in Hrun; [|discriminate].
    destruct (pydiv 6000 (6000 + fy)) as [q2|e];
      cbn [mbind result_bind] in Hrun; [|discriminate].
    destruct (mapM_result _ (mn_corr w)) as [rn|e];
      cbn [mbind result_bind] in Hrun; [|discriminate].
    destruct (mapM_result _ (mp_corr w)) as [rp|e];
      cbn [mbind result_bind] in Hrun; [|discriminate].
    destruct (mapM_result _ _) as [rows|e];
      cbn [mbind result_bind] in Hrun; discriminate.
  - intros Hbad. exfalso.
    destruct Hbad as [Hb|[Hb|[Hb|[Hb|[Hb|Hb]]]]]; discriminate.
Qed.

(** The report in closed form, with numeric inputs and defined
    quotients. *)
Lemma build_memoria_closed (w : DesignWindow) (b fc fy phi h r : R) :
  material_inputs w b fc fy phi ->
  edit_h (edits w) = FloatText h -> edit_r (edits w) = FloatText r ->
  fy <> 0 -> fy <> -6000 -> phi <> 0 -> 0 <= fc ->
  let de := dict_get DIAM_CM (cb_estribo w) in
  let db := dict_get DIAM_CM (cb_varilla w) in
  let d := h - r - de - 0.5 * db in
  let lo := Real (as_min_formula fc fy b d) in
  let hi := as_max_formula fc fy b d in
  let reqs := map (fun m => np_clip (as_raw fc b d fy phi m) lo hi)
                  (mn_corr w ++ mp_corr w) in
  let rows := take 6 (zip (mn_corr w ++ mp_corr w)
                          (zip reqs (map provided_area (rebar_rows w)))) in
  _build_memoria w
  = Ok (Some {| mem_d := d; mem_b1 := beta1_of fc;
                mem_pbal := 0.85 * fc * beta1_of fc / fy
                            * (6000 / (6000 + fy));
                mem_pmax := 0.75 * (0.85 * fc * beta1_of fc / fy
                                    * (6000 / (6000 + fy)));
                mem_as_min := lo; mem_as_max := hi;
                mem_calc := map (fun x => as_raw fc b d fy phi x.1) rows;
                mem_verif := map (fun x => (x.2.1, x.2.2,
                                            ge_np x.2.2 x.2.1)) rows |}).
Proof.
  intros (Hb & Hfc & Hfy & Hphi) Hh Hr Hfy0 Hfy6 Hphi0 Hfc0
    de db d lo hi reqs rows.
  unfold _build_memoria. rewrite Hb, Hh, Hr, Hfc, Hfy, Hphi.
  cbn [py_float mbind result_bind]. fold de db d.
  rewrite calc_as_limits_ok by assumption. cbn [mbind result_bind].
  rewrite !pydiv_ok by lra. cbn [mbind result_bind].
  rewrite !(mapM_result_ok _ (as_raw fc b d fy phi))
    by (intros m; apply calc_as_req_ok; assumption).
  cbn [mbind result_bind].
  rewrite design_areas_closed, !map_map, <- map_app.
  fold lo hi. fold reqs. fold rows.
  rewrite (mapM_result_ok _
             (fun x => (as_raw fc b d fy phi x.1,
                        (x.2.1, x.2.2, ge_np x.2.2 x.2.1))))
    by (intros [m [a des]]; apply memoria_row_ok; assumption).
  cbn [mbind result_bind]. rewrite !map_map. reflexivity.
Qed.

Lemma memoria_rows_lookup (ms : list R) (reqs : list np64)
  (totals : list R) (i : nat) (m : R) (a : np64) (des : R) :
  take 6 (zip ms (zip reqs totals)) !! i = Some (m, (a, des)) <->
  (i < 6)%nat /\ ms !! i = Some m /\ reqs !! i = Some a /\
  totals !! i = Some des.
Proof.
  split.
  - intros Hat. apply lookup_take_Some in Hat as [Hat Hi].
    apply lookup_zip_with_Some in Hat as (x & y & Heq & Hx & Hy).
    apply lookup_zip_with_Some in Hy as (y1 & y2 & -> & Hy1 & Hy2).
    injection Heq as -> -> ->. auto.
  - intros (Hi & Hm & Ha & Hd). apply lookup_take_Some. split; [|exact Hi].
    apply lookup_zip_with_Some.
    exists m, (a, des). split; [reflexivity|]. split; [exact Hm|].
    apply lookup_zip_with_Some. eauto.
Qed.

(** X17: With numeric inputs and defined quotients the report comes back.
    Its depth is h - r - de - db / 2 with the diameter of the bar combo,
    whatever the rows hold; pmax is 0.75 pbal and As_max is pmax b d; it
    has a row for each of the first six moments that has a section; the
    area calculated in the loop is the one [_calc_as_req] gives at that
    depth, the required area its clip, and the row complies exactly when
    the provided area reaches the required one. *)
Theorem build_memoria_numbers (w : DesignWindow) (b fc fy phi h r : R) :
  material_inputs w b fc fy phi ->
  edit_h (edits w) = FloatText h -> edit_r (edits w) = FloatText r ->
  fy <> 0 -> fy <> -6000 -> phi <> 0 -> 0 <= fc ->
  exists mem,
    _build_memoria w = Ok (Some mem) /\
    mem_d mem = h - r - dict_get DIAM_CM (cb_estribo w)
                - 0.5 * dict_get DIAM_CM (cb_varilla w) /\
    mem_pmax mem = 0.75 * mem_pbal mem /\
    mem_as_max mem = mem_pmax mem * b * mem_d mem /\
    mem_as_min mem = Real (0.7 * (sqrt fc / fy) * b * mem_d mem) /\
    length (mem_verif mem)
    = Nat.min 6 (Nat.min (length (mn_corr w ++ mp_corr w))
                         (length (rebar_rows w))) /\
    length (mem_calc mem) = length (mem_verif mem) /\
    forall i m des,
      (i < 6)%nat -> (mn_corr w ++ mp_corr w) !! i = Some m ->
      _design_areas w !! i = Some des ->
      exists calc a,
        mem_calc mem !! i = Some calc /\
        _calc_as_req m fc b (mem_d mem) fy phi = Ok calc /\
        mem_verif mem !! i = Some (Real a, des, bool_decide (des >= a)) /\
        np_clip calc (mem_as_min mem) (mem_as_max mem) = Real a.
Proof.
  intros Hin Hh Hr Hfy0 Hfy6 Hphi0 Hfc0.
  pose proof (build_memoria_closed w b fc fy phi h r Hin Hh Hr Hfy0 Hfy6
                Hphi0 Hfc0) as Hrun.
  cbv zeta in Hrun. eexists. split; [exact Hrun|].
  cbn [mem_d mem_pmax mem_pbal mem_as_max mem_as_min mem_calc mem_verif].
  split; [reflexivity|]. split; [reflexivity|].
  split; [unfold as_max_formula; lra|].
  split; [reflexivity|].
  split.
  { rewrite length_map, length_take, !length_zip, !length_map. lia. }
  split; [rewrite !length_map; reflexivity|].
  intros i m des Hi Hm Hdes. rewrite design_areas_closed in Hdes.
  set (d := h - r - dict_get DIAM_CM (cb_estribo w)
            - 0.5 * dict_get DIAM_CM (cb_varilla w)) in *.
  set (lo := as_min_formula fc fy b d).
  set (hi := as_max_formula fc fy b d).
  assert (Hrow : take 6 (zip (mn_corr w ++ mp_corr w)
                   (zip (map (fun m => np_clip (as_raw fc b d fy phi m)
                                               (Real lo) hi)
                             (mn_corr w ++ mp_corr w))
                        (map provided_area (rebar_rows w)))) !! i
                 = Some (m, (np_clip (as_raw fc b d fy phi m) (Real lo) hi,
                             des))).
  { apply memoria_rows_lookup. split; [exact Hi|]. split; [exact Hm|].
    split; [|exact Hdes]. rewrite lookup_map, Hm. reflexivity. }
  exists (as_raw fc b d fy phi m),
         (Rmin (Rmax (as_raw fc b d fy phi m) lo) hi).
  rewrite !lookup_map, Hrow. cbn [fmap option_fmap option_map fst snd].
  split; [reflexivity|].
  split; [apply calc_as_req_ok; assumption|].
  split; reflexivity.
Qed.

(** X18: When the effective depth of the window is the depth of the report,
    the report and the window agree: the same limits, the same required
    area in every row, the provided area that [update_design_as] plots,
    and a row that complies exactly where the window shows OK. *)
Theorem memoria_agrees_with_window (w w1 : DesignWindow)
  (b fc fy phi h r : R) :
  material_inputs w b fc fy phi ->
  edit_h (edits w) = FloatText h -> edit_r (edits w) = FloatText r ->
  fy <> 0 -> fy <> -6000 -> phi <> 0 -> 0 <= fc ->
  Forall layer_text_ok (concat (rebar_rows w)) ->
  calc_effective_depth w
  = (w1, Ok (h - r - dict_get DIAM_CM (cb_estribo w)
             - 0.5 * dict_get DIAM_CM (cb_varilla w))) ->
  exists mem reqs_n reqs_p,
    _build_memoria w = Ok (Some mem) /\
    eval _required_areas w = Ok (reqs_n, reqs_p) /\
    mem_as_min mem = as_min (derived (exec _required_areas w)) /\
    mem_as_max mem = as_max (derived (exec _required_areas w)) /\
    forall i a des (ok : bool),
      mem_verif mem !! i = Some (a, des, ok) ->
      (reqs_n ++ reqs_p) !! i = Some a /\
      fst (ax_des (derived (exec update_design_as w))) !! i = Some des /\
      snd (ax_des (derived (exec update_design_as w))) !! i
      = Some (if ok then "OK" else "NO OK").
Proof.
  intros Hin Hh Hr Hfy0 Hfy6 Hphi0 Hfc0 Hwf Hd.
  pose proof (build_memoria_closed w b fc fy phi h r Hin Hh Hr Hfy0 Hfy6
                Hphi0 Hfc0) as Hrun.
  pose proof (required_areas_closed w w1 b fc fy phi _ Hin Hd Hfy0 Hfy6
                Hphi0 Hfc0) as Hra.
  cbv zeta in Hrun, Hra.
  destruct (update_design_as_plot w _ _ _ Hra Hwf) as (_ & Hax & _).
  eexists _, _, _. split; [exact Hrun|].
  unfold eval, exec in *. rewrite Hra, Hax. cbn [fst snd].
  split; [reflexivity|]. split; [reflexivity|]. split; [reflexivity|].
  cbn [mem_verif].
  intros i a des ok Hrow. rewrite lookup_map in Hrow.
  destruct (take 6 _ !! i) as [[m [a' des']]|] eqn:Hat;
    cbn [fmap option_fmap option_map fst snd] in Hrow; [|discriminate].
  injection Hrow as -> -> <-.
  apply memoria_rows_lookup in Hat as (Hi & Hm & Ha & Hdes).
  rewrite <- !map_app, !map_map.
  split; [exact Ha|]. split; [exact Hdes|].
  rewrite lookup_zip_with, Hdes. cbn [mbind option_bind].
  rewrite Ha. reflexivity.
Qed.

(** X19: With every bar in layer 1 the depth of the window is
    h - r - de - D1 / 2, D1 being the diameter that stands for layer 1;
    the depth of the report uses the diameter of the bar combo instead,
    so the two differ by half the difference of the diameters and agree
    exactly when the diameters do. *)
Theorem memoria_depth_single_layer (w : DesignWindow)
  (b fc fy phi h r : R) :
  material_inputs w b fc fy phi ->
  edit_h (edits w) = FloatText h -> edit_r (edits w) = FloatText r ->
  fy <> 0 -> fy <> -6000 -> phi <> 0 -> 0 <= fc ->
  Forall layer_1_to_4 (concat (rebar_rows w)) ->
  highest_layer (largest_entry_area (concat (rebar_rows w))) = 1%Z ->
  let db := dict_get DIAM_CM (cb_varilla w) in
  let D1 := representative_diam db (concat (rebar_rows w)) 1 in
  exists mem dw,
    _build_memoria w = Ok (Some mem) /\
    eval calc_effective_depth w = Ok dw /\
    dw - mem_d mem = 0.5 * (db - D1) /\
    (dw = mem_d mem <-> D1 = db).
Proof.
  intros Hin Hh Hr Hfy0 Hfy6 Hphi0 Hfc0 Hwf Hone db D1.
  pose proof (build_memoria_closed w b fc fy phi h r Hin Hh Hr Hfy0 Hfy6
                Hphi0 Hfc0) as Hrun.
  pose proof (calc_effective_depth_closed w h r Hh Hr Hwf) as Hd.
  cbv zeta in Hrun, Hd.
  eexists _, _. split; [exact Hrun|].
  unfold eval. rewrite Hd. cbn [snd mem_d]. split; [reflexivity|].
  fold db. fold D1.
  assert (Hw : weighted_depth h r (dict_get DIAM_CM (cb_estribo w))
                 (largest_entry_area (concat (rebar_rows w)))
                 (representative_diam db (concat (rebar_rows w)))
               = h - r - dict_get DIAM_CM (cb_estribo w) - 0.5 * D1).
  { unfold weighted_depth. rewrite Hone. simpl.
    unfold layer_depth, sumR. simpl. fold D1.
    case_decide; [reflexivity|]. field. lra. }
  rewrite Hw. split; [lra|]. split; intros; lra.
Qed.

End MemoriaProps.

(** ** Where the formulas are defined *)

Section Definedness.
Context `{Constants}.

(** X20: Where the formulas are defined.  [_calc_as_req] raises
    ZeroDivisionError at fy = 0, in its first quotient, and returns when fy
    and phi are not zero; [_calc_as_limits] returns exactly when fy is
    neither 0 nor -6000 and raises ZeroDivisionError otherwise; a negative
    fc does not raise but makes As_min nan. *)
Theorem formulas_defined (Mu fc b d fy phi : R) :
  (fy = 0 -> _calc_as_req Mu fc b d fy phi = Raise ZeroDivisionError) /\
  (fy <> 0 -> phi <> 0 -> exists a, _calc_as_req Mu fc b d fy phi = Ok a) /\
  ((exists p, _calc_as_limits fc fy b d = Ok p)
   <-> fy <> 0 /\ fy <> -6000) /\
  (fy = 0 \/ fy = -6000 ->
   _calc_as_limits fc fy b d = Raise ZeroDivisionError) /\
  (fy <> 0 -> fy <> -6000 ->
   (fc < 0 <-> exists hi, _calc_as_limits fc fy b d = Ok (Nan, hi))).
Proof.
  assert (Hlim : fy = 0 \/ fy = -6000 ->
                 _calc_as_limits fc fy b d = Raise ZeroDivisionError).
  { intros Hz. unfold _calc_as_limits.
    destruct Hz as [-> | ->].
    - rewrite pydiv_zero. reflexivity.
    - rewrite (pydiv_ok _ (-6000)) by lra. cbn [mbind result_bind].
      replace (6000 + -6000) with 0 by lra. rewrite pydiv_zero. reflexivity. }
  split; [|split; [|split; [|split; [exact Hlim|]]]].
  - intros ->. unfold _calc_as_req.
    replace (2 * 0) with 0 by lra. rewrite pydiv_zero. reflexivity.
  - intros Hfy Hphi. eexists. apply calc_as_req_ok; assumption.
  - split.
    + intros [p Hp].
      destruct (decide (fy = 0)) as [Hfy|Hfy];
        [rewrite Hlim in Hp by auto; discriminate|].
      destruct (decide (fy = -6000)) as [Hfy6|Hfy6];
        [rewrite Hlim in Hp by auto; discriminate|].
      auto.
    + intros [Hfy Hfy6]. unfold _calc_as_limits.
      rewrite !pydiv_ok by lra. eexists. reflexivity.
  - intros Hfy Hfy6. unfold _calc_as_limits, np_sqrt.
    rewrite !pydiv_ok by lra. cbn [mbind result_bind].
    destruct (decide (fc < 0)) as [Hneg|Hpos].
    + split; [eauto | intros _; exact Hneg].
    + split; [contradiction | intros [hi Hhi]; discriminate].
Qed.

End Definedness.

(** ** Redrawing the view, and the guards of the reordering *)

Section MoreDrawViews.
Context `{Constants}.

Lemma collect_order_rows (d : DesignWindow) (idx : nat) (rows : list Row) :
  rebar_rows d !! idx = Some rows ->
  _collect_order d idx = Ok (mjoin (order_of_row <$> rows)).
Proof.
  intros Hat. unfold _collect_order, rows_at. rewrite Hat.
  cbn [mbind result_bind]. rewrite collect_order_closed. reflexivity.
Qed.

(** X21: Redrawing with [reset_orders] throws the stored orders away: each of
    the three negative and three positive orders lists again the bars of
    the rows of its section, in the order of the rows.  Without a width,
    a height or a cover that is a number the view returns before that
    and keeps the orders it had. *)
Theorem draw_views_resets_orders (v : View3DWindow) :
  design_ready (design v) ->
  let v' := exec (draw_views true) v in
  eval (draw_views true) v = Ok tt /\
  design v' = design v /\
  (edit_b (edits (design v)) = NotFloat \/
   edit_h (edits (design v)) = NotFloat \/
   edit_r (edits (design v)) = NotFloat -> v' = v) /\
  (forall b h r,
     edit_b (edits (design v)) = FloatText b ->
     edit_h (edits (design v)) = FloatText h ->
     edit_r (edits (design v)) = FloatText r ->
     length (neg_orders v') = 3%nat /\ length (pos_orders v') = 3%nat /\
     forall k rows, (k < 3)%nat ->
       (rebar_rows (design v) !! k = Some rows ->
        neg_orders v' !! k = Some (mjoin (order_of_row <$> rows))) /\
       (rebar_rows (design v) !! (k + 3)%nat = Some rows ->
        pos_orders v' !! k = Some (mjoin (order_of_row <$> rows)))).
Proof.
  intros Hd v'. unfold v'.
  assert (Hbad : edit_b (edits (design v)) = NotFloat \/
                 edit_h (edits (design v)) = NotFloat \/
                 edit_r (edits (design v)) = NotFloat ->
                 draw_views true v = (v, Ok tt)).
  { intros Hbad. unfold draw_views, mbind, M_bind, get.
    destruct (edit_b (edits (design v))); cbn [py_float mbind result_bind];
      [|reflexivity].
    destruct (edit_h (edits (design v))); cbn [py_float mbind result_bind];
      [|reflexivity].
    destruct (edit_r (edits (design v))); cbn [py_float mbind result_bind];
      [|reflexivity].
    destruct Hbad as [Hb|[Hb|Hb]]; discriminate. }
  assert (Hrows : forall k, (k < 6)%nat ->
            exists rows, rebar_rows (design v) !! k = Some rows).
  { intros k Hk. destruct Hd as [Hlen _].
    apply lookup_lt_is_Some_2. lia. }
  destruct (Hrows 0%nat ltac:(lia)) as [r0 Hr0].
  destruct (Hrows 1%nat ltac:(lia)) as [r1 Hr1].
  destruct (Hrows 2%nat ltac:(lia)) as [r2 Hr2].
  destruct (Hrows 3%nat ltac:(lia)) as [r3 Hr3].
  destruct (Hrows 4%nat ltac:(lia)) as [r4 Hr4].
  destruct (Hrows 5%nat ltac:(lia)) as [r5 Hr5].
  assert (Hgood : forall b h r,
            edit_b (edits (design v)) = FloatText b ->
            edit_h (edits (design v)) = FloatText h ->
            edit_r (edits (design v)) = FloatText r ->
            draw_views true v
            = (set_pos_orders [mjoin (order_of_row <$> r3);
                               mjoin (order_of_row <$> r4);
                               mjoin (order_of_row <$> r5)]
                 (set_neg_orders [mjoin (order_of_row <$> r0);
                                  mjoin (order_of_row <$> r1);
                                  mjoin (order_of_row <$> r2)] v),
               Ok tt)).
  { intros b h r Hb Hh Hr.
    unfold draw_views, mbind, M_bind, result_bind, get, lift, modify,
      mret, M_ret.
    cbv beta iota. rewrite Hb, Hh, Hr. cbn [py_float]. cbv beta iota.
    cbn [mapM_result]. unfold mbind, result_bind.
    destruct (collect_bars_ready (design v) 0 Hd ltac:(lia)) as (l0 & ->).
    destruct (collect_bars_ready (design v) 1 Hd ltac:(lia)) as (l1 & ->).
    destruct (collect_bars_ready (design v) 2 Hd ltac:(lia)) as (l2 & ->).
    destruct (collect_bars_ready (design v) (0 + 3) Hd ltac:(lia))
      as (l3 & ->).
    destruct (collect_bars_ready (design v) (1 + 3) Hd ltac:(lia))
      as (l4 & ->).
    destruct (collect_bars_ready (design v) (2 + 3) Hd ltac:(lia))
      as (l5 & ->).
    cbv beta iota. cbn [orb].
    unfold collect_orders. cbn [mapM_result]. unfold mbind, result_bind.
    rewrite (collect_order_rows (design v) (0 + 0) r0 Hr0),
      (collect_order_rows (design v) (1 + 0) r1 Hr1),
      (collect_order_rows (design v) (2 + 0) r2 Hr2).
    cbv beta iota. cbn [set_neg_orders design].
    rewrite (collect_order_rows (design v) (0 + 3) r3 Hr3),
      (collect_order_rows (design v) (1 + 3) r4 Hr4),
      (collect_order_rows (design v) (2 + 3) r5 Hr5).
    reflexivity. }
  unfold eval, exec.
  destruct (edit_b (edits (design v))) as [b|] eqn:Hb;
    [|rewrite Hbad by auto; repeat split; try reflexivity;
      intros; discriminate].
  destruct (edit_h (edits (design v))) as [h|] eqn:Hh;
    [|rewrite Hbad by auto; repeat split; try reflexivity;
      intros; discriminate].
  destruct (edit_r (edits (design v))) as [r|] eqn:Hr;
    [|rewrite Hbad by auto; repeat split; try reflexivity;
      intros; discriminate].
  rewrite (Hgood b h r eq_refl eq_refl eq_refl). cbn [fst snd].
  split; [reflexivity|]. split; [reflexivity|].
  split; [intros [Hx|[Hx|Hx]]; discriminate|].
  intros _ _ _ _ _ _. split; [reflexivity|]. split; [reflexivity|].
  intros k rows Hk.
  cbn [set_pos_orders set_neg_orders neg_orders pos_orders].
  destruct k as [|[|[|k]]]; try lia; cbn [Nat.add];
    (split; intros Hat; cbn [lookup list_lookup]; congruence).
Qed.

(** X22: The guards of the reordering methods: with an unknown sign or a
    section outside 0..2 nothing happens at all; with collected orders
    and an index outside the order, or a bar moved to the place it
    has, the view stays as it is and is not redrawn. *)
Theorem reordering_guards (v : View3DWindow) (sign : string)
  (section i j : Z) (new_order : list string) :
  (known_sign sign = false \/ in_range section 3 = false ->
   swap_bars sign section i j v = (v, Ok tt) /\
   move_bar sign section i j v = (v, Ok tt) /\
   change_order sign section new_order v = (v, Ok tt)) /\
  (forall lst,
     orders_of (bool_decide (sign = "pos")) v !! Z.to_nat section
     = Some lst ->
     (in_range i (length lst) = false \/ in_range j (length lst) = false ->
      swap_bars sign section i j v = (v, Ok tt)) /\
     (in_range i (length lst) = false \/ i = clamp_index j (length lst) ->
      move_bar sign section i j v = (v, Ok tt))).
Proof.
  split.
  - intros Hbad. unfold swap_bars, move_bar, change_order.
    destruct (known_sign sign); cbn [negb]; [|repeat split; reflexivity].
    destruct (in_range section 3); cbn [negb]; [|repeat split; reflexivity].
    destruct Hbad; discriminate.
  - intros lst Hat. split.
    + intros Hbad. unfold swap_bars.
      destruct (known_sign sign); cbn [negb]; [|reflexivity].
      destruct (in_range section 3); cbn [negb]; [|reflexivity].
      unfold mbind at 1, M_bind.
      rewrite (fetch_order_present _ _ _ _ Hat).
      destruct Hbad as [Hbad|Hbad]; rewrite Hbad; rewrite ?andb_false_r;
        reflexivity.
    + intros Hbad. unfold move_bar.
      destruct (known_sign sign); cbn [negb]; [|reflexivity].
      destruct (in_range section 3); cbn [negb]; [|reflexivity].
      unfold mbind at 1, M_bind.
      rewrite (fetch_order_present _ _ _ _ Hat).
      destruct (in_range i (length lst)) eqn:Hi; cbn [negb]; [|reflexivity].
      destruct Hbad as [Hbad|Hbad]; [discriminate|].
      unfold clamp_index in Hbad. cbv zeta.
      rewrite decide_True by exact Hbad. reflexivity.
Qed.

End MoreDrawViews.

(** ** Entries with an unknown diameter *)

Section UnknownKeys.
Context `{Constants}.

Lemma dict_get_unknown (d : gmap string R) (key : string) :
  d !! key = None -> dict_get d key = 0.
Proof. intros Hk. unfold dict_get. rewrite Hk. reflexivity. Qed.

Lemma sumR_app (l1 l2 : list R) : sumR (l1 ++ l2) = sumR l1 + sumR l2.
Proof.
  unfold sumR. induction l1 as [|x l1 IH]; simpl; [lra|]. rewrite IH. lra.
Qed.

Lemma layer_sums_snoc (j : Z) (rows : list Row) (row : Row) :
  layer_bar_count (rows ++ [row]) j
  = (layer_bar_count rows j
     + (if decide (in_layer j row) then qty_of (qty row) else 0))%Z /\
  layer_diam_sum (rows ++ [row]) j
  = layer_diam_sum rows j
    + (if decide (in_layer j row)
       then IZR (qty_of (qty row)) * entry_diam row else 0).
Proof.
  unfold layer_bar_count, layer_diam_sum.
  rewrite layer_entries_snoc, !map_app, sumR_app, foldr_app.
  destruct (decide (in_layer j row)); simpl.
  - split; [|unfold sumR; simpl; lra].
    generalize (map (fun row0 => qty_of (qty row0)) (layer_entries j rows)).
    intros l. induction l as [|x l IH]; simpl; lia.
  - split; [lia | unfold sumR; simpl; lra].
Qed.

Lemma provided_area_snoc (rows : list Row) (row : Row) :
  provided_area (rows ++ [row]) = provided_area rows + entry_area row.
Proof.
  unfold provided_area. rewrite map_app, sumR_app. unfold sumR. simpl. lra.
Qed.

(** C7 (amended): the lookups are total, an unknown key gives area 0 and
    diameter 0, and an entry with such a key adds no area and no diameter
    downstream: the provided areas are the same with and without it, the
    scan of the effective depth passes over it, the two collectors of the
    view skip it, and the sum of diameters of its layer is unchanged.  Its
    QUANTITY still counts as bars of its layer in the base width check:
    the required base of the layer is 2 r + 2 de + max(n + q - 1, 0) 2.5 +
    the sum of the diameters, q being the quantity of the entry, so each
    of its bars can add 2.5 cm of spacing. *)
Theorem unknown_key_adds_bars_only (w : DesignWindow) (rows : list Row)
  (row : Row) (k : Z) :
  BAR_DATA !! dia row = None -> DIAM_CM !! dia row = None ->
  Forall layer_text_ok rows -> int_or 1 (capa row) = Ok k ->
  let q := qty_of (qty row) in
  let with_row := set_rebar_rows [rows ++ [row]] w in
  let without := set_rebar_rows [rows] w in
  dict_get BAR_DATA (dia row) = 0 /\ dict_get DIAM_CM (dia row) = 0 /\
  _design_areas with_row = _design_areas without /\
  (forall st cur, st.1 !! k = Some cur -> 0 <= cur ->
                  scan_row st row = Ok st) /\
  _collect_bars with_row 0 = _collect_bars without 0 /\
  _collect_order with_row 0 = _collect_order without 0 /\
  (forall r, edit_r (edits w) = FloatText r ->
     let de := dict_get DIAM_CM (cb_estribo w) in
     section_step w ([], []) rows
     = Ok ([provided_area rows], [section_base_12 r de rows]) /\
     section_step w ([], []) (rows ++ [row])
     = Ok ([provided_area rows], [section_base_12 r de (rows ++ [row])]) /\
     forall j,
       base_required_layer r de (rows ++ [row]) j
       = 2 * r + 2 * de
         + IZR (Z.max (layer_bar_count rows j
                       + (if decide (j = k) then q else 0) - 1) 0) * 2.5
         + layer_diam_sum rows j).
Proof.
  intros Harea Hdiam Hwf Hk q with_row without.
  pose proof (dict_get_unknown _ _ Harea) as Ha.
  pose proof (dict_get_unknown _ _ Hdiam) as Hd.
  assert (Hea : entry_area row = 0) by (unfold entry_area; rewrite Ha; lra).
  assert (Hed : entry_diam row = 0) by exact Hd.
  assert (Hrow : layer_text_ok row).
  { unfold layer_text_ok. intros Hbad. rewrite Hbad in Hk. discriminate. }
  assert (Hwf' : Forall layer_text_ok (rows ++ [row])).
  { apply Forall_app. split; [exact Hwf|]. constructor; [exact Hrow|constructor]. }
  split; [exact Ha|]. split; [exact Hd|]. split.
  { rewrite !design_areas_closed. simpl.
    rewrite provided_area_snoc, Hea. f_equal. lra. }
  split.
  { intros [areas diams] cur Hcur Hpos. simpl in Hcur.
    unfold scan_row. rewrite Hk. cbn [mbind result_bind].
    unfold py_getitem. rewrite Hcur. cbn [mbind result_bind].
    rewrite Ha. rewrite decide_False by lra. reflexivity. }
  split.
  { unfold _collect_bars, rows_at. simpl. rewrite foldM_app.
    destruct (foldM _ ∅ rows) as [layers|e]; [|reflexivity].
    cbn [mbind result_bind foldM]. rewrite Hd.
    rewrite decide_True by (right; reflexivity). reflexivity. }
  split.
  { unfold _collect_order, rows_at. simpl. rewrite foldl_app. simpl.
    rewrite decide_True by (right; exact Hdiam). reflexivity. }
  intros r Hr de.
  split; [apply (section_step_closed w r [] [] rows Hr Hwf)|].
  split.
  { rewrite (section_step_closed w r [] [] (rows ++ [row]) Hr Hwf').
    rewrite provided_area_snoc, Hea, Rplus_0_r. reflexivity. }
  intros j. unfold base_required_layer.
  destruct (layer_sums_snoc j rows row) as [-> ->].
  rewrite Hed.
  destruct (decide (j = k)) as [->|Hne].
  - rewrite !(decide_True (P := in_layer k row)) by exact Hk. fold q. lra.
  - rewrite !(decide_False (P := in_layer j row))
      by (unfold in_layer; rewrite Hk; congruence).
    rewrite Z.add_0_r. lra.
Qed.

End UnknownKeys.

(** ** Evaluation on the sample windows *)

Lemma sample_area_half : dict_get sample_BAR_DATA (inch "1/2") = 1.29.
Proof. reflexivity. Qed.

Lemma sample_area_1 : dict_get sample_BAR_DATA (inch "1") = 5.10.
Proof. reflexivity. Qed.

Lemma sample_area_unselected : dict_get sample_BAR_DATA EmptyString = 0.
Proof. reflexivity. Qed.

Lemma sample_diam_half : dict_get sample_DIAM_CM (inch "1/2") = 1.27.
Proof. reflexivity. Qed.

Lemma sample_diam_1 : dict_get sample_DIAM_CM (inch "1") = 2.54.
Proof. reflexivity. Qed.

Lemma sample_diam_stirrup : dict_get sample_DIAM_CM (inch "3/8") = 0.95.
Proof. reflexivity. Qed.

Lemma sample_diam_bar : dict_get sample_DIAM_CM (inch "5/8") = 1.59.
Proof. reflexivity. Qed.

Lemma sample_diam_unselected : dict_get sample_DIAM_CM EmptyString = 0.
Proof. reflexivity. Qed.

Ltac sample_values :=
  cbn [qty_of int_or];
  rewrite ?sample_area_half, ?sample_area_1, ?sample_area_unselected,
    ?sample_diam_half, ?sample_diam_1, ?sample_diam_stirrup,
    ?sample_diam_bar, ?sample_diam_unselected.

Ltac Rmax_calc :=
  repeat match goal with
  | |- context [Rmax ?a ?b] =>
      first [rewrite (Rmax_left a b) by lra | rewrite (Rmax_right a b) by lra]
  end.

Ltac rows_wf :=
  repeat constructor; eexists; (split; [reflexivity | lia]).

#[local] Existing Instance sample_constants.

Section TwoInLayerOne.

Local Abbreviation all := (concat (rebar_rows two_in_layer_1)).

Lemma two_in_layer_1_entries_1 :
  layer_entries 1 all
  = [default_row 0; default_row 1; idle_row 3; idle_row 4; idle_row 5;
     idle_row 6; idle_row 7].
Proof. vm_compute. reflexivity. Qed.

Lemma two_in_layer_1_entries_2 :
  layer_entries 2 all = [mk_row (IntText 2) (inch "1/2") (IntText 2) 2].
Proof. vm_compute. reflexivity. Qed.

Lemma two_in_layer_1_entries_3 : layer_entries 3 all = [].
Proof. vm_compute. reflexivity. Qed.

Lemma two_in_layer_1_entries_4 : layer_entries 4 all = [].
Proof. vm_compute. reflexivity. Qed.

Lemma two_in_layer_1_largest :
  largest_entry_area all 1 = 2.58 /\ largest_entry_area all 2 = 2.58 /\
  largest_entry_area all 3 = 0 /\ largest_entry_area all 4 = 0.
Proof.
  unfold largest_entry_area.
  rewrite two_in_layer_1_entries_1, two_in_layer_1_entries_2,
    two_in_layer_1_entries_3, two_in_layer_1_entries_4.
  unfold entry_area. simpl. sample_values. Rmax_calc. lra.
Qed.

Lemma two_in_layer_1_total :
  layer_total_area all 1 = 5.16 /\ layer_total_area all 2 = 2.58 /\
  layer_total_area all 3 = 0 /\ layer_total_area all 4 = 0.
Proof.
  unfold layer_total_area.
  rewrite two_in_layer_1_entries_1, two_in_layer_1_entries_2,
    two_in_layer_1_entries_3, two_in_layer_1_entries_4.
  unfold entry_area, sumR. simpl. sample_values. lra.
Qed.

Lemma two_in_layer_1_leading :
  leading_entry all 1 = Some (default_row 0) /\
  leading_entry all 2 = Some (mk_row (IntText 2) (inch "1/2") (IntText 2) 2).
Proof.
  destruct two_in_layer_1_largest as (L1 & L2 & _).
  unfold leading_entry. rewrite L1, L2.
  rewrite two_in_layer_1_entries_1, two_in_layer_1_entries_2.
  split.
  - rewrite filter_cons_True; [reflexivity|].
    unfold entry_area; simpl; sample_values; lra.
  - rewrite filter_cons_True; [reflexivity|].
    unfold entry_area; simpl; sample_values; lra.
Qed.

Lemma two_in_layer_1_diams (db : R) :
  representative_diam db all 1 = 1.27 /\
  representative_diam db all 2 = 1.27 /\
  spec_representative_diam db all 1 = 1.27 /\
  spec_representative_diam db all 2 = 1.27.
Proof.
  destruct two_in_layer_1_largest as (L1 & L2 & _).
  destruct two_in_layer_1_leading as (E1 & E2).
  unfold representative_diam, spec_representative_diam.
  rewrite L1, L2, E1, E2. rewrite !decide_True by lra.
  unfold entry_diam. simpl. sample_values. auto.
Qed.

Lemma two_in_layer_1_code_depth :
  weighted_depth 50 4 0.95 (largest_entry_area all)
                 (representative_diam 1.59 all) = 42.53.
Proof.
  destruct two_in_layer_1_largest as (L1 & L2 & L3 & L4).
  destruct (two_in_layer_1_diams 1.59) as (D1 & D2 & _).
  unfold weighted_depth, highest_layer. rewrite L4, L3, L2.
  repeat case_decide; try lra; simpl in *;
    unfold sumR, layer_depth in *; simpl in *;
    rewrite ?L1, ?L2, ?D1, ?D2 in *; try lra.
Qed.

Lemma two_in_layer_1_spec_depth :
  spec_effective_depth 50 4 0.95 1.59 all = (2 * 44.415 + 40.645) / 3.
Proof.
  destruct two_in_layer_1_total as (T1 & T2 & T3 & T4).
  destruct (two_in_layer_1_diams 1.59) as (_ & _ & D1 & D2).
  unfold spec_effective_depth, weighted_depth, highest_layer.
  rewrite T4, T3, T2.
  repeat case_decide; try lra; simpl in *;
    unfold sumR, layer_depth in *; simpl in *;
    rewrite ?T1, ?T2, ?D1, ?D2 in *; try lra.
Qed.

Lemma effective_depth_weighted_witness :
  eval calc_effective_depth two_in_layer_1
  = Ok (weighted_depth 50 4 (dict_get DIAM_CM (cb_estribo two_in_layer_1))
          (largest_entry_area all)
          (representative_diam (dict_get DIAM_CM (cb_varilla two_in_layer_1))
                               all))
  /\ layer_combo (derived (exec calc_effective_depth two_in_layer_1))
     = highest_layer (largest_entry_area all).
Proof.
  apply (effective_depth_weighted two_in_layer_1 50 4);
    [reflexivity | reflexivity | rows_wf].
Defined.

(** C1 as stated fails: with two entries of 2 bars of 1/2 inch in layer
    1 and one such entry in layer 2 the code weighs both layers by 2.58
    and returns 42.53, where the total areas 5.16 and 2.58 give about
    43.16. *)
Lemma effective_depth_not_total_area :
  ~ spec_depth_claim two_in_layer_1 50 4.
Proof.
  unfold spec_depth_claim, eval.
  rewrite (calc_effective_depth_closed two_in_layer_1 50 4)
    by (reflexivity || rows_wf).
  cbn [snd]. intros Heq. injection Heq as Heq.
  assert (Hd : 42.53 = (2 * 44.415 + 40.645) / 3).
  { rewrite <- two_in_layer_1_code_depth, <- two_in_layer_1_spec_depth.
    exact Heq. }
  lra.
Qed.

End TwoInLayerOne.

Section SixDefaultRows.

Local Abbreviation all := (concat (rebar_rows six_default_rows)).

Lemma six_default_rows_entries :
  layer_entries 1 all
  = [default_row 0; default_row 1; default_row 2; default_row 3;
     default_row 4; default_row 5] /\
  layer_entries 2 all = [] /\ layer_entries 3 all = [] /\
  layer_entries 4 all = [].
Proof. vm_compute. auto. Qed.

Lemma six_default_rows_largest :
  largest_entry_area all 1 = 2.58 /\ largest_entry_area all 2 = 0 /\
  largest_entry_area all 3 = 0 /\ largest_entry_area all 4 = 0.
Proof.
  destruct six_default_rows_entries as (E1 & E2 & E3 & E4).
  unfold largest_entry_area. rewrite E1, E2, E3, E4.
  unfold entry_area. simpl. sample_values. Rmax_calc. lra.
Qed.

Lemma six_default_rows_diam (db : R) : representative_diam db all 1 = 1.27.
Proof.
  destruct six_default_rows_entries as (E1 & _).
  destruct six_default_rows_largest as (L1 & _).
  unfold representative_diam, leading_entry. rewrite L1, E1.
  rewrite decide_True by lra.
  rewrite filter_cons_True; [reflexivity|].
  unfold entry_area; simpl; sample_values; lra.
Qed.

(** The worked example of the specification: one populated layer of
    1/2 inch bars, stirrup 0.95, h = 50, r = 4 give d = d1 = 44.415. *)
Lemma six_default_rows_depth :
  calc_effective_depth six_default_rows
  = (set_layer_combo 1 six_default_rows, Ok 44.415).
Proof.
  rewrite (calc_effective_depth_closed six_default_rows 50 4)
    by (reflexivity || rows_wf).
  destruct six_default_rows_largest as (L1 & L2 & L3 & L4).
  assert (Hk : highest_layer (largest_entry_area all) = 1%Z).
  { unfold highest_layer. rewrite L4, L3, L2.
    repeat case_decide; try lra; reflexivity. }
  rewrite Hk. f_equal. f_equal.
  pose proof (six_default_rows_diam
                (dict_get DIAM_CM (cb_varilla six_default_rows))) as D1.
  unfold weighted_depth. rewrite Hk.
  unfold sumR, layer_depth. simpl in *.
  rewrite L1, D1. sample_values.
  repeat case_decide; lra.
Qed.

Lemma sqrt_210_le_15 : sqrt 210 <= 15.
Proof.
  rewrite <- (sqrt_square 15) by lra. apply sqrt_le_1_alt. lra.
Qed.

Lemma limits_and_clamp_witness :
  _calc_as_limits 210 4200 30 44.415
  = Ok (Real (as_min_formula 210 4200 30 44.415),
        as_max_formula 210 4200 30 44.415)
  /\ beta1_of 210 = 0.85
  /\ (exists y,
        np_clip 0 (Real (as_min_formula 210 4200 30 44.415))
                (as_max_formula 210 4200 30 44.415) = Real y /\
        y <= as_max_formula 210 4200 30 44.415 /\
        as_min_formula 210 4200 30 44.415 <= y)
  /\ as_n_raw (derived (exec _required_areas six_default_rows))
     = map (as_raw 210 30 44.415 4200 0.9) [-10; -5; -8].
Proof.
  destruct (limits_and_clamp 210 4200 30 44.415)
    as (Hlim & Hlow & _ & _ & Hclip & Hkeep); [lra | lra | lra |].
  split; [exact Hlim|]. split; [apply Hlow; lra|]. split.
  - destruct (Hclip 0) as (y & Hy & Hhi & Hlo). exists y.
    split; [exact Hy|]. split; [exact Hhi|]. apply Hlo.
    unfold as_min_formula, as_max_formula, beta1_of.
    rewrite decide_True by lra. pose proof sqrt_210_le_15.
    pose proof (sqrt_pos 210). lra.
  - destruct (Hkeep six_default_rows (set_layer_combo 1 six_default_rows) 0.9)
      as (rn & rp & Hn & _ & Hrn & _).
    + repeat split; reflexivity.
    + exact six_default_rows_depth.
    + lra.
    + rewrite Hrn.
      rewrite (mapM_result_ok _ (as_raw 210 30 44.415 4200 0.9)) in Hn
        by (intros m; apply calc_as_req_ok; lra).
      injection Hn as <-. reflexivity.
Defined.

(** C3 as stated fails: at fc = 1, fy = 4200, b = 30, d = 40 the minimum
    0.2 lies above the maximum, and the clipped value is the maximum. *)
Lemma clamp_below_as_min : ~ spec_clamp_claim 1 4200 30 40 0.
Proof.
  intros (lo & hi & y & Hlim & Hclip & Hlo & Hhi).
  rewrite calc_as_limits_ok in Hlim by lra.
  injection Hlim as <- <-. unfold np_clip in Hclip. injection Hclip as <-.
  unfold as_min_formula, as_max_formula, beta1_of in *.
  rewrite decide_True in * by lra. rewrite sqrt_1 in *.
  unfold Rmin, Rmax in *. repeat destruct (Rle_dec _ _); lra.
Qed.

End SixDefaultRows.

Section InvalidHeight.

Lemma degraded_inputs_witness :
  calc_effective_depth no_height = (no_height, Ok 0) /\
  eval _required_areas no_height
  = Ok ([Real 0; Real 0; Real 0], [Real 0; Real 0; Real 0]).
Proof.
  destruct (degraded_inputs no_height) as (_ & Hh).
  destruct Hh as (Hd & Hz); [left; reflexivity|].
  split; [exact Hd|].
  apply (Hz 30 210 4200 0.9); [repeat split; reflexivity | lra..].
Defined.

(** C6 as stated fails: with a height that is not a number and fy = 0
    the required-area computation raises ZeroDivisionError. *)
Lemma required_areas_raise :
  ~ spec_degraded_claim no_height_zero_fy.
Proof.
  intros Hclaim.
  assert (Hbad : some_input_invalid no_height_zero_fy)
    by (unfold some_input_invalid; do 4 right; left; reflexivity).
  specialize (Hclaim Hbad). unfold eval in Hclaim.
  rewrite (required_areas_zero_fy no_height_zero_fy no_height_zero_fy
             30 210 0.9 0) in Hclaim.
  - discriminate Hclaim.
  - repeat split; reflexivity.
  - apply calc_effective_depth_invalid. left. reflexivity.
Qed.

End InvalidHeight.

Ltac Z_calc :=
  repeat match goal with
  | |- context [IZR ?z] =>
      let v := eval vm_compute in z in progress change (IZR z) with (IZR v)
  end.

Ltac text_wf := repeat (constructor; [discriminate|]); constructor.

Section BaseWidthSamples.

Local Abbreviation ten_bars := (mk_row (IntText 10) (inch "1") (IntText 3) 0).

Lemma default_row_base (wid : nat) :
  base_required_layer 4 0.95 [default_row wid] 1 = 14.94 /\
  base_required_layer 4 0.95 [default_row wid] 2 = 9.9.
Proof.
  unfold base_required_layer, layer_bar_count, layer_diam_sum, sumR, entry_diam.
  simpl. sample_values. Z_calc. lra.
Qed.

Lemma ten_bars_base :
  base_required_layer 4 0.95 [ten_bars] 1 = 9.9 /\
  base_required_layer 4 0.95 [ten_bars] 2 = 9.9 /\
  base_required_layer 4 0.95 [ten_bars] 3 = 57.8.
Proof.
  unfold base_required_layer, layer_bar_count, layer_diam_sum, sumR, entry_diam.
  simpl. sample_values. Z_calc. lra.
Qed.

Lemma default_row_section_base (wid : nat) :
  section_base_12 4 0.95 [default_row wid] = 14.94.
Proof.
  unfold section_base_12. destruct (default_row_base wid) as [-> ->].
  Rmax_calc. reflexivity.
Qed.

Lemma ten_bars_section_base : section_base_12 4 0.95 [ten_bars] = 9.9.
Proof.
  unfold section_base_12. destruct ten_bars_base as (-> & -> & _).
  Rmax_calc. reflexivity.
Qed.

Lemma bars_in_layer_3_reported :
  foldl Rmax (section_base_12 4 0.95 [ten_bars])
        (map (section_base_12 4 0.95)
             [[default_row 1]; [default_row 2]; [default_row 3];
              [default_row 4]; [default_row 5]]) = 14.94.
Proof.
  cbn [map]. rewrite ten_bars_section_base, !default_row_section_base.
  simpl. Rmax_calc. reflexivity.
Qed.

Lemma bars_in_layer_3_spec_reported :
  spec_reported_base 4 0.95 (rebar_rows bars_in_layer_3) = Ok 57.8.
Proof.
  change (spec_reported_base 4 0.95 (rebar_rows bars_in_layer_3))
    with (Ok (foldl Rmax (base_required_layer 4 0.95 [ten_bars] 3)
                [base_required_layer 4 0.95 [default_row 1] 1;
                 base_required_layer 4 0.95 [default_row 2] 1;
                 base_required_layer 4 0.95 [default_row 3] 1;
                 base_required_layer 4 0.95 [default_row 4] 1;
                 base_required_layer 4 0.95 [default_row 5] 1])).
  destruct ten_bars_base as (_ & _ & ->).
  rewrite !(proj1 (default_row_base _)). simpl. Rmax_calc. reflexivity.
Qed.

(** C5 as stated fails: ten bars of 1 inch in layer 3 need 57.8 cm,
    more than b = 30, yet the window reports 14.94 and says OK. *)
Lemma base_check_skips_layer_3 :
  ~ spec_base_check 4 0.95 30 (rebar_rows bars_in_layer_3)
      (exec update_design_as bars_in_layer_3).
Proof.
  intros (req & Hspec & Hlabel & _).
  rewrite bars_in_layer_3_spec_reported in Hspec. injection Hspec as <-.
  destruct (required_areas_runs bars_in_layer_3 30 210 4200 0.9 50 4)
    as (w1 & rn & rp & Hra);
    [repeat split; reflexivity | reflexivity | reflexivity | rows_wf | lra..|].
  pose proof (update_design_as_closed bars_in_layer_3 w1 rn rp 4 30
                [ten_bars]
                [[default_row 1]; [default_row 2]; [default_row 3];
                 [default_row 4]; [default_row 5]]
                Hra eq_refl eq_refl) as Hup.
  cbv zeta in Hup. unfold exec in Hlabel. rewrite Hup in Hlabel.
  - cbn [fst derived set_ax_des set_base_msg set_base_req set_derived
         base_req_label] in Hlabel.
    change (dict_get DIAM_CM (cb_estribo bars_in_layer_3))
      with (dict_get sample_DIAM_CM (inch "3/8")) in Hlabel.
    rewrite sample_diam_stirrup, bars_in_layer_3_reported in Hlabel.
    injection Hlabel as Hlabel. lra.
  - text_wf.
  - reflexivity.
Qed.

Lemma six_default_rows_required :
  eval _required_areas six_default_rows
  = Ok (map (fun x => np_clip x (Real (as_min_formula 210 4200 30 44.415))
                              (as_max_formula 210 4200 30 44.415))
            (map (as_raw 210 30 44.415 4200 0.9) [-10; -5; -8]),
        map (fun x => np_clip x (Real (as_min_formula 210 4200 30 44.415))
                              (as_max_formula 210 4200 30 44.415))
            (map (as_raw 210 30 44.415 4200 0.9) [6; 7; 5])).
Proof.
  unfold eval.
  rewrite (required_areas_closed six_default_rows _ 30 210 4200 0.9 44.415
             ltac:(repeat split; reflexivity) six_default_rows_depth)
    by lra.
  reflexivity.
Qed.

Lemma base_width_check_witness :
  exists max_base,
    py_max (map (fun rows => Rmax (base_required_layer 4 0.95 rows 1)
                                  (base_required_layer 4 0.95 rows 2))
                (rebar_rows six_default_rows)) = Ok max_base /\
    base_req_label (derived (exec update_design_as six_default_rows))
    = Some max_base /\
    (base_msg_label (derived (exec update_design_as six_default_rows)) = "OK"
     <-> max_base <= 30) /\
    (~ max_base <= 30 ->
     base_msg_label (derived (exec update_design_as six_default_rows))
     = "Aumentar base o capa").
Proof.
  apply (base_width_check six_default_rows 4 30 _
           eq_refl eq_refl ltac:(text_wf) ltac:(discriminate)
           six_default_rows_required).
Defined.

Lemma unknown_key_adds_bars_only_witness :
  _design_areas (set_rebar_rows [[default_row 0; unselected_row 1]]
                                six_default_rows)
  = _design_areas (set_rebar_rows [[default_row 0]] six_default_rows) /\
  section_step six_default_rows ([], []) [default_row 0; unselected_row 1]
  = Ok ([provided_area [default_row 0]],
        [section_base_12 4 (dict_get DIAM_CM (cb_estribo six_default_rows))
                         [default_row 0; unselected_row 1]]).
Proof.
  destruct (unknown_key_adds_bars_only six_default_rows [default_row 0]
              (unselected_row 1) 1)
    as (_ & _ & Hareas & _ & _ & _ & Hbase);
    [reflexivity | reflexivity | text_wf | reflexivity |].
  split; [exact Hareas|].
  destruct (Hbase 4 eq_refl) as (_ & Hstep & _). exact Hstep.
Defined.

(** C7 as stated fails: a second row with 2 bars and no diameter
    selected adds no area and no diameter, yet its 2 bars count for the
    spacing, and the required base of the section goes from 14.94 cm to
    19.94 cm. *)
Lemma unselected_row_adds_width :
  ~ adds_no_width six_default_rows [default_row 0] (unselected_row 1).
Proof.
  unfold adds_no_width. simpl app.
  rewrite !(section_step_closed six_default_rows 4)
    by (reflexivity || text_wf).
  assert (Hw : section_base_12 4 0.95 [default_row 0; unselected_row 1]
               = 19.94).
  { unfold section_base_12, base_required_layer, layer_bar_count,
      layer_diam_sum, sumR, entry_diam.
    simpl. sample_values. Z_calc. Rmax_calc. lra. }
  pose proof (default_row_section_base 0) as Hw0.
  change (dict_get DIAM_CM (cb_estribo six_default_rows))
    with (dict_get sample_DIAM_CM (inch "3/8")).
  rewrite sample_diam_stirrup, Hw, Hw0.
  intros Heq. injection Heq as _ Heq. lra.
Qed.

End BaseWidthSamples.

Section ClickSamples.

Lemma rebar_rows_between_1_and_4_witness :
  length (rebar_rows
            (run_clicks [ClickAdd 0; ClickRemove 0 0; ClickRemove 0 6]
                        (init_window [-10; -5; -8] [6; 7; 5]))) = 6%nat /\
  Forall (fun rows => (1 <= length rows <= 4)%nat)
         (rebar_rows
            (run_clicks [ClickAdd 0; ClickRemove 0 0; ClickRemove 0 6]
                        (init_window [-10; -5; -8] [6; 7; 5]))) /\
  _add_rebar_row 0 four_rows_window = (four_rows_window, Ok tt) /\
  _remove_rebar_row 1 1 six_default_rows = (six_default_rows, Ok tt).
Proof.
  destruct (rebar_rows_between_1_and_4 [-10; -5; -8] [6; 7; 5]
              [ClickAdd 0; ClickRemove 0 0; ClickRemove 0 6])
    as (Hlen & Hall & Hadd & Hrem).
  split; [exact Hlen|]. split; [exact Hall|]. split.
  - apply (Hadd four_rows_window 0%nat
             [default_row 0; default_row 6; default_row 7; default_row 8]);
      [reflexivity | simpl; lia].
  - apply (Hrem six_default_rows 1%nat 1%nat [default_row 1]);
      [reflexivity | simpl; lia].
Defined.

Lemma reordering_keeps_areas_witness :
  design (exec (swap_bars "pos" 0 0 1) sample_view) = six_default_rows /\
  (exists lst1,
     pos_orders (exec (swap_bars "pos" 0 0 1) sample_view) !! 0%nat
     = Some lst1 /\ lst1 ≡ₚ [inch "1/2"; inch "5/8"]) /\
  (exists lst2,
     pos_orders (exec (move_bar "pos" 0 0 1) sample_view) !! 0%nat
     = Some lst2 /\ lst2 ≡ₚ [inch "1/2"; inch "5/8"]).
Proof.
  destruct (reordering_keeps_areas sample_view "pos" 0 0 1)
    as ((Hd & _) & _ & _ & _ & Hperm & _).
  split; [exact Hd|].
  apply (Hperm [inch "1/2"; inch "5/8"]). reflexivity.
Defined.

End ClickSamples.

Section ReorderingSamples.

Lemma sample_view_ready : view_ready sample_view.
Proof.
  split; [split; [reflexivity | simpl; text_wf]|].
  split; right; reflexivity.
Qed.

Lemma swap_bars_exchanges_witness :
  exists lst',
    pos_orders (exec (swap_bars "pos" 0 0 1) sample_view) !! 0%nat
    = Some lst' /\
    lst' !! 0%nat = Some (inch "5/8") /\ lst' !! 1%nat = Some (inch "1/2").
Proof.
  destruct (swap_bars_exchanges sample_view "pos" 0 0 1
              [inch "1/2"; inch "5/8"])
    as (lst' & Hat & _ & H0 & H1 & _); try reflexivity.
  exists lst'. split; [exact Hat|]. split; [exact H0 | exact H1].
Defined.

Lemma swap_bars_twice_witness :
  pos_orders (exec (swap_bars "pos" 0 0 1)
                   (exec (swap_bars "pos" 0 0 1) sample_view))
  = pos_orders sample_view.
Proof.
  apply (swap_bars_twice sample_view "pos" 0 0 1 [inch "1/2"; inch "5/8"]).
  reflexivity.
Defined.

Lemma move_bar_places_witness :
  exists lst',
    pos_orders (exec (move_bar "pos" 0 0 7) sample_view) !! 0%nat
    = Some lst' /\
    lst' !! 1%nat = Some (inch "1/2") /\
    delete 1%nat lst' = [inch "5/8"].
Proof.
  destruct (move_bar_places sample_view "pos" 0 0 7
              [inch "1/2"; inch "5/8"] (inch "1/2"))
    as (lst' & Hat & _ & Hc & Hdel & _); try reflexivity.
  exists lst'. split; [exact Hat|]. split; [exact Hc | exact Hdel].
Defined.

Lemma move_bar_back_witness :
  pos_orders (exec (move_bar "pos" 0 1 0)
                   (exec (move_bar "pos" 0 0 7) sample_view))
  = pos_orders sample_view.
Proof.
  apply (move_bar_back sample_view "pos" 0 0 7 [inch "1/2"; inch "5/8"]);
    reflexivity.
Defined.

Lemma change_order_sets_witness :
  pos_orders (exec (change_order "pos" 0 [inch "5/8"; inch "1/2"])
                   sample_view) !! 0%nat
  = Some [inch "5/8"; inch "1/2"] /\
  design (exec (change_order "pos" 0 [inch "5/8"; inch "1/2"]) sample_view)
  = six_default_rows.
Proof.
  destruct (change_order_sets sample_view "pos" 0
              [inch "5/8"; inch "1/2"] [] [inch "1/2"; inch "5/8"])
    as (Hat & _ & Hd & _); try reflexivity.
  split; [exact Hat | exact Hd].
Defined.

Lemma reordering_never_raises_witness :
  eval (swap_bars "pos" 0 0 1) sample_view = Ok tt /\
  eval (move_bar "neg" 2 5 (-1)) sample_view = Ok tt /\
  eval (change_order "pos" 0 []) sample_view = Ok tt.
Proof.
  split; [|split].
  - apply (reordering_never_raises sample_view "pos" 0 0 1 []),
      sample_view_ready.
  - apply (reordering_never_raises sample_view "neg" 2 5 (-1) []),
      sample_view_ready.
  - apply (reordering_never_raises sample_view "pos" 0 0 1 []),
      sample_view_ready.
Defined.

Lemma on_key_selection_follows_bar_witness :
  exists lst',
    selected (exec (_on_key "right")
                   {| window := sample_view;
                      selected := Some ("pos", 0%Z, 0%Z) |})
    = Some ("pos", 0%Z, 1%Z) /\
    pos_orders (window (exec (_on_key "right")
                   {| window := sample_view;
                      selected := Some ("pos", 0%Z, 0%Z) |})) !! 0%nat
    = Some lst' /\
    lst' !! 1%nat = Some (inch "1/2").
Proof.
  destruct (on_key_selection_follows_bar
              {| window := sample_view; selected := Some ("pos", 0%Z, 0%Z) |}
              "right" "pos" 0 0 [inch "1/2"; inch "5/8"])
    as (_ & idx' & lst' & Hsel & Hat & _ & Hbar & _ & Hr & _);
    try reflexivity; [exact sample_view_ready|].
  rewrite (Hr eq_refl) in Hsel, Hbar.
  exists lst'. split; [exact Hsel|]. split; [exact Hat | exact Hbar].
Defined.

End ReorderingSamples.

Section MoreSamples.

Lemma sample_diam_positive (key : string) (x : R) :
  sample_DIAM_CM !! key = Some x -> 0 < x.
Proof.
  unfold sample_DIAM_CM. intros Hx.
  repeat (apply lookup_insert_Some in Hx as [[_ <-]|[_ Hx]]; [lra|]).
  apply lookup_singleton_Some in Hx as [_ <-]. lra.
Qed.

Lemma sample_diam_nonneg (key : string) (x : R) :
  DIAM_CM !! key = Some x -> 0 <= x.
Proof. intros Hx. apply sample_diam_positive in Hx. lra. Qed.

Lemma sample_diam_nonzero (key : string) (x : R) :
  DIAM_CM !! key = Some x -> x <> 0.
Proof. intros Hx. apply sample_diam_positive in Hx. lra. Qed.

Lemma effective_depth_between_layers_witness :
  exists d,
    eval calc_effective_depth six_default_rows = Ok d /\
    d <= 50 - 4 - dict_get sample_DIAM_CM (inch "3/8").
Proof.
  destruct (effective_depth_between_layers six_default_rows 50 4)
    as (d & Hd & _ & _ & Hup);
    [reflexivity | reflexivity | rows_wf | exact sample_diam_nonneg |].
  exists d. split; [exact Hd | exact Hup].
Defined.

Lemma effective_depth_bad_layer_witness :
  calc_effective_depth
    (window_with [[mk_row (IntText 2) (inch "1/2") (IntText 5) 0]])
  = (window_with [[mk_row (IntText 2) (inch "1/2") (IntText 5) 0]],
     Raise KeyError).
Proof.
  destruct (effective_depth_bad_layer
              (window_with [[mk_row (IntText 2) (inch "1/2") (IntText 5) 0]])
              50 4 [] [] (mk_row (IntText 2) (inch "1/2") (IntText 5) 0))
    as [Hd _]; [reflexivity | reflexivity | reflexivity | constructor | |].
  - intros (k & Hk & Hrange). simpl in Hk. injection Hk as <-. lia.
  - exact Hd.
Defined.

Lemma required_areas_follow_moments_witness :
  exists reqs_n reqs_p a1 a2,
    eval _required_areas six_default_rows = Ok (reqs_n, reqs_p) /\
    length reqs_n = 3%nat /\
    (reqs_n ++ reqs_p) !! 1%nat = Some (Real a1) /\
    (reqs_n ++ reqs_p) !! 3%nat = Some (Real a2) /\
    a1 <= a2.
Proof.
  destruct (required_areas_follow_moments six_default_rows
              30 210 4200 0.9 50 4)
    as (reqs_n & reqs_p & Hrun & Hn & _ & Hmono);
    [repeat split; reflexivity | reflexivity | reflexivity | rows_wf
    | lra | lra | lra | lra |].
  destruct (Hmono 1%nat 3%nat (-5) 6 eq_refl eq_refl)
    as (a1 & a2 & H1 & H2 & Hle & _).
  { rewrite Rabs_left by lra. rewrite Rabs_pos_eq by lra. lra. }
  exists reqs_n, reqs_p, a1, a2. repeat split; assumption.
Defined.

Lemma six_default_rows_required_run :
  _required_areas six_default_rows
  = (set_raw (map (as_raw 210 30 44.415 4200 0.9) [-10; -5; -8])
             (map (as_raw 210 30 44.415 4200 0.9) [6; 7; 5])
       (set_limits (Real (as_min_formula 210 4200 30 44.415))
                   (as_max_formula 210 4200 30 44.415)
                   (set_layer_combo 1 six_default_rows)),
     Ok (map (fun x => np_clip x (Real (as_min_formula 210 4200 30 44.415))
                                 (as_max_formula 210 4200 30 44.415))
             (map (as_raw 210 30 44.415 4200 0.9) [-10; -5; -8]),
         map (fun x => np_clip x (Real (as_min_formula 210 4200 30 44.415))
                                 (as_max_formula 210 4200 30 44.415))
             (map (as_raw 210 30 44.415 4200 0.9) [6; 7; 5]))).
Proof.
  rewrite (required_areas_closed six_default_rows _ 30 210 4200 0.9 44.415
             ltac:(repeat split; reflexivity) six_default_rows_depth)
    by lra.
  reflexivity.
Qed.

Lemma update_design_as_totals_witness :
  eval update_design_as six_default_rows = Ok tt /\
  fst (ax_des (derived (exec update_design_as six_default_rows)))
  = _design_areas six_default_rows /\
  length (snd (ax_des (derived (exec update_design_as six_default_rows))))
  = 6%nat.
Proof.
  destruct (update_design_as_totals six_default_rows _ _ _
              six_default_rows_required_run ltac:(text_wf))
    as (Hok & Hfst & _ & Hlen & _).
  split; [exact Hok|]. split; [exact Hfst | exact Hlen].
Defined.

Local Abbreviation no_cover :=
  (with_edits {| edit_b := FloatText 30; edit_h := FloatText 50;
                 edit_r := NotFloat; edit_fc := FloatText 210;
                 edit_fy := FloatText 4200; edit_phi := FloatText 0.9 |}
              six_default_rows).

Lemma no_cover_required_run :
  _required_areas no_cover
  = (set_raw (map (as_raw 210 30 0 4200 0.9) [-10; -5; -8])
             (map (as_raw 210 30 0 4200 0.9) [6; 7; 5])
       (set_limits (Real (as_min_formula 210 4200 30 0))
                   (as_max_formula 210 4200 30 0) no_cover),
     Ok (map (fun x => np_clip x (Real (as_min_formula 210 4200 30 0))
                                 (as_max_formula 210 4200 30 0))
             (map (as_raw 210 30 0 4200 0.9) [-10; -5; -8]),
         map (fun x => np_clip x (Real (as_min_formula 210 4200 30 0))
                                 (as_max_formula 210 4200 30 0))
             (map (as_raw 210 30 0 4200 0.9) [6; 7; 5]))).
Proof.
  rewrite (required_areas_closed no_cover no_cover 30 210 4200 0.9 0
             ltac:(repeat split; reflexivity)
             (calc_effective_depth_invalid no_cover
                ltac:(right; reflexivity)))
    by lra.
  reflexivity.
Qed.

Lemma update_design_as_base_labels_witness :
  base_req_label (derived (exec update_design_as no_cover)) = None /\
  base_msg_label (derived (exec update_design_as no_cover)) = EmptyString.
Proof.
  destruct (update_design_as_base_labels no_cover _ _ _
              no_cover_required_run ltac:(text_wf)) as [Hstale _].
  apply Hstale. left. reflexivity.
Defined.

Lemma six_default_rows_inv : rows_inv six_default_rows.
Proof.
  split; [reflexivity|].
  change (Forall (section_ok 100)
            [ [default_row 0]; [default_row 1]; [default_row 2];
              [default_row 3]; [default_row 4]; [default_row 5] ]).
  repeat (apply List.Forall_cons;
          [apply section_ok_single; cbn [widget default_row mk_row]; lia|]).
  apply List.Forall_nil.
Qed.

Lemma add_then_remove_row_witness :
  rebar_rows (exec (_remove_rebar_row 0 100)
                   (exec (_add_rebar_row 0) six_default_rows))
  = rebar_rows six_default_rows.
Proof.
  destruct (add_then_remove_row six_default_rows 0 [default_row 0]
              six_default_rows_inv eq_refl ltac:(simpl; lia))
    as (_ & _ & Hback & _).
  exact Hback.
Defined.

Lemma row_order_is_irrelevant_witness :
  _design_areas
    (window_with [ [ mk_row (IntText 2) (inch "1/2") (IntText 2) 2;
                     default_row 0; default_row 1 ];
                   [idle_row 3]; [idle_row 4]; [idle_row 5]; [idle_row 6];
                   [idle_row 7] ])
  = _design_areas two_in_layer_1.
Proof.
  destruct (row_order_is_irrelevant two_in_layer_1
              (window_with
                 [ [ mk_row (IntText 2) (inch "1/2") (IntText 2) 2;
                     default_row 0; default_row 1 ];
                   [idle_row 3]; [idle_row 4]; [idle_row 5]; [idle_row 6];
                   [idle_row 7] ])) as [Hareas _];
    [ | reflexivity | reflexivity | simpl; text_wf | exact Hareas].
  constructor.
  - apply Permutation_sym, (Permutation_cons_append [default_row 0; default_row 1]).
  - repeat (constructor; [reflexivity|]). constructor.
Defined.

Lemma collect_bars_matches_order_witness :
  exists layers,
    _collect_bars six_default_rows 0 = Ok layers /\
    _collect_order six_default_rows 0 = Ok [inch "1/2"; inch "1/2"] /\
    bars_of_layers layers ≡ₚ [inch "1/2"; inch "1/2"].
Proof.
  destruct (collect_bars_matches_order six_default_rows 0 [default_row 0])
    as (layers & Hb & Ho & Hp);
    [reflexivity | text_wf | exact sample_diam_nonzero |].
  exists layers. split; [exact Hb|]. split; [exact Ho | exact Hp].
Defined.

Lemma build_memoria_numbers_witness :
  exists mem,
    _build_memoria six_default_rows = Ok (Some mem) /\
    mem_d mem = 44.255 /\ length (mem_verif mem) = 6%nat.
Proof.
  destruct (build_memoria_numbers six_default_rows 30 210 4200 0.9 50 4)
    as (mem & Hrun & Hd & _ & _ & _ & Hlen & _);
    [repeat split; reflexivity | reflexivity | reflexivity
    | lra | lra | lra | lra |].
  exists mem. split; [exact Hrun|]. split; [|exact Hlen].
  rewrite Hd.
  change (dict_get DIAM_CM (cb_estribo six_default_rows))
    with (dict_get sample_DIAM_CM (inch "3/8")).
  change (dict_get DIAM_CM (cb_varilla six_default_rows))
    with (dict_get sample_DIAM_CM (inch "5/8")).
  rewrite sample_diam_stirrup, sample_diam_bar. lra.
Defined.

Local Abbreviation idle := (concat (rebar_rows six_idle_rows)).

Lemma six_idle_rows_entries :
  layer_entries 1 idle
  = [idle_row 0; idle_row 1; idle_row 2; idle_row 3; idle_row 4; idle_row 5]
  /\ layer_entries 2 idle = [] /\ layer_entries 3 idle = [] /\
  layer_entries 4 idle = [].
Proof. vm_compute. auto. Qed.

Lemma six_idle_rows_largest :
  largest_entry_area idle 1 = 0 /\ largest_entry_area idle 2 = 0 /\
  largest_entry_area idle 3 = 0 /\ largest_entry_area idle 4 = 0.
Proof.
  destruct six_idle_rows_entries as (E1 & E2 & E3 & E4).
  unfold largest_entry_area. rewrite E1, E2, E3, E4.
  unfold entry_area. simpl. sample_values. Rmax_calc. lra.
Qed.

(** With every quantity blank the depth is d1 with the diameter of the
    bar combo: 50 - 4 - 0.95 - 1.59 / 2. *)
Lemma six_idle_rows_depth :
  calc_effective_depth six_idle_rows
  = (set_layer_combo 1 six_idle_rows,
     Ok (50 - 4 - dict_get DIAM_CM (cb_estribo six_idle_rows)
         - 0.5 * dict_get DIAM_CM (cb_varilla six_idle_rows))).
Proof.
  rewrite (calc_effective_depth_closed six_idle_rows 50 4)
    by (reflexivity || rows_wf).
  destruct six_idle_rows_largest as (L1 & L2 & L3 & L4).
  assert (Hk : highest_layer (largest_entry_area idle) = 1%Z).
  { unfold highest_layer. rewrite L4, L3, L2.
    repeat case_decide; try lra; reflexivity. }
  rewrite Hk. f_equal. f_equal.
  unfold weighted_depth. rewrite Hk.
  unfold sumR, layer_depth, representative_diam. simpl in *.
  rewrite L1. repeat case_decide; lra.
Qed.

Lemma memoria_agrees_with_window_witness :
  exists mem reqs_n reqs_p,
    _build_memoria six_idle_rows = Ok (Some mem) /\
    eval _required_areas six_idle_rows = Ok (reqs_n, reqs_p) /\
    mem_as_max mem = as_max (derived (exec _required_areas six_idle_rows)).
Proof.
  destruct (memoria_agrees_with_window six_idle_rows _
              30 210 4200 0.9 50 4
              ltac:(repeat split; reflexivity) eq_refl eq_refl
              ltac:(lra) ltac:(lra) ltac:(lra) ltac:(lra) ltac:(text_wf)
              six_idle_rows_depth)
    as (mem & reqs_n & reqs_p & Hrun & Hreq & _ & Hmax & _).
  exists mem, reqs_n, reqs_p. repeat split; assumption.
Defined.

Lemma memoria_depth_single_layer_witness :
  exists mem dw,
    _build_memoria six_default_rows = Ok (Some mem) /\
    eval calc_effective_depth six_default_rows = Ok dw /\
    dw - mem_d mem = 0.16.
Proof.
  destruct six_default_rows_largest as (L1 & L2 & L3 & L4).
  destruct (memoria_depth_single_layer six_default_rows
              30 210 4200 0.9 50 4)
    as (mem & dw & Hrun & Hd & Hdiff & _);
    [repeat split; reflexivity | reflexivity | reflexivity
    | lra | lra | lra | lra | rows_wf | |].
  - unfold highest_layer. rewrite L4, L3, L2.
    repeat case_decide; try lra; reflexivity.
  - exists mem, dw. split; [exact Hrun|]. split; [exact Hd|].
    rewrite Hdiff.
    rewrite (six_default_rows_diam
               (dict_get DIAM_CM (cb_varilla six_default_rows))).
    change (dict_get DIAM_CM (cb_varilla six_default_rows))
      with (dict_get sample_DIAM_CM (inch "5/8")).
    rewrite sample_diam_bar. lra.
Defined.

End MoreSamples.

Section EdgeSamples.

Lemma formulas_defined_witness :
  _calc_as_req 10 210 30 44 0 0.9 = Raise ZeroDivisionError /\
  _calc_as_limits 210 (-6000) 30 44 = Raise ZeroDivisionError.
Proof.
  destruct (formulas_defined 10 210 30 44 0 0.9) as (Hreq & _).
  destruct (formulas_defined 10 210 30 44 (-6000) 0.9)
    as (_ & _ & _ & Hlim & _).
  split; [apply Hreq; reflexivity | apply Hlim; right; reflexivity].
Defined.

Lemma draw_views_resets_orders_witness :
  pos_orders sample_view !! 0%nat = Some [inch "1/2"; inch "5/8"] /\
  pos_orders (exec (draw_views true) sample_view) !! 0%nat
  = Some [inch "1/2"; inch "1/2"].
Proof.
  split; [reflexivity|].
  destruct (draw_views_resets_orders sample_view (proj1 sample_view_ready))
    as (_ & _ & _ & Hgood).
  destruct (Hgood 30 50 4 eq_refl eq_refl eq_refl) as (_ & _ & Hat).
  apply (Hat 0%nat [default_row 3]); [lia | reflexivity].
Defined.

Lemma reordering_guards_witness :
  swap_bars "top" 0 0 1 sample_view = (sample_view, Ok tt) /\
  move_bar "pos" 0 1 7 sample_view = (sample_view, Ok tt).
Proof.
  destruct (reordering_guards sample_view "top" 0 0 1 []) as [Hsign _].
  destruct (reordering_guards sample_view "pos" 0 1 7 []) as [_ Hidx].
  split.
  - apply Hsign. left. reflexivity.
  - apply (Hidx [inch "1/2"; inch "5/8"]); [reflexivity|].
    right. reflexivity.
Defined.

Lemma build_memoria_none_witness : _build_memoria no_height = Ok None.
Proof.
  apply (build_memoria_none no_height).
  unfold some_input_invalid. do 4 right. left. reflexivity.
Defined.

End EdgeSamples.

Section DrawingSamples.

Lemma two_layer_rows_bars :
  _collect_bars two_layer_rows 0
  = Ok (<[2%Z := [(1.59, inch "5/8"); (1.59, inch "5/8")] ]>
          (<[1%Z := [(1.27, inch "1/2"); (1.27, inch "1/2")] ]> ∅)).
Proof.
  unfold _collect_bars, rows_at.
  change (rebar_rows two_layer_rows !! 0%nat)
    with (Some [ mk_row (IntText 2) (inch "1/2") (IntText 1) 0;
                 mk_row (IntText 2) (inch "5/8") (IntText 2) 1 ]).
  cbn [mbind result_bind foldM mk_row qty dia capa qty_of int_or].
  change (dict_get DIAM_CM (inch "1/2"))
    with (dict_get sample_DIAM_CM (inch "1/2")).
  change (dict_get DIAM_CM (inch "5/8"))
    with (dict_get sample_DIAM_CM (inch "5/8")).
  rewrite sample_diam_half, sample_diam_bar.
  rewrite (decide_False (P := (2 <= 0)%Z \/ 1.27 = 0))
    by (intros [?|?]; [lia | lra]).
  cbn [mbind result_bind].
  rewrite (decide_False (P := (2 <= 0)%Z \/ 1.59 = 0))
    by (intros [?|?]; [lia | lra]).
  reflexivity.
Qed.

Lemma two_layer_view_collected :
  collect_orders two_layer_rows 0 = Ok (neg_orders two_layer_view).
Proof. reflexivity. Qed.

Lemma two_layer_view_fits :
  order_fits [inch "1/2"; inch "1/2"; inch "5/8"; inch "5/8"]
    (<[2%Z := [(1.59, inch "5/8"); (1.59, inch "5/8")] ]>
       (<[1%Z := [(1.27, inch "1/2"); (1.27, inch "1/2")] ]> ∅)).
Proof.
  split; [|reflexivity].
  change (sorted_keys _) with [1; 2]%Z.
  constructor; [discriminate|]. constructor; [discriminate|]. constructor.
Qed.

(** C8 as stated fails: with two bars of 1/2 inch in layer 1 and two of
    5/8 inch in layer 2, swapping the second and the third bar of the
    order makes the view draw a bar of 1/2 and a bar of 5/8 inch in each
    layer, where each layer showed two equal bars before. *)
Lemma swap_across_layers_redraws :
  ~ spec_only_x_changes false 0 two_layer_view
      (exec (swap_bars "neg" 0 1 2) two_layer_view).
Proof.
  intros (before & after & Hb & Ha & Hall).
  unfold drawn_bars in Hb, Ha.
  rewrite (keeps_design_swap_bars "neg" 0 1 2 two_layer_view) in Ha.
  change (design two_layer_view) with two_layer_rows in Hb, Ha.
  rewrite two_layer_rows_bars in Hb, Ha. cbn [mbind result_bind] in Hb, Ha.
  change (orders_of false ?x) with (orders_of (bool_decide ("neg" = "pos")) x)
    in Ha.
  rewrite (swap_bars_orders two_layer_view "neg" 0 1 2
             [inch "1/2"; inch "1/2"; inch "5/8"; inch "5/8"]
             (inch "1/2") (inch "5/8")) in Ha by reflexivity.
  injection Hb as <-. injection Ha as <-.
  apply Forall2_cons_1 in Hall as [[_ Hperm] _].
  cbn in Hperm.
  assert (Hin : inch "5/8" ∈ [inch "1/2"; inch "1/2"]).
  { rewrite <- Hperm. apply list_elem_of_further, list_elem_of_here. }
  vm_compute in Hin.
  apply elem_of_cons in Hin as [Hin|Hin]; [discriminate|].
  apply elem_of_cons in Hin as [Hin|Hin]; [discriminate|].
  inversion Hin.
Qed.

End DrawingSamples.

Section RoundingSamples.

(** At a moment of zero, with the depth of the report on the window as
    built, the code returns - 2 ^ -47. *)
Lemma calc_as_req_b64_at_zero :
  B64.at_zero_moment = Ok B64.minus_two_to_minus_47.
Proof. vm_compute. reflexivity. Qed.


End RoundingSamples.
